(** * HVAC.cpp: the equipment sequencer of the ESP8266 thermostat

    A shallow embedding of [src/Arduino/HVAC.cpp] (class [HVAC]) and the
    properties of its tick handler [service], its decision pass [tempCheck],
    the target calculator [calcTargetTemp], the automatic selector
    [preCalcCycle] and the setters.

    Conventions of the embedding.
    - The object is a record [HVAC]; every method is a function from the
      object before the call to the object after it.  The four GPIO pins
      the class drives are part of that record ([gpio]): [digitalWrite]
      sets a pin level, [digitalRead] reads it back ([true] is HIGH).
    - [HVAC.h], which declares the members and the enumerations, is not
      among the sources.  Temperatures are 16-bit signed, as the
      signatures of [updateIndoorTemp], [updateOutdoorTemp], [setTemp] and
      [getSetTemp] have them.  The second counters ([m_cycleTimer],
      [m_idleTimer], ...) are unsigned counters whose modulus [cmod] is a
      parameter of the development.  Locals and parameters are converted
      as the .cpp declares them ([int8_t], [uint8_t], [int16_t],
      [uint16_t]).
    - An integer division by zero is the only fault the code can raise;
      a function that can reach one returns [res], whose second
      constructor is that fault.
    - [second()] of Time.h is an input of the tick: the second of the
      minute at which [service] runs.  [delay] changes no state. *)

From Stdlib Require Import ZArith Bool List String Ascii Lia.
Import ListNotations.
Local Open Scope Z_scope.

(** ** Machine integers and Arduino macros *)

Definition to_int8 (x : Z) : Z := (x + 128) mod 256 - 128.
Definition to_uint8 (x : Z) : Z := x mod 256.
Definition to_int16 (x : Z) : Z := (x + 32768) mod 65536 - 32768.
Definition to_uint16 (x : Z) : Z := x mod 65536.

(** [constrain(amt, low, high)] of Arduino.h. *)
Definition constrain (amt low high : Z) : Z :=
  if amt <? low then low else if high <? amt then high else amt.

(** A two-element array ([coolTemp[2]], [m_outMin[2]], ...), indexed by a
    bit: [false] is index 0 and [true] index 1. *)
Definition arr2 : Type := (Z * Z)%type.

Definition idx (a : arr2) (i : bool) : Z := if i then snd a else fst a.

Definition upd (a : arr2) (i : bool) (v : Z) : arr2 :=
  if i then (fst a, v) else (v, snd a).

(** ** Enumerations of HVAC.h *)

(** Modelled from the spec: the enumerators of [HVAC.h] (absent), in the
    order section 3 lists them, "Off/Cool/Heat/Auto"; [setMode] masks a
    mode with 3. *)
Definition Mode_Off : Z := 0.
Definition Mode_Cool : Z := 1.
Definition Mode_Heat : Z := 2.
Definition Mode_Auto : Z := 3.

(** Modelled from the spec: the heat sources of [HVAC.h] (absent), in the
    order section 3 lists them, "HeatPump/Gas/Auto"; [service] tests the
    gas furnace with [if(hm)] and [setHeatMode] reduces modulo 3. *)
Definition Heat_HP : Z := 0.
Definition Heat_NG : Z := 1.
Definition Heat_Auto : Z := 2.

(** The notifications [m_notif] holds. *)
Inductive Notif : Type := Note_None | Note_CycleLimit | Note_Filter.

(** [#define FF_DELAY 120]: internal furnace fan post-run delay. *)
Definition FF_DELAY : Z := 120.

(** ** The object *)

Record EEConfig : Type := {
  cycleMin : Z;
  cycleMax : Z;
  idleMin : Z;
  cycleThresh : Z;
  coolTemp : arr2;
  heatTemp : arr2;
  eHeatThresh : Z;
  fanPostDelay : arr2;
  overrideTime : Z;
  filterMinutes : Z;
  Mode : Z;
  heatMode : Z
}.

Definition set_cycleMin (x : Z) (e : EEConfig) : EEConfig :=
  {| cycleMin := x; cycleMax := cycleMax e; idleMin := idleMin e; cycleThresh := cycleThresh e; coolTemp := coolTemp e; heatTemp := heatTemp e; eHeatThresh := eHeatThresh e; fanPostDelay := fanPostDelay e; overrideTime := overrideTime e; filterMinutes := filterMinutes e; Mode := Mode e; heatMode := heatMode e |}.
Definition set_cycleMax (x : Z) (e : EEConfig) : EEConfig :=
  {| cycleMin := cycleMin e; cycleMax := x; idleMin := idleMin e; cycleThresh := cycleThresh e; coolTemp := coolTemp e; heatTemp := heatTemp e; eHeatThresh := eHeatThresh e; fanPostDelay := fanPostDelay e; overrideTime := overrideTime e; filterMinutes := filterMinutes e; Mode := Mode e; heatMode := heatMode e |}.
Definition set_idleMin (x : Z) (e : EEConfig) : EEConfig :=
  {| cycleMin := cycleMin e; cycleMax := cycleMax e; idleMin := x; cycleThresh := cycleThresh e; coolTemp := coolTemp e; heatTemp := heatTemp e; eHeatThresh := eHeatThresh e; fanPostDelay := fanPostDelay e; overrideTime := overrideTime e; filterMinutes := filterMinutes e; Mode := Mode e; heatMode := heatMode e |}.
Definition set_cycleThresh (x : Z) (e : EEConfig) : EEConfig :=
  {| cycleMin := cycleMin e; cycleMax := cycleMax e; idleMin := idleMin e; cycleThresh := x; coolTemp := coolTemp e; heatTemp := heatTemp e; eHeatThresh := eHeatThresh e; fanPostDelay := fanPostDelay e; overrideTime := overrideTime e; filterMinutes := filterMinutes e; Mode := Mode e; heatMode := heatMode e |}.
Definition set_coolTemp (x : arr2) (e : EEConfig) : EEConfig :=
  {| cycleMin := cycleMin e; cycleMax := cycleMax e; idleMin := idleMin e; cycleThresh := cycleThresh e; coolTemp := x; heatTemp := heatTemp e; eHeatThresh := eHeatThresh e; fanPostDelay := fanPostDelay e; overrideTime := overrideTime e; filterMinutes := filterMinutes e; Mode := Mode e; heatMode := heatMode e |}.
Definition set_heatTemp (x : arr2) (e : EEConfig) : EEConfig :=
  {| cycleMin := cycleMin e; cycleMax := cycleMax e; idleMin := idleMin e; cycleThresh := cycleThresh e; coolTemp := coolTemp e; heatTemp := x; eHeatThresh := eHeatThresh e; fanPostDelay := fanPostDelay e; overrideTime := overrideTime e; filterMinutes := filterMinutes e; Mode := Mode e; heatMode := heatMode e |}.
Definition set_eHeatThresh (x : Z) (e : EEConfig) : EEConfig :=
  {| cycleMin := cycleMin e; cycleMax := cycleMax e; idleMin := idleMin e; cycleThresh := cycleThresh e; coolTemp := coolTemp e; heatTemp := heatTemp e; eHeatThresh := x; fanPostDelay := fanPostDelay e; overrideTime := overrideTime e; filterMinutes := filterMinutes e; Mode := Mode e; heatMode := heatMode e |}.
Definition set_fanPostDelay (x : arr2) (e : EEConfig) : EEConfig :=
  {| cycleMin := cycleMin e; cycleMax := cycleMax e; idleMin := idleMin e; cycleThresh := cycleThresh e; coolTemp := coolTemp e; heatTemp := heatTemp e; eHeatThresh := eHeatThresh e; fanPostDelay := x; overrideTime := overrideTime e; filterMinutes := filterMinutes e; Mode := Mode e; heatMode := heatMode e |}.
Definition set_overrideTime (x : Z) (e : EEConfig) : EEConfig :=
  {| cycleMin := cycleMin e; cycleMax := cycleMax e; idleMin := idleMin e; cycleThresh := cycleThresh e; coolTemp := coolTemp e; heatTemp := heatTemp e; eHeatThresh := eHeatThresh e; fanPostDelay := fanPostDelay e; overrideTime := x; filterMinutes := filterMinutes e; Mode := Mode e; heatMode := heatMode e |}.
Definition set_filterMinutes (x : Z) (e : EEConfig) : EEConfig :=
  {| cycleMin := cycleMin e; cycleMax := cycleMax e; idleMin := idleMin e; cycleThresh := cycleThresh e; coolTemp := coolTemp e; heatTemp := heatTemp e; eHeatThresh := eHeatThresh e; fanPostDelay := fanPostDelay e; overrideTime := overrideTime e; filterMinutes := x; Mode := Mode e; heatMode := heatMode e |}.
Definition set_Mode (x : Z) (e : EEConfig) : EEConfig :=
  {| cycleMin := cycleMin e; cycleMax := cycleMax e; idleMin := idleMin e; cycleThresh := cycleThresh e; coolTemp := coolTemp e; heatTemp := heatTemp e; eHeatThresh := eHeatThresh e; fanPostDelay := fanPostDelay e; overrideTime := overrideTime e; filterMinutes := filterMinutes e; Mode := x; heatMode := heatMode e |}.
Definition set_heatMode (x : Z) (e : EEConfig) : EEConfig :=
  {| cycleMin := cycleMin e; cycleMax := cycleMax e; idleMin := idleMin e; cycleThresh := cycleThresh e; coolTemp := coolTemp e; heatTemp := heatTemp e; eHeatThresh := eHeatThresh e; fanPostDelay := fanPostDelay e; overrideTime := overrideTime e; filterMinutes := filterMinutes e; Mode := Mode e; heatMode := x |}.

Record Pins : Type := {
  P_FAN : bool;
  P_COOL : bool;
  P_REV : bool;
  P_HEAT : bool
}.

Definition set_P_FAN (x : bool) (g : Pins) : Pins :=
  {| P_FAN := x; P_COOL := P_COOL g; P_REV := P_REV g; P_HEAT := P_HEAT g |}.
Definition set_P_COOL (x : bool) (g : Pins) : Pins :=
  {| P_FAN := P_FAN g; P_COOL := x; P_REV := P_REV g; P_HEAT := P_HEAT g |}.
Definition set_P_REV (x : bool) (g : Pins) : Pins :=
  {| P_FAN := P_FAN g; P_COOL := P_COOL g; P_REV := x; P_HEAT := P_HEAT g |}.
Definition set_P_HEAT (x : bool) (g : Pins) : Pins :=
  {| P_FAN := P_FAN g; P_COOL := P_COOL g; P_REV := P_REV g; P_HEAT := x |}.

Record HVAC : Type := {
  m_EE : EEConfig;
  m_remoteTimeout : Z;
  m_outTemp : Z;
  m_inTemp : Z;
  m_rh : Z;
  m_targetTemp : Z;
  m_bFanRunning : bool;
  m_outMin : arr2;
  m_outMax : arr2;
  m_bFanMode : bool;
  m_AutoMode : Z;
  m_setMode : Z;
  m_setHeat : Z;
  m_AutoHeat : Z;
  m_bRunning : bool;
  m_bStart : bool;
  m_bStop : bool;
  m_bRecheck : bool;
  m_bEnabled : bool;
  m_runTotal : Z;
  m_fanOnTimer : Z;
  m_cycleTimer : Z;
  m_fanPostTimer : Z;
  m_overrideTimer : Z;
  m_ovrTemp : Z;
  m_remoteTimer : Z;
  m_furnaceFan : Z;
  m_notif : Notif;
  m_idleTimer : Z;
  nSecs : Z;
  gpio : Pins
}.

Definition set_m_EE (x : EEConfig) (s : HVAC) : HVAC :=
  {| m_EE := x; m_remoteTimeout := m_remoteTimeout s; m_outTemp := m_outTemp s; m_inTemp := m_inTemp s; m_rh := m_rh s; m_targetTemp := m_targetTemp s; m_bFanRunning := m_bFanRunning s; m_outMin := m_outMin s; m_outMax := m_outMax s; m_bFanMode := m_bFanMode s; m_AutoMode := m_AutoMode s; m_setMode := m_setMode s; m_setHeat := m_setHeat s; m_AutoHeat := m_AutoHeat s; m_bRunning := m_bRunning s; m_bStart := m_bStart s; m_bStop := m_bStop s; m_bRecheck := m_bRecheck s; m_bEnabled := m_bEnabled s; m_runTotal := m_runTotal s; m_fanOnTimer := m_fanOnTimer s; m_cycleTimer := m_cycleTimer s; m_fanPostTimer := m_fanPostTimer s; m_overrideTimer := m_overrideTimer s; m_ovrTemp := m_ovrTemp s; m_remoteTimer := m_remoteTimer s; m_furnaceFan := m_furnaceFan s; m_notif := m_notif s; m_idleTimer := m_idleTimer s; nSecs := nSecs s; gpio := gpio s |}.
Definition set_m_remoteTimeout (x : Z) (s : HVAC) : HVAC :=
  {| m_EE := m_EE s; m_remoteTimeout := x; m_outTemp := m_outTemp s; m_inTemp := m_inTemp s; m_rh := m_rh s; m_targetTemp := m_targetTemp s; m_bFanRunning := m_bFanRunning s; m_outMin := m_outMin s; m_outMax := m_outMax s; m_bFanMode := m_bFanMode s; m_AutoMode := m_AutoMode s; m_setMode := m_setMode s; m_setHeat := m_setHeat s; m_AutoHeat := m_AutoHeat s; m_bRunning := m_bRunning s; m_bStart := m_bStart s; m_bStop := m_bStop s; m_bRecheck := m_bRecheck s; m_bEnabled := m_bEnabled s; m_runTotal := m_runTotal s; m_fanOnTimer := m_fanOnTimer s; m_cycleTimer := m_cycleTimer s; m_fanPostTimer := m_fanPostTimer s; m_overrideTimer := m_overrideTimer s; m_ovrTemp := m_ovrTemp s; m_remoteTimer := m_remoteTimer s; m_furnaceFan := m_furnaceFan s; m_notif := m_notif s; m_idleTimer := m_idleTimer s; nSecs := nSecs s; gpio := gpio s |}.
Definition set_m_outTemp (x : Z) (s : HVAC) : HVAC :=
  {| m_EE := m_EE s; m_remoteTimeout := m_remoteTimeout s; m_outTemp := x; m_inTemp := m_inTemp s; m_rh := m_rh s; m_targetTemp := m_targetTemp s; m_bFanRunning := m_bFanRunning s; m_outMin := m_outMin s; m_outMax := m_outMax s; m_bFanMode := m_bFanMode s; m_AutoMode := m_AutoMode s; m_setMode := m_setMode s; m_setHeat := m_setHeat s; m_AutoHeat := m_AutoHeat s; m_bRunning := m_bRunning s; m_bStart := m_bStart s; m_bStop := m_bStop s; m_bRecheck := m_bRecheck s; m_bEnabled := m_bEnabled s; m_runTotal := m_runTotal s; m_fanOnTimer := m_fanOnTimer s; m_cycleTimer := m_cycleTimer s; m_fanPostTimer := m_fanPostTimer s; m_overrideTimer := m_overrideTimer s; m_ovrTemp := m_ovrTemp s; m_remoteTimer := m_remoteTimer s; m_furnaceFan := m_furnaceFan s; m_notif := m_notif s; m_idleTimer := m_idleTimer s; nSecs := nSecs s; gpio := gpio s |}.
Definition set_m_inTemp (x : Z) (s : HVAC) : HVAC :=
  {| m_EE := m_EE s; m_remoteTimeout := m_remoteTimeout s; m_outTemp := m_outTemp s; m_inTemp := x; m_rh := m_rh s; m_targetTemp := m_targetTemp s; m_bFanRunning := m_bFanRunning s; m_outMin := m_outMin s; m_outMax := m_outMax s; m_bFanMode := m_bFanMode s; m_AutoMode := m_AutoMode s; m_setMode := m_setMode s; m_setHeat := m_setHeat s; m_AutoHeat := m_AutoHeat s; m_bRunning := m_bRunning s; m_bStart := m_bStart s; m_bStop := m_bStop s; m_bRecheck := m_bRecheck s; m_bEnabled := m_bEnabled s; m_runTotal := m_runTotal s; m_fanOnTimer := m_fanOnTimer s; m_cycleTimer := m_cycleTimer s; m_fanPostTimer := m_fanPostTimer s; m_overrideTimer := m_overrideTimer s; m_ovrTemp := m_ovrTemp s; m_remoteTimer := m_remoteTimer s; m_furnaceFan := m_furnaceFan s; m_notif := m_notif s; m_idleTimer := m_idleTimer s; nSecs := nSecs s; gpio := gpio s |}.
Definition set_m_rh (x : Z) (s : HVAC) : HVAC :=
  {| m_EE := m_EE s; m_remoteTimeout := m_remoteTimeout s; m_outTemp := m_outTemp s; m_inTemp := m_inTemp s; m_rh := x; m_targetTemp := m_targetTemp s; m_bFanRunning := m_bFanRunning s; m_outMin := m_outMin s; m_outMax := m_outMax s; m_bFanMode := m_bFanMode s; m_AutoMode := m_AutoMode s; m_setMode := m_setMode s; m_setHeat := m_setHeat s; m_AutoHeat := m_AutoHeat s; m_bRunning := m_bRunning s; m_bStart := m_bStart s; m_bStop := m_bStop s; m_bRecheck := m_bRecheck s; m_bEnabled := m_bEnabled s; m_runTotal := m_runTotal s; m_fanOnTimer := m_fanOnTimer s; m_cycleTimer := m_cycleTimer s; m_fanPostTimer := m_fanPostTimer s; m_overrideTimer := m_overrideTimer s; m_ovrTemp := m_ovrTemp s; m_remoteTimer := m_remoteTimer s; m_furnaceFan := m_furnaceFan s; m_notif := m_notif s; m_idleTimer := m_idleTimer s; nSecs := nSecs s; gpio := gpio s |}.
Definition set_m_targetTemp (x : Z) (s : HVAC) : HVAC :=
  {| m_EE := m_EE s; m_remoteTimeout := m_remoteTimeout s; m_outTemp := m_outTemp s; m_inTemp := m_inTemp s; m_rh := m_rh s; m_targetTemp := x; m_bFanRunning := m_bFanRunning s; m_outMin := m_outMin s; m_outMax := m_outMax s; m_bFanMode := m_bFanMode s; m_AutoMode := m_AutoMode s; m_setMode := m_setMode s; m_setHeat := m_setHeat s; m_AutoHeat := m_AutoHeat s; m_bRunning := m_bRunning s; m_bStart := m_bStart s; m_bStop := m_bStop s; m_bRecheck := m_bRecheck s; m_bEnabled := m_bEnabled s; m_runTotal := m_runTotal s; m_fanOnTimer := m_fanOnTimer s; m_cycleTimer := m_cycleTimer s; m_fanPostTimer := m_fanPostTimer s; m_overrideTimer := m_overrideTimer s; m_ovrTemp := m_ovrTemp s; m_remoteTimer := m_remoteTimer s; m_furnaceFan := m_furnaceFan s; m_notif := m_notif s; m_idleTimer := m_idleTimer s; nSecs := nSecs s; gpio := gpio s |}.
Definition set_m_bFanRunning (x : bool) (s : HVAC) : HVAC :=
  {| m_EE := m_EE s; m_remoteTimeout := m_remoteTimeout s; m_outTemp := m_outTemp s; m_inTemp := m_inTemp s; m_rh := m_rh s; m_targetTemp := m_targetTemp s; m_bFanRunning := x; m_outMin := m_outMin s; m_outMax := m_outMax s; m_bFanMode := m_bFanMode s; m_AutoMode := m_AutoMode s; m_setMode := m_setMode s; m_setHeat := m_setHeat s; m_AutoHeat := m_AutoHeat s; m_bRunning := m_bRunning s; m_bStart := m_bStart s; m_bStop := m_bStop s; m_bRecheck := m_bRecheck s; m_bEnabled := m_bEnabled s; m_runTotal := m_runTotal s; m_fanOnTimer := m_fanOnTimer s; m_cycleTimer := m_cycleTimer s; m_fanPostTimer := m_fanPostTimer s; m_overrideTimer := m_overrideTimer s; m_ovrTemp := m_ovrTemp s; m_remoteTimer := m_remoteTimer s; m_furnaceFan := m_furnaceFan s; m_notif := m_notif s; m_idleTimer := m_idleTimer s; nSecs := nSecs s; gpio := gpio s |}.
Definition set_m_outMin (x : arr2) (s : HVAC) : HVAC :=
  {| m_EE := m_EE s; m_remoteTimeout := m_remoteTimeout s; m_outTemp := m_outTemp s; m_inTemp := m_inTemp s; m_rh := m_rh s; m_targetTemp := m_targetTemp s; m_bFanRunning := m_bFanRunning s; m_outMin := x; m_outMax := m_outMax s; m_bFanMode := m_bFanMode s; m_AutoMode := m_AutoMode s; m_setMode := m_setMode s; m_setHeat := m_setHeat s; m_AutoHeat := m_AutoHeat s; m_bRunning := m_bRunning s; m_bStart := m_bStart s; m_bStop := m_bStop s; m_bRecheck := m_bRecheck s; m_bEnabled := m_bEnabled s; m_runTotal := m_runTotal s; m_fanOnTimer := m_fanOnTimer s; m_cycleTimer := m_cycleTimer s; m_fanPostTimer := m_fanPostTimer s; m_overrideTimer := m_overrideTimer s; m_ovrTemp := m_ovrTemp s; m_remoteTimer := m_remoteTimer s; m_furnaceFan := m_furnaceFan s; m_notif := m_notif s; m_idleTimer := m_idleTimer s; nSecs := nSecs s; gpio := gpio s |}.
Definition set_m_outMax (x : arr2) (s : HVAC) : HVAC :=
  {| m_EE := m_EE s; m_remoteTimeout := m_remoteTimeout s; m_outTemp := m_outTemp s; m_inTemp := m_inTemp s; m_rh := m_rh s; m_targetTemp := m_targetTemp s; m_bFanRunning := m_bFanRunning s; m_outMin := m_outMin s; m_outMax := x; m_bFanMode := m_bFanMode s; m_AutoMode := m_AutoMode s; m_setMode := m_setMode s; m_setHeat := m_setHeat s; m_AutoHeat := m_AutoHeat s; m_bRunning := m_bRunning s; m_bStart := m_bStart s; m_bStop := m_bStop s; m_bRecheck := m_bRecheck s; m_bEnabled := m_bEnabled s; m_runTotal := m_runTotal s; m_fanOnTimer := m_fanOnTimer s; m_cycleTimer := m_cycleTimer s; m_fanPostTimer := m_fanPostTimer s; m_overrideTimer := m_overrideTimer s; m_ovrTemp := m_ovrTemp s; m_remoteTimer := m_remoteTimer s; m_furnaceFan := m_furnaceFan s; m_notif := m_notif s; m_idleTimer := m_idleTimer s; nSecs := nSecs s; gpio := gpio s |}.
Definition set_m_bFanMode (x : bool) (s : HVAC) : HVAC :=
  {| m_EE := m_EE s; m_remoteTimeout := m_remoteTimeout s; m_outTemp := m_outTemp s; m_inTemp := m_inTemp s; m_rh := m_rh s; m_targetTemp := m_targetTemp s; m_bFanRunning := m_bFanRunning s; m_outMin := m_outMin s; m_outMax := m_outMax s; m_bFanMode := x; m_AutoMode := m_AutoMode s; m_setMode := m_setMode s; m_setHeat := m_setHeat s; m_AutoHeat := m_AutoHeat s; m_bRunning := m_bRunning s; m_bStart := m_bStart s; m_bStop := m_bStop s; m_bRecheck := m_bRecheck s; m_bEnabled := m_bEnabled s; m_runTotal := m_runTotal s; m_fanOnTimer := m_fanOnTimer s; m_cycleTimer := m_cycleTimer s; m_fanPostTimer := m_fanPostTimer s; m_overrideTimer := m_overrideTimer s; m_ovrTemp := m_ovrTemp s; m_remoteTimer := m_remoteTimer s; m_furnaceFan := m_furnaceFan s; m_notif := m_notif s; m_idleTimer := m_idleTimer s; nSecs := nSecs s; gpio := gpio s |}.
Definition set_m_AutoMode (x : Z) (s : HVAC) : HVAC :=
  {| m_EE := m_EE s; m_remoteTimeout := m_remoteTimeout s; m_outTemp := m_outTemp s; m_inTemp := m_inTemp s; m_rh := m_rh s; m_targetTemp := m_targetTemp s; m_bFanRunning := m_bFanRunning s; m_outMin := m_outMin s; m_outMax := m_outMax s; m_bFanMode := m_bFanMode s; m_AutoMode := x; m_setMode := m_setMode s; m_setHeat := m_setHeat s; m_AutoHeat := m_AutoHeat s; m_bRunning := m_bRunning s; m_bStart := m_bStart s; m_bStop := m_bStop s; m_bRecheck := m_bRecheck s; m_bEnabled := m_bEnabled s; m_runTotal := m_runTotal s; m_fanOnTimer := m_fanOnTimer s; m_cycleTimer := m_cycleTimer s; m_fanPostTimer := m_fanPostTimer s; m_overrideTimer := m_overrideTimer s; m_ovrTemp := m_ovrTemp s; m_remoteTimer := m_remoteTimer s; m_furnaceFan := m_furnaceFan s; m_notif := m_notif s; m_idleTimer := m_idleTimer s; nSecs := nSecs s; gpio := gpio s |}.
Definition set_m_setMode (x : Z) (s : HVAC) : HVAC :=
  {| m_EE := m_EE s; m_remoteTimeout := m_remoteTimeout s; m_outTemp := m_outTemp s; m_inTemp := m_inTemp s; m_rh := m_rh s; m_targetTemp := m_targetTemp s; m_bFanRunning := m_bFanRunning s; m_outMin := m_outMin s; m_outMax := m_outMax s; m_bFanMode := m_bFanMode s; m_AutoMode := m_AutoMode s; m_setMode := x; m_setHeat := m_setHeat s; m_AutoHeat := m_AutoHeat s; m_bRunning := m_bRunning s; m_bStart := m_bStart s; m_bStop := m_bStop s; m_bRecheck := m_bRecheck s; m_bEnabled := m_bEnabled s; m_runTotal := m_runTotal s; m_fanOnTimer := m_fanOnTimer s; m_cycleTimer := m_cycleTimer s; m_fanPostTimer := m_fanPostTimer s; m_overrideTimer := m_overrideTimer s; m_ovrTemp := m_ovrTemp s; m_remoteTimer := m_remoteTimer s; m_furnaceFan := m_furnaceFan s; m_notif := m_notif s; m_idleTimer := m_idleTimer s; nSecs := nSecs s; gpio := gpio s |}.
Definition set_m_setHeat (x : Z) (s : HVAC) : HVAC :=
  {| m_EE := m_EE s; m_remoteTimeout := m_remoteTimeout s; m_outTemp := m_outTemp s; m_inTemp := m_inTemp s; m_rh := m_rh s; m_targetTemp := m_targetTemp s; m_bFanRunning := m_bFanRunning s; m_outMin := m_outMin s; m_outMax := m_outMax s; m_bFanMode := m_bFanMode s; m_AutoMode := m_AutoMode s; m_setMode := m_setMode s; m_setHeat := x; m_AutoHeat := m_AutoHeat s; m_bRunning := m_bRunning s; m_bStart := m_bStart s; m_bStop := m_bStop s; m_bRecheck := m_bRecheck s; m_bEnabled := m_bEnabled s; m_runTotal := m_runTotal s; m_fanOnTimer := m_fanOnTimer s; m_cycleTimer := m_cycleTimer s; m_fanPostTimer := m_fanPostTimer s; m_overrideTimer := m_overrideTimer s; m_ovrTemp := m_ovrTemp s; m_remoteTimer := m_remoteTimer s; m_furnaceFan := m_furnaceFan s; m_notif := m_notif s; m_idleTimer := m_idleTimer s; nSecs := nSecs s; gpio := gpio s |}.
Definition set_m_AutoHeat (x : Z) (s : HVAC) : HVAC :=
  {| m_EE := m_EE s; m_remoteTimeout := m_remoteTimeout s; m_outTemp := m_outTemp s; m_inTemp := m_inTemp s; m_rh := m_rh s; m_targetTemp := m_targetTemp s; m_bFanRunning := m_bFanRunning s; m_outMin := m_outMin s; m_outMax := m_outMax s; m_bFanMode := m_bFanMode s; m_AutoMode := m_AutoMode s; m_setMode := m_setMode s; m_setHeat := m_setHeat s; m_AutoHeat := x; m_bRunning := m_bRunning s; m_bStart := m_bStart s; m_bStop := m_bStop s; m_bRecheck := m_bRecheck s; m_bEnabled := m_bEnabled s; m_runTotal := m_runTotal s; m_fanOnTimer := m_fanOnTimer s; m_cycleTimer := m_cycleTimer s; m_fanPostTimer := m_fanPostTimer s; m_overrideTimer := m_overrideTimer s; m_ovrTemp := m_ovrTemp s; m_remoteTimer := m_remoteTimer s; m_furnaceFan := m_furnaceFan s; m_notif := m_notif s; m_idleTimer := m_idleTimer s; nSecs := nSecs s; gpio := gpio s |}.
Definition set_m_bRunning (x : bool) (s : HVAC) : HVAC :=
  {| m_EE := m_EE s; m_remoteTimeout := m_remoteTimeout s; m_outTemp := m_outTemp s; m_inTemp := m_inTemp s; m_rh := m_rh s; m_targetTemp := m_targetTemp s; m_bFanRunning := m_bFanRunning s; m_outMin := m_outMin s; m_outMax := m_outMax s; m_bFanMode := m_bFanMode s; m_AutoMode := m_AutoMode s; m_setMode := m_setMode s; m_setHeat := m_setHeat s; m_AutoHeat := m_AutoHeat s; m_bRunning := x; m_bStart := m_bStart s; m_bStop := m_bStop s; m_bRecheck := m_bRecheck s; m_bEnabled := m_bEnabled s; m_runTotal := m_runTotal s; m_fanOnTimer := m_fanOnTimer s; m_cycleTimer := m_cycleTimer s; m_fanPostTimer := m_fanPostTimer s; m_overrideTimer := m_overrideTimer s; m_ovrTemp := m_ovrTemp s; m_remoteTimer := m_remoteTimer s; m_furnaceFan := m_furnaceFan s; m_notif := m_notif s; m_idleTimer := m_idleTimer s; nSecs := nSecs s; gpio := gpio s |}.
Definition set_m_bStart (x : bool) (s : HVAC) : HVAC :=
  {| m_EE := m_EE s; m_remoteTimeout := m_remoteTimeout s; m_outTemp := m_outTemp s; m_inTemp := m_inTemp s; m_rh := m_rh s; m_targetTemp := m_targetTemp s; m_bFanRunning := m_bFanRunning s; m_outMin := m_outMin s; m_outMax := m_outMax s; m_bFanMode := m_bFanMode s; m_AutoMode := m_AutoMode s; m_setMode := m_setMode s; m_setHeat := m_setHeat s; m_AutoHeat := m_AutoHeat s; m_bRunning := m_bRunning s; m_bStart := x; m_bStop := m_bStop s; m_bRecheck := m_bRecheck s; m_bEnabled := m_bEnabled s; m_runTotal := m_runTotal s; m_fanOnTimer := m_fanOnTimer s; m_cycleTimer := m_cycleTimer s; m_fanPostTimer := m_fanPostTimer s; m_overrideTimer := m_overrideTimer s; m_ovrTemp := m_ovrTemp s; m_remoteTimer := m_remoteTimer s; m_furnaceFan := m_furnaceFan s; m_notif := m_notif s; m_idleTimer := m_idleTimer s; nSecs := nSecs s; gpio := gpio s |}.
Definition set_m_bStop (x : bool) (s : HVAC) : HVAC :=
  {| m_EE := m_EE s; m_remoteTimeout := m_remoteTimeout s; m_outTemp := m_outTemp s; m_inTemp := m_inTemp s; m_rh := m_rh s; m_targetTemp := m_targetTemp s; m_bFanRunning := m_bFanRunning s; m_outMin := m_outMin s; m_outMax := m_outMax s; m_bFanMode := m_bFanMode s; m_AutoMode := m_AutoMode s; m_setMode := m_setMode s; m_setHeat := m_setHeat s; m_AutoHeat := m_AutoHeat s; m_bRunning := m_bRunning s; m_bStart := m_bStart s; m_bStop := x; m_bRecheck := m_bRecheck s; m_bEnabled := m_bEnabled s; m_runTotal := m_runTotal s; m_fanOnTimer := m_fanOnTimer s; m_cycleTimer := m_cycleTimer s; m_fanPostTimer := m_fanPostTimer s; m_overrideTimer := m_overrideTimer s; m_ovrTemp := m_ovrTemp s; m_remoteTimer := m_remoteTimer s; m_furnaceFan := m_furnaceFan s; m_notif := m_notif s; m_idleTimer := m_idleTimer s; nSecs := nSecs s; gpio := gpio s |}.
Definition set_m_bRecheck (x : bool) (s : HVAC) : HVAC :=
  {| m_EE := m_EE s; m_remoteTimeout := m_remoteTimeout s; m_outTemp := m_outTemp s; m_inTemp := m_inTemp s; m_rh := m_rh s; m_targetTemp := m_targetTemp s; m_bFanRunning := m_bFanRunning s; m_outMin := m_outMin s; m_outMax := m_outMax s; m_bFanMode := m_bFanMode s; m_AutoMode := m_AutoMode s; m_setMode := m_setMode s; m_setHeat := m_setHeat s; m_AutoHeat := m_AutoHeat s; m_bRunning := m_bRunning s; m_bStart := m_bStart s; m_bStop := m_bStop s; m_bRecheck := x; m_bEnabled := m_bEnabled s; m_runTotal := m_runTotal s; m_fanOnTimer := m_fanOnTimer s; m_cycleTimer := m_cycleTimer s; m_fanPostTimer := m_fanPostTimer s; m_overrideTimer := m_overrideTimer s; m_ovrTemp := m_ovrTemp s; m_remoteTimer := m_remoteTimer s; m_furnaceFan := m_furnaceFan s; m_notif := m_notif s; m_idleTimer := m_idleTimer s; nSecs := nSecs s; gpio := gpio s |}.
Definition set_m_bEnabled (x : bool) (s : HVAC) : HVAC :=
  {| m_EE := m_EE s; m_remoteTimeout := m_remoteTimeout s; m_outTemp := m_outTemp s; m_inTemp := m_inTemp s; m_rh := m_rh s; m_targetTemp := m_targetTemp s; m_bFanRunning := m_bFanRunning s; m_outMin := m_outMin s; m_outMax := m_outMax s; m_bFanMode := m_bFanMode s; m_AutoMode := m_AutoMode s; m_setMode := m_setMode s; m_setHeat := m_setHeat s; m_AutoHeat := m_AutoHeat s; m_bRunning := m_bRunning s; m_bStart := m_bStart s; m_bStop := m_bStop s; m_bRecheck := m_bRecheck s; m_bEnabled := x; m_runTotal := m_runTotal s; m_fanOnTimer := m_fanOnTimer s; m_cycleTimer := m_cycleTimer s; m_fanPostTimer := m_fanPostTimer s; m_overrideTimer := m_overrideTimer s; m_ovrTemp := m_ovrTemp s; m_remoteTimer := m_remoteTimer s; m_furnaceFan := m_furnaceFan s; m_notif := m_notif s; m_idleTimer := m_idleTimer s; nSecs := nSecs s; gpio := gpio s |}.
Definition set_m_runTotal (x : Z) (s : HVAC) : HVAC :=
  {| m_EE := m_EE s; m_remoteTimeout := m_remoteTimeout s; m_outTemp := m_outTemp s; m_inTemp := m_inTemp s; m_rh := m_rh s; m_targetTemp := m_targetTemp s; m_bFanRunning := m_bFanRunning s; m_outMin := m_outMin s; m_outMax := m_outMax s; m_bFanMode := m_bFanMode s; m_AutoMode := m_AutoMode s; m_setMode := m_setMode s; m_setHeat := m_setHeat s; m_AutoHeat := m_AutoHeat s; m_bRunning := m_bRunning s; m_bStart := m_bStart s; m_bStop := m_bStop s; m_bRecheck := m_bRecheck s; m_bEnabled := m_bEnabled s; m_runTotal := x; m_fanOnTimer := m_fanOnTimer s; m_cycleTimer := m_cycleTimer s; m_fanPostTimer := m_fanPostTimer s; m_overrideTimer := m_overrideTimer s; m_ovrTemp := m_ovrTemp s; m_remoteTimer := m_remoteTimer s; m_furnaceFan := m_furnaceFan s; m_notif := m_notif s; m_idleTimer := m_idleTimer s; nSecs := nSecs s; gpio := gpio s |}.
Definition set_m_fanOnTimer (x : Z) (s : HVAC) : HVAC :=
  {| m_EE := m_EE s; m_remoteTimeout := m_remoteTimeout s; m_outTemp := m_outTemp s; m_inTemp := m_inTemp s; m_rh := m_rh s; m_targetTemp := m_targetTemp s; m_bFanRunning := m_bFanRunning s; m_outMin := m_outMin s; m_outMax := m_outMax s; m_bFanMode := m_bFanMode s; m_AutoMode := m_AutoMode s; m_setMode := m_setMode s; m_setHeat := m_setHeat s; m_AutoHeat := m_AutoHeat s; m_bRunning := m_bRunning s; m_bStart := m_bStart s; m_bStop := m_bStop s; m_bRecheck := m_bRecheck s; m_bEnabled := m_bEnabled s; m_runTotal := m_runTotal s; m_fanOnTimer := x; m_cycleTimer := m_cycleTimer s; m_fanPostTimer := m_fanPostTimer s; m_overrideTimer := m_overrideTimer s; m_ovrTemp := m_ovrTemp s; m_remoteTimer := m_remoteTimer s; m_furnaceFan := m_furnaceFan s; m_notif := m_notif s; m_idleTimer := m_idleTimer s; nSecs := nSecs s; gpio := gpio s |}.
Definition set_m_cycleTimer (x : Z) (s : HVAC) : HVAC :=
  {| m_EE := m_EE s; m_remoteTimeout := m_remoteTimeout s; m_outTemp := m_outTemp s; m_inTemp := m_inTemp s; m_rh := m_rh s; m_targetTemp := m_targetTemp s; m_bFanRunning := m_bFanRunning s; m_outMin := m_outMin s; m_outMax := m_outMax s; m_bFanMode := m_bFanMode s; m_AutoMode := m_AutoMode s; m_setMode := m_setMode s; m_setHeat := m_setHeat s; m_AutoHeat := m_AutoHeat s; m_bRunning := m_bRunning s; m_bStart := m_bStart s; m_bStop := m_bStop s; m_bRecheck := m_bRecheck s; m_bEnabled := m_bEnabled s; m_runTotal := m_runTotal s; m_fanOnTimer := m_fanOnTimer s; m_cycleTimer := x; m_fanPostTimer := m_fanPostTimer s; m_overrideTimer := m_overrideTimer s; m_ovrTemp := m_ovrTemp s; m_remoteTimer := m_remoteTimer s; m_furnaceFan := m_furnaceFan s; m_notif := m_notif s; m_idleTimer := m_idleTimer s; nSecs := nSecs s; gpio := gpio s |}.
Definition set_m_fanPostTimer (x : Z) (s : HVAC) : HVAC :=
  {| m_EE := m_EE s; m_remoteTimeout := m_remoteTimeout s; m_outTemp := m_outTemp s; m_inTemp := m_inTemp s; m_rh := m_rh s; m_targetTemp := m_targetTemp s; m_bFanRunning := m_bFanRunning s; m_outMin := m_outMin s; m_outMax := m_outMax s; m_bFanMode := m_bFanMode s; m_AutoMode := m_AutoMode s; m_setMode := m_setMode s; m_setHeat := m_setHeat s; m_AutoHeat := m_AutoHeat s; m_bRunning := m_bRunning s; m_bStart := m_bStart s; m_bStop := m_bStop s; m_bRecheck := m_bRecheck s; m_bEnabled := m_bEnabled s; m_runTotal := m_runTotal s; m_fanOnTimer := m_fanOnTimer s; m_cycleTimer := m_cycleTimer s; m_fanPostTimer := x; m_overrideTimer := m_overrideTimer s; m_ovrTemp := m_ovrTemp s; m_remoteTimer := m_remoteTimer s; m_furnaceFan := m_furnaceFan s; m_notif := m_notif s; m_idleTimer := m_idleTimer s; nSecs := nSecs s; gpio := gpio s |}.
Definition set_m_overrideTimer (x : Z) (s : HVAC) : HVAC :=
  {| m_EE := m_EE s; m_remoteTimeout := m_remoteTimeout s; m_outTemp := m_outTemp s; m_inTemp := m_inTemp s; m_rh := m_rh s; m_targetTemp := m_targetTemp s; m_bFanRunning := m_bFanRunning s; m_outMin := m_outMin s; m_outMax := m_outMax s; m_bFanMode := m_bFanMode s; m_AutoMode := m_AutoMode s; m_setMode := m_setMode s; m_setHeat := m_setHeat s; m_AutoHeat := m_AutoHeat s; m_bRunning := m_bRunning s; m_bStart := m_bStart s; m_bStop := m_bStop s; m_bRecheck := m_bRecheck s; m_bEnabled := m_bEnabled s; m_runTotal := m_runTotal s; m_fanOnTimer := m_fanOnTimer s; m_cycleTimer := m_cycleTimer s; m_fanPostTimer := m_fanPostTimer s; m_overrideTimer := x; m_ovrTemp := m_ovrTemp s; m_remoteTimer := m_remoteTimer s; m_furnaceFan := m_furnaceFan s; m_notif := m_notif s; m_idleTimer := m_idleTimer s; nSecs := nSecs s; gpio := gpio s |}.
Definition set_m_ovrTemp (x : Z) (s : HVAC) : HVAC :=
  {| m_EE := m_EE s; m_remoteTimeout := m_remoteTimeout s; m_outTemp := m_outTemp s; m_inTemp := m_inTemp s; m_rh := m_rh s; m_targetTemp := m_targetTemp s; m_bFanRunning := m_bFanRunning s; m_outMin := m_outMin s; m_outMax := m_outMax s; m_bFanMode := m_bFanMode s; m_AutoMode := m_AutoMode s; m_setMode := m_setMode s; m_setHeat := m_setHeat s; m_AutoHeat := m_AutoHeat s; m_bRunning := m_bRunning s; m_bStart := m_bStart s; m_bStop := m_bStop s; m_bRecheck := m_bRecheck s; m_bEnabled := m_bEnabled s; m_runTotal := m_runTotal s; m_fanOnTimer := m_fanOnTimer s; m_cycleTimer := m_cycleTimer s; m_fanPostTimer := m_fanPostTimer s; m_overrideTimer := m_overrideTimer s; m_ovrTemp := x; m_remoteTimer := m_remoteTimer s; m_furnaceFan := m_furnaceFan s; m_notif := m_notif s; m_idleTimer := m_idleTimer s; nSecs := nSecs s; gpio := gpio s |}.
Definition set_m_remoteTimer (x : Z) (s : HVAC) : HVAC :=
  {| m_EE := m_EE s; m_remoteTimeout := m_remoteTimeout s; m_outTemp := m_outTemp s; m_inTemp := m_inTemp s; m_rh := m_rh s; m_targetTemp := m_targetTemp s; m_bFanRunning := m_bFanRunning s; m_outMin := m_outMin s; m_outMax := m_outMax s; m_bFanMode := m_bFanMode s; m_AutoMode := m_AutoMode s; m_setMode := m_setMode s; m_setHeat := m_setHeat s; m_AutoHeat := m_AutoHeat s; m_bRunning := m_bRunning s; m_bStart := m_bStart s; m_bStop := m_bStop s; m_bRecheck := m_bRecheck s; m_bEnabled := m_bEnabled s; m_runTotal := m_runTotal s; m_fanOnTimer := m_fanOnTimer s; m_cycleTimer := m_cycleTimer s; m_fanPostTimer := m_fanPostTimer s; m_overrideTimer := m_overrideTimer s; m_ovrTemp := m_ovrTemp s; m_remoteTimer := x; m_furnaceFan := m_furnaceFan s; m_notif := m_notif s; m_idleTimer := m_idleTimer s; nSecs := nSecs s; gpio := gpio s |}.
Definition set_m_furnaceFan (x : Z) (s : HVAC) : HVAC :=
  {| m_EE := m_EE s; m_remoteTimeout := m_remoteTimeout s; m_outTemp := m_outTemp s; m_inTemp := m_inTemp s; m_rh := m_rh s; m_targetTemp := m_targetTemp s; m_bFanRunning := m_bFanRunning s; m_outMin := m_outMin s; m_outMax := m_outMax s; m_bFanMode := m_bFanMode s; m_AutoMode := m_AutoMode s; m_setMode := m_setMode s; m_setHeat := m_setHeat s; m_AutoHeat := m_AutoHeat s; m_bRunning := m_bRunning s; m_bStart := m_bStart s; m_bStop := m_bStop s; m_bRecheck := m_bRecheck s; m_bEnabled := m_bEnabled s; m_runTotal := m_runTotal s; m_fanOnTimer := m_fanOnTimer s; m_cycleTimer := m_cycleTimer s; m_fanPostTimer := m_fanPostTimer s; m_overrideTimer := m_overrideTimer s; m_ovrTemp := m_ovrTemp s; m_remoteTimer := m_remoteTimer s; m_furnaceFan := x; m_notif := m_notif s; m_idleTimer := m_idleTimer s; nSecs := nSecs s; gpio := gpio s |}.
Definition set_m_notif (x : Notif) (s : HVAC) : HVAC :=
  {| m_EE := m_EE s; m_remoteTimeout := m_remoteTimeout s; m_outTemp := m_outTemp s; m_inTemp := m_inTemp s; m_rh := m_rh s; m_targetTemp := m_targetTemp s; m_bFanRunning := m_bFanRunning s; m_outMin := m_outMin s; m_outMax := m_outMax s; m_bFanMode := m_bFanMode s; m_AutoMode := m_AutoMode s; m_setMode := m_setMode s; m_setHeat := m_setHeat s; m_AutoHeat := m_AutoHeat s; m_bRunning := m_bRunning s; m_bStart := m_bStart s; m_bStop := m_bStop s; m_bRecheck := m_bRecheck s; m_bEnabled := m_bEnabled s; m_runTotal := m_runTotal s; m_fanOnTimer := m_fanOnTimer s; m_cycleTimer := m_cycleTimer s; m_fanPostTimer := m_fanPostTimer s; m_overrideTimer := m_overrideTimer s; m_ovrTemp := m_ovrTemp s; m_remoteTimer := m_remoteTimer s; m_furnaceFan := m_furnaceFan s; m_notif := x; m_idleTimer := m_idleTimer s; nSecs := nSecs s; gpio := gpio s |}.
Definition set_m_idleTimer (x : Z) (s : HVAC) : HVAC :=
  {| m_EE := m_EE s; m_remoteTimeout := m_remoteTimeout s; m_outTemp := m_outTemp s; m_inTemp := m_inTemp s; m_rh := m_rh s; m_targetTemp := m_targetTemp s; m_bFanRunning := m_bFanRunning s; m_outMin := m_outMin s; m_outMax := m_outMax s; m_bFanMode := m_bFanMode s; m_AutoMode := m_AutoMode s; m_setMode := m_setMode s; m_setHeat := m_setHeat s; m_AutoHeat := m_AutoHeat s; m_bRunning := m_bRunning s; m_bStart := m_bStart s; m_bStop := m_bStop s; m_bRecheck := m_bRecheck s; m_bEnabled := m_bEnabled s; m_runTotal := m_runTotal s; m_fanOnTimer := m_fanOnTimer s; m_cycleTimer := m_cycleTimer s; m_fanPostTimer := m_fanPostTimer s; m_overrideTimer := m_overrideTimer s; m_ovrTemp := m_ovrTemp s; m_remoteTimer := m_remoteTimer s; m_furnaceFan := m_furnaceFan s; m_notif := m_notif s; m_idleTimer := x; nSecs := nSecs s; gpio := gpio s |}.
Definition set_nSecs (x : Z) (s : HVAC) : HVAC :=
  {| m_EE := m_EE s; m_remoteTimeout := m_remoteTimeout s; m_outTemp := m_outTemp s; m_inTemp := m_inTemp s; m_rh := m_rh s; m_targetTemp := m_targetTemp s; m_bFanRunning := m_bFanRunning s; m_outMin := m_outMin s; m_outMax := m_outMax s; m_bFanMode := m_bFanMode s; m_AutoMode := m_AutoMode s; m_setMode := m_setMode s; m_setHeat := m_setHeat s; m_AutoHeat := m_AutoHeat s; m_bRunning := m_bRunning s; m_bStart := m_bStart s; m_bStop := m_bStop s; m_bRecheck := m_bRecheck s; m_bEnabled := m_bEnabled s; m_runTotal := m_runTotal s; m_fanOnTimer := m_fanOnTimer s; m_cycleTimer := m_cycleTimer s; m_fanPostTimer := m_fanPostTimer s; m_overrideTimer := m_overrideTimer s; m_ovrTemp := m_ovrTemp s; m_remoteTimer := m_remoteTimer s; m_furnaceFan := m_furnaceFan s; m_notif := m_notif s; m_idleTimer := m_idleTimer s; nSecs := x; gpio := gpio s |}.
Definition set_gpio (x : Pins) (s : HVAC) : HVAC :=
  {| m_EE := m_EE s; m_remoteTimeout := m_remoteTimeout s; m_outTemp := m_outTemp s; m_inTemp := m_inTemp s; m_rh := m_rh s; m_targetTemp := m_targetTemp s; m_bFanRunning := m_bFanRunning s; m_outMin := m_outMin s; m_outMax := m_outMax s; m_bFanMode := m_bFanMode s; m_AutoMode := m_AutoMode s; m_setMode := m_setMode s; m_setHeat := m_setHeat s; m_AutoHeat := m_AutoHeat s; m_bRunning := m_bRunning s; m_bStart := m_bStart s; m_bStop := m_bStop s; m_bRecheck := m_bRecheck s; m_bEnabled := m_bEnabled s; m_runTotal := m_runTotal s; m_fanOnTimer := m_fanOnTimer s; m_cycleTimer := m_cycleTimer s; m_fanPostTimer := m_fanPostTimer s; m_overrideTimer := m_overrideTimer s; m_ovrTemp := m_ovrTemp s; m_remoteTimer := m_remoteTimer s; m_furnaceFan := m_furnaceFan s; m_notif := m_notif s; m_idleTimer := m_idleTimer s; nSecs := nSecs s; gpio := x |}.

(** Assignments to members of [m_EE] and to pins. *)
Definition ee (f : EEConfig -> EEConfig) (s : HVAC) : HVAC :=
  set_m_EE (f (m_EE s)) s.

Definition digitalWrite (f : Pins -> Pins) (s : HVAC) : HVAC :=
  set_gpio (f (gpio s)) s.

(** ** Faults *)

Inductive res (A : Type) : Type :=
| Ok (a : A)
| DivByZero.
Arguments Ok {A} a.
Arguments DivByZero {A}.

Definition bind {A B : Type} (r : res A) (k : A -> res B) : res B :=
  match r with
  | Ok a => k a
  | DivByZero => DivByZero
  end.

Notation "x <- e ;; k" := (bind e (fun x => k))
  (at level 61, e at next level, right associativity).

(** ** The command table of [setVar] *)

Definition cSCmds : list string :=
  [ "fanmode"; "mode"; "heatmode"; "resettotal"; "resetfilter";
    "fanpostdelay"; "cyclemin"; "cyclemax"; "idlemin"; "cyclethresh";
    "cooltempl"; "cooltemph"; "heattempl"; "heattemph"; "eheatthresh";
    "override"; "overridetime"; "remotetemp"; "remotetime" ]%string.

Definition lower (c : ascii) : ascii :=
  let n := nat_of_ascii c in
  if andb (Nat.leb 65 n) (Nat.leb n 90) then ascii_of_nat (n + 32) else c.

(** [String::equalsIgnoreCase]. *)
Fixpoint equalsIgnoreCase (a b : string) : bool :=
  match a, b with
  | EmptyString, EmptyString => true
  | String x a', String y b' =>
      andb (Ascii.eqb (lower x) (lower y)) (equalsIgnoreCase a' b')
  | _, _ => false
  end.

(** [CmdIdx]: the index of the first entry that matches, the length of
    the table (its NULL entry) when none does. *)
Fixpoint CmdIdx (s : string) (pCmds : list string) : nat :=
  match pCmds with
  | [] => O
  | c :: rest => if equalsIgnoreCase s c then O else S (CmdIdx s rest)
  end.

(** Elements of the setpoint arrays of [m_EE]. *)
Definition coolTemp_at (s : HVAC) (i : bool) : Z := idx (coolTemp (m_EE s)) i.
Definition heatTemp_at (s : HVAC) (i : bool) : Z := idx (heatTemp (m_EE s)) i.

Definition set_coolTemp_at (i : bool) (v : Z) (s : HVAC) : HVAC :=
  ee (fun e => set_coolTemp (upd (coolTemp e) i v) e) s.
Definition set_heatTemp_at (i : bool) (v : Z) (s : HVAC) : HVAC :=
  ee (fun e => set_heatTemp (upd (heatTemp e) i v) e) s.

(** ** HVAC::HVAC()

    The constructor assigns the members below and leaves the others
    ([m_EE.Mode], [m_EE.heatMode], [m_targetTemp], [m_outMin]) as the
    storage [raw] of the object holds them. *)
Definition HVAC_ctor (raw : HVAC) : HVAC :=
  {| m_EE :=
       {| cycleMin := 60;
          cycleMax := 60 * 15;
          idleMin := 60 * 5;
          cycleThresh := 17;
          coolTemp := (790, 820);
          heatTemp := (700, 740);
          eHeatThresh := 30;
          fanPostDelay := (60, 120);
          overrideTime := 60 * 10;
          filterMinutes := 0;
          Mode := Mode (m_EE raw);
          heatMode := heatMode (m_EE raw) |};
     m_remoteTimeout := 60 * 5;
     m_outTemp := 0;
     m_inTemp := 0;
     m_rh := 0;
     m_targetTemp := m_targetTemp raw;
     m_bFanRunning := false;
     m_outMin := m_outMin raw;
     m_outMax := (-50, -50);
     m_bFanMode := false;
     m_AutoMode := 0;
     m_setMode := 0;
     m_setHeat := 0;
     m_AutoHeat := 0;
     m_bRunning := false;
     m_bStart := false;
     m_bStop := false;
     m_bRecheck := false;
     m_bEnabled := false;
     m_runTotal := 0;
     m_fanOnTimer := 0;
     m_cycleTimer := 0;
     m_fanPostTimer := 0;
     m_overrideTimer := 0;
     m_ovrTemp := 0;
     m_remoteTimer := 0;
     m_furnaceFan := 0;
     m_notif := Note_None;
     m_idleTimer := 60 * 3;
     nSecs := 0;
     gpio := {| P_FAN := false; P_COOL := false; P_REV := true; P_HEAT := false |} |}.

(** Storage filled with zeroes, as an object of static duration has it
    before its constructor runs. *)
Definition zeroed : HVAC :=
  {| m_EE :=
       {| cycleMin := 0; cycleMax := 0; idleMin := 0; cycleThresh := 0;
          coolTemp := (0, 0); heatTemp := (0, 0); eHeatThresh := 0;
          fanPostDelay := (0, 0); overrideTime := 0; filterMinutes := 0;
          Mode := 0; heatMode := 0 |};
     m_remoteTimeout := 0; m_outTemp := 0; m_inTemp := 0; m_rh := 0;
     m_targetTemp := 0; m_bFanRunning := false; m_outMin := (0, 0);
     m_outMax := (0, 0); m_bFanMode := false; m_AutoMode := 0;
     m_setMode := 0; m_setHeat := 0; m_AutoHeat := 0; m_bRunning := false;
     m_bStart := false; m_bStop := false; m_bRecheck := false;
     m_bEnabled := false; m_runTotal := 0; m_fanOnTimer := 0;
     m_cycleTimer := 0; m_fanPostTimer := 0; m_overrideTimer := 0;
     m_ovrTemp := 0; m_remoteTimer := 0; m_furnaceFan := 0;
     m_notif := Note_None; m_idleTimer := 0; nSecs := 0;
     gpio := {| P_FAN := false; P_COOL := false; P_REV := false; P_HEAT := false |} |}.

(** ** Methods that touch no counter *)

(** [fanSwitch]: switch the fan on/off. *)
Definition fanSwitch (bOn : bool) (s : HVAC) : HVAC :=
  if Bool.eqb bOn (m_bFanRunning s) then s
  else
    let s := digitalWrite (set_P_FAN bOn) s in
    let s := set_m_bFanRunning bOn s in
    if bOn then set_m_fanOnTimer 0 s else s.

(** [disable]: failsafe, shut everything off. *)
Definition disable (s : HVAC) : HVAC :=
  let s := digitalWrite (set_P_HEAT false) s in
  let s := digitalWrite (set_P_COOL false) s in
  let s := fanSwitch false s in
  let s := set_m_bRunning false s in
  set_m_bEnabled false s.

Definition enable (s : HVAC) : HVAC :=
  set_m_bRecheck true (set_m_bEnabled true s).

(** The outdoor band of [calcTargetTemp]: [L] and [H] after the shift of
    a decimal place. *)
Definition out_band (s : HVAC) : Z * Z :=
  let L := idx (m_outMin s) true in
  let H := idx (m_outMax s) true in
  let L := if negb (idx (m_outMax s) false =? -50)
           then Z.min (idx (m_outMin s) false) L else L in
  let H := if negb (idx (m_outMax s) false =? -50)
           then Z.max (idx (m_outMax s) false) H else H in
  (to_int16 (L * 10), to_int16 (H * 10)).

Definition band_width (s : HVAC) : Z := snd (out_band s) - fst (out_band s).

(** The interpolation of [calcTargetTemp] between the setpoints [lo] and
    [hi].  [/] of C++ truncates, and faults on a zero divisor. *)
Definition interpolate (lo hi : Z) (s : HVAC) : res Z :=
  let (L, H) := out_band s in
  if H - L =? 0 then DivByZero
  else Ok ((m_outTemp s - L) * (hi - lo) ÷ (H - L) + lo).

(** [calcTargetTemp(int8_t mode)]. *)
Definition calcTargetTemp (mode : Z) (s : HVAC) : res HVAC :=
  let s :=
    if negb (m_bRunning s) then
      if negb (Bool.eqb (P_REV (gpio s)) (mode =? Mode_Heat))
      then digitalWrite (set_P_REV (mode =? Mode_Heat)) s
      else s
    else s in
  s <- (if mode =? Mode_Cool then
          t <- interpolate (coolTemp_at s false) (coolTemp_at s true) s ;;
          let s := set_m_targetTemp (to_int16 t) s in
          Ok (set_m_targetTemp
                (to_int16 (constrain (m_targetTemp s)
                             (coolTemp_at s false) (coolTemp_at s true))) s)
        else if mode =? Mode_Heat then
          t <- interpolate (heatTemp_at s false) (heatTemp_at s true) s ;;
          let s := set_m_targetTemp (to_int16 t) s in
          Ok (set_m_targetTemp
                (to_int16 (constrain (m_targetTemp s)
                             (heatTemp_at s false) (heatTemp_at s true))) s)
        else Ok s) ;;
  Ok (set_m_targetTemp (to_int16 (m_targetTemp s + m_ovrTemp s)) s).

(** [preCalcCycle(int8_t mode)]: the result [bRet] and the object. *)
Definition preCalcCycle (mode : Z) (s : HVAC) : res (bool * HVAC) :=
  if mode =? Mode_Cool then
    s <- calcTargetTemp Mode_Cool s ;;
    Ok (m_targetTemp s <=? m_inTemp s, s)
  else if mode =? Mode_Heat then
    s <- calcTargetTemp Mode_Heat s ;;
    Ok (m_inTemp s <=? m_targetTemp s, s)
  else if mode =? Mode_Auto then
    if coolTemp_at s false <=? m_inTemp s then
      s <- calcTargetTemp Mode_Cool s ;;
      let s := set_m_AutoMode Mode_Cool s in
      Ok (m_targetTemp s <=? m_inTemp s, s)
    else if m_inTemp s <=? heatTemp_at s true then
      let s := set_m_AutoMode Mode_Heat s in
      s <- calcTargetTemp Mode_Heat s ;;
      let s :=
        if heatMode (m_EE s) =? Heat_Auto then
          if m_inTemp s <? m_outTemp s - eHeatThresh (m_EE s) * 10
          then set_m_AutoHeat Heat_NG s
          else set_m_AutoHeat Heat_HP s
        else s in
      Ok (m_inTemp s <=? m_targetTemp s, s)
    else Ok (false, s)
  else Ok (false, s).

(** [int8_t mode = (m_EE.Mode == Mode_Auto) ? m_AutoMode : m_EE.Mode]. *)
Definition true_mode (s : HVAC) : Z :=
  to_int8 (if Mode (m_EE s) =? Mode_Auto then m_AutoMode s else Mode (m_EE s)).

(** [int8_t hm = (m_EE.heatMode == Heat_Auto) ? m_AutoHeat : m_EE.heatMode]. *)
Definition true_hm (s : HVAC) : Z :=
  to_int8 (if heatMode (m_EE s) =? Heat_Auto then m_AutoHeat s
           else heatMode (m_EE s)).

(** [tempCheck]: control switching of the system by temperature.  [sec]
    is what [second()] returns. *)
Definition tempCheck (sec : Z) (s : HVAC) : res HVAC :=
  if (m_inTemp s =? 0) || Bool.eqb (m_bEnabled s) false then Ok s
  else if Mode (m_EE s) =? Mode_Off then Ok s
  else if m_bRunning s then
    if m_cycleTimer s <? cycleMin (m_EE s) then Ok s
    else
      let mode := true_mode s in
      s <- (if (sec =? 0) || m_bRecheck s then
              r <- preCalcCycle (to_int8 (Mode (m_EE s))) (set_m_bRecheck false s) ;;
              Ok (snd r)
            else Ok s) ;;
      if mode =? Mode_Cool then
        if m_inTemp s <=? m_targetTemp s - cycleThresh (m_EE s)
        then Ok (set_m_bStop true s) else Ok s
      else if mode =? Mode_Heat then
        if m_targetTemp s + cycleThresh (m_EE s) <? m_inTemp s
        then Ok (set_m_bStop true s) else Ok s
      else Ok s
  else
    if m_idleTimer s <? idleMin (m_EE s) then Ok s
    else if (sec =? 0) || m_bRecheck s then
      r <- preCalcCycle (to_int8 (Mode (m_EE s))) (set_m_bRecheck false s) ;;
      Ok (set_m_bStart (fst r) (snd r))
    else Ok s.

(** The start block of [service] (lines 174-208), with the locals [mode]
    and [hm] of line 171-172. *)
Definition service_start (mode hm : Z) (s : HVAC) : HVAC :=
  if m_bStart s && negb (m_bRunning s) then
    let s := set_m_bStart false s in
    let s :=
      if mode =? Mode_Cool then
        let s := fanSwitch true s in
        let s := if negb (Bool.eqb (P_REV (gpio s)) false)
                 then digitalWrite (set_P_REV false) s else s in
        digitalWrite (set_P_COOL true) s
      else if mode =? Mode_Heat then
        if negb (hm =? 0) then digitalWrite (set_P_HEAT true) s
        else
          let s := fanSwitch true s in
          let s := if negb (Bool.eqb (P_REV (gpio s)) true)
                   then digitalWrite (set_P_REV true) s else s in
          digitalWrite (set_P_COOL true) s
      else s in
    let s := set_m_bRunning true s in
    set_m_cycleTimer 0 s
  else s.

(** The stop block of [service] (lines 210-231). *)
Definition service_stop (mode hm : Z) (s : HVAC) : HVAC :=
  if m_bStop s && m_bRunning s then
    let s := set_m_bStop false s in
    let s := digitalWrite (set_P_COOL false) s in
    let s := digitalWrite (set_P_HEAT false) s in
    let s :=
      if m_bFanRunning s && Bool.eqb (m_bFanMode s) false then
        if negb (idx (fanPostDelay (m_EE s)) (P_REV (gpio s)) =? 0)
        then set_m_fanPostTimer (idx (fanPostDelay (m_EE s)) (P_REV (gpio s))) s
        else fanSwitch false s
      else s in
    let s := if (mode =? Mode_Heat) && negb (hm =? 0)
             then set_m_furnaceFan FF_DELAY s else s in
    let s := set_m_bRunning false s in
    set_m_idleTimer 0 s
  else s.

(** [setFan]: user, set fan mode. *)
Definition setFan (bon : bool) (s : HVAC) : HVAC :=
  if Bool.eqb bon (m_bFanMode s) then s
  else
    let s := set_m_bFanMode bon s in
    if negb (m_bRunning s) then fanSwitch bon s else s.

(** [setHeatMode(uint8_t mode)]. *)
Definition setHeatMode (mode : Z) (s : HVAC) : HVAC :=
  set_m_setHeat (Z.rem mode 3) s.

(** The first statement of [setTemp]: [Mode_Auto] stands for the
    automatic choice. *)
Definition setTemp_mode (mode : Z) (s : HVAC) : Z :=
  if mode =? Mode_Auto then to_int8 (m_AutoMode s) else mode.

(** [setTemp(int8_t mode, int16_t Temp, int8_t hl)]: user, set a new
    control temperature.  [hl] indexes the two-element setpoint arrays. *)
Definition setTemp (mode Temp : Z) (hl : bool) (s : HVAC) : res HVAC :=
  let mode := setTemp_mode mode s in
  if mode =? Mode_Cool then
    if (Temp <? 650) || (880 <? Temp) then Ok s
    else
      let s := set_coolTemp_at hl Temp s in
      let s :=
        if hl
        then set_coolTemp_at false (Z.min (coolTemp_at s true) (coolTemp_at s false)) s
        else set_coolTemp_at true (Z.max (coolTemp_at s false) (coolTemp_at s true)) s in
      let save := to_int8 (heatTemp_at s true - heatTemp_at s false) in
      let s := set_heatTemp_at true
                 (to_int16 (Z.min (coolTemp_at s false - 20) (heatTemp_at s true))) s in
      let s := set_heatTemp_at false (to_int16 (heatTemp_at s true - save)) s in
      if Mode (m_EE s) =? Mode_Cool
      then calcTargetTemp (to_int8 (Mode (m_EE s))) s else Ok s
  else if mode =? Mode_Heat then
    if (Temp <? 630) || (860 <? Temp) then Ok s
    else
      let s := set_heatTemp_at hl Temp s in
      let s :=
        if hl
        then set_heatTemp_at false (Z.min (heatTemp_at s true) (heatTemp_at s false)) s
        else set_heatTemp_at true (Z.max (heatTemp_at s false) (heatTemp_at s true)) s in
      let save := to_int8 (coolTemp_at s true - coolTemp_at s false) in
      let s := set_coolTemp_at false
                 (to_int16 (Z.max (heatTemp_at s true - 20) (coolTemp_at s false))) s in
      let s := set_coolTemp_at true (to_int16 (coolTemp_at s false + save)) s in
      if Mode (m_EE s) =? Mode_Heat
      then calcTargetTemp (to_int8 (Mode (m_EE s))) s else Ok s
  else Ok s.

(** [updateIndoorTemp]: update when the DHT22/SHT21 changes. *)
Definition updateIndoorTemp (Temp rh : Z) (s : HVAC) : HVAC :=
  let s := if m_remoteTimer s =? 0 then set_m_inTemp Temp s else s in
  set_m_rh rh s.

Definition updateOutdoorTemp (outTemp : Z) (s : HVAC) : HVAC :=
  set_m_outTemp outTemp s.

(** [updatePeaks(int8_t min, int8_t max)]: min/max for the next 24 hours. *)
Definition updatePeaks (min max : Z) (s : HVAC) : HVAC :=
  let s :=
    if negb (idx (m_outMax s) false =? -50) then
      let s := set_m_outMax (upd (m_outMax s) false (idx (m_outMax s) true)) s in
      set_m_outMin (upd (m_outMin s) false (idx (m_outMin s) true)) s
    else
      let s := set_m_outMin (upd (m_outMin s) false min) s in
      set_m_outMax (upd (m_outMax s) false max) s in
  let s := set_m_outMin (upd (m_outMin s) true min) s in
  set_m_outMax (upd (m_outMax s) true max) s.

Definition resetFilter (s : HVAC) : HVAC :=
  let s := ee (set_filterMinutes 0) s in
  match m_notif s with
  | Note_Filter => set_m_notif Note_None s
  | _ => s
  end.

(** [checkFilter]: the filter is over 200 hours. *)
Definition checkFilter (s : HVAC) : bool := 60 * 200 <=? filterMinutes (m_EE s).

Definition resetTotal (s : HVAC) : HVAC := set_m_runTotal 0 s.

Definition getFanRunning (s : HVAC) : bool :=
  m_bRunning s || negb (m_furnaceFan s =? 0) || m_bFanRunning s.

Definition isRemoteTemp (s : HVAC) : bool := negb (m_remoteTimer s =? 0).

(** ** The read-back surface *)

(** [uint8_t getMode()]. *)
Definition getMode (s : HVAC) : Z := to_uint8 (Mode (m_EE s)).

(** [uint8_t getState()]: 0 when idle, else the mode that runs, with any
    gas heat as 3. *)
Definition getState (s : HVAC) : Z :=
  if Bool.eqb (m_bRunning s) false then 0
  else
    let state :=
      to_uint8 (if Mode (m_EE s) =? Mode_Auto then m_AutoMode s
                else Mode (m_EE s)) in
    if (state =? Mode_Heat)
       && ((heatMode (m_EE s) =? Heat_NG)
           || (heatMode (m_EE s) =? Heat_Auto) && (m_AutoHeat s =? Heat_NG))
    then 3 else state.

(** [int16_t getSetTemp(int8_t mode, int8_t hl)]. *)
Definition getSetTemp (mode : Z) (hl : bool) (s : HVAC) : Z :=
  if mode =? Mode_Cool then to_int16 (coolTemp_at s hl)
  else if mode =? Mode_Heat then to_int16 (heatTemp_at s hl)
  else if mode =? Mode_Auto then
    to_int16 (if m_AutoMode s =? Mode_Cool then coolTemp_at s hl
              else heatTemp_at s hl)
  else 0.

(** The three [static] locals of [stateChange]. *)
Record Statics : Type := {
  bFan : bool;
  lastMode : Z;
  nState : Z
}.

(** The statics as the program starts. *)
Definition statics0 : Statics := {| bFan := false; lastMode := 0; nState := 0 |}.

(** [bool stateChange()]: the result and the statics after the call. *)
Definition stateChange (st : Statics) (s : HVAC) : bool * Statics :=
  if negb (getMode s =? lastMode st)
     || negb (getState s =? nState st)
     || negb (Bool.eqb (bFan st) (getFanRunning s))
  then
    (true,
     {| bFan := getFanRunning s; lastMode := getMode s; nState := getState s |})
  else (false, st).

(** A command name in lower case: what [equalsIgnoreCase] compares. *)
Fixpoint lower_string (a : string) : string :=
  match a with
  | EmptyString => EmptyString
  | String x a' => String (lower x) (lower_string a')
  end.

(** ** The second counters and the tick *)

Section Sequencer.

(** The modulus of the unsigned second counters: [HVAC.h] declares their
    type; [service] saturates [m_fanOnTimer] at [0xFFFF]. *)
Variable cmod : Z.

Definition ctr (x : Z) : Z := x mod cmod.

(** [filterInc]: accumulate fan running times.  [nSecs] is its
    [static uint16_t]. *)
Definition filterInc (s : HVAC) : HVAC :=
  let s := set_nSecs (to_uint16 (nSecs s + 1)) s in
  if 60 <=? nSecs s then
    let s := ee (fun e => set_filterMinutes (ctr (filterMinutes e + 1)) e) s in
    set_nSecs (to_uint16 (nSecs s - 60)) s
  else s.

(** [service], lines 114-122: the fan running time. *)
Definition service_airflow (s : HVAC) : HVAC :=
  if m_bFanRunning s || m_bRunning s || negb (m_furnaceFan s =? 0) then
    let s := filterInc s in
    let s := if m_fanOnTimer s <? 65535
             then set_m_fanOnTimer (ctr (m_fanOnTimer s + 1)) s else s in
    if negb (m_furnaceFan s =? 0)
    then set_m_furnaceFan (ctr (m_furnaceFan s - 1)) s else s
  else s.

(** [service], lines 124-129: the fan continuation delay. *)
Definition service_fanPost (s : HVAC) : HVAC :=
  if negb (m_fanPostTimer s =? 0) then
    let s := set_m_fanPostTimer (ctr (m_fanPostTimer s - 1)) s in
    if m_fanPostTimer s =? 0 then
      if negb (m_bRunning s) && Bool.eqb (m_bFanMode s) false
      then fanSwitch false s else s
    else s
  else s.

(** [service], lines 131-132: the remote temperature override timer. *)
Definition service_remote (s : HVAC) : HVAC :=
  if negb (m_remoteTimer s =? 0)
  then set_m_remoteTimer (ctr (m_remoteTimer s - 1)) s else s.

(** [service], lines 134-141: the user temperature override timer. *)
Definition service_override (s : HVAC) : res HVAC :=
  if negb (m_overrideTimer s =? 0) then
    let s := set_m_overrideTimer (ctr (m_overrideTimer s - 1)) s in
    if m_overrideTimer s =? 0 then
      let s := set_m_ovrTemp 0 s in
      calcTargetTemp (to_int8 (Mode (m_EE s))) s
    else Ok s
  else Ok s.

(** [service], lines 143-157: the cycle and idle timers.  The bit tells
    that [service] returned at line 147. *)
Definition service_cycle (s : HVAC) : bool * HVAC :=
  if m_bRunning s then
    let s := set_m_runTotal (ctr (m_runTotal s + 1)) s in
    let s := set_m_cycleTimer (ctr (m_cycleTimer s + 1)) s in
    if m_cycleTimer s <? 20 then (true, s)
    else if cycleMax (m_EE s) <=? m_cycleTimer s then
      let s := set_m_bStop true s in
      (false, set_m_notif Note_CycleLimit s)
    else (false, s)
  else (false, set_m_idleTimer (ctr (m_idleTimer s + 1)) s).

(** The test of line 159: a requested HVAC mode change. *)
Definition mode_change (s : HVAC) : bool :=
  negb (m_setMode s =? Mode (m_EE s))
  || negb (m_setHeat s =? heatMode (m_EE s)).

(** [service], lines 159-169. *)
Definition service_request (s : HVAC) : res HVAC :=
  if mode_change s then
    let s := if m_bRunning s then set_m_bStop true s else s in
    if 5 <=? m_idleTimer s then
      let s := ee (set_heatMode (m_setHeat s)) s in
      let s := ee (set_Mode (m_setMode s)) s in
      calcTargetTemp (to_int8 (Mode (m_EE s))) s
    else Ok s
  else Ok s.

(** [service] down to line 169: the object where the start block finds
    it, and whether [service] has returned at line 147 instead. *)
Definition service_head (s : HVAC) : res (bool * HVAC) :=
  let s := service_airflow s in
  let s := service_fanPost s in
  let s := service_remote s in
  s <- service_override s ;;
  let (ret, s) := service_cycle s in
  if ret then Ok (true, s)
  else
    s <- service_request s ;;
    Ok (false, s).

(** [service]: called once per second. *)
Definition service (sec : Z) (s : HVAC) : res HVAC :=
  r <- service_head s ;;
  let (ret, s) := r in
  if ret then Ok s
  else
    let hm := true_hm s in
    let mode := true_mode s in
    let s := service_start mode hm s in
    let s := service_stop mode hm s in
    tempCheck sec s.

(** [setMode(int8_t mode)]: user, set a new control mode. *)
Definition setMode (mode : Z) (s : HVAC) : HVAC :=
  let s := set_m_setMode (Z.land mode 3) s in
  if negb (m_bRunning s) then
    if m_idleTimer s <? idleMin (m_EE s) - 30
    then set_m_idleTimer (ctr (idleMin (m_EE s) - 10)) s
    else s
  else s.

(** [setVar(String sCmd, int val)]: set a parameter by name. *)
Definition setVar (sCmd : string) (val : Z) (s : HVAC) : res HVAC :=
  match CmdIdx sCmd cSCmds with
  | 0%nat => Ok (setFan (negb (val =? 0)) s)
  | 1%nat => Ok (setMode (to_int8 val) s)
  | 2%nat => Ok (setHeatMode (to_uint8 val) s)
  | 3%nat => Ok (resetTotal s)
  | 4%nat => Ok (resetFilter s)
  | 5%nat =>
      Ok (ee (fun e => set_fanPostDelay
                         (upd (fanPostDelay e) (P_REV (gpio s))
                              (constrain val 0 (60 * 5))) e) s)
  | 6%nat => Ok (ee (set_cycleMin (constrain val 60 (60 * 20))) s)
  | 7%nat => Ok (ee (set_cycleMax (constrain val (60 * 2) (60 * 60))) s)
  | 8%nat => Ok (ee (set_idleMin (constrain val 60 (60 * 30))) s)
  | 9%nat => Ok (ee (set_cycleThresh (constrain val 5 50)) s)
  | 10%nat =>
      s <- setTemp Mode_Cool (to_int16 val) false s ;;
      Ok (set_m_bRecheck true s)
  | 11%nat =>
      s <- setTemp Mode_Cool (to_int16 val) true s ;;
      Ok (set_m_bRecheck true s)
  | 12%nat =>
      s <- setTemp Mode_Heat (to_int16 val) false s ;;
      Ok (set_m_bRecheck true s)
  | 13%nat =>
      s <- setTemp Mode_Heat (to_int16 val) true s ;;
      Ok (set_m_bRecheck true s)
  | 14%nat => Ok (ee (set_eHeatThresh (constrain val 5 50)) s)
  | 15%nat =>
      if val <=? 0 then
        let s := set_m_ovrTemp 0 s in
        let s := set_m_overrideTimer 0 s in
        Ok (set_m_bRecheck true s)
      else
        let s := set_m_ovrTemp (constrain val (-90) 90) s in
        let s := set_m_overrideTimer (overrideTime (m_EE s)) s in
        Ok (set_m_bRecheck true s)
  | 16%nat => Ok (ee (set_overrideTime (constrain val (60 * 1) (60 * 60 * 5))) s)
  | 17%nat =>
      if 0 <? val then
        let s := set_m_inTemp (constrain val 650 880) s in
        Ok (set_m_remoteTimer (m_remoteTimeout s) s)
      else Ok (set_m_remoteTimer 0 s)
  | 18%nat => Ok (set_m_remoteTimeout (constrain val 1 (60 * 5)) s)
  | _ => Ok s
  end.

(** ** Runs of the controller

    What the sketch can do to the object between two returns: one tick
    of [service], or one call of a public method. *)
Inductive event : Type :=
| Tick (sec : Z)
| Disable
| Enable
| SetMode (mode : Z)
| SetHeatMode (mode : Z)
| SetFan (bon : bool)
| SetTemp (mode Temp : Z) (hl : bool)
| UpdateIndoorTemp (Temp rh : Z)
| UpdateOutdoorTemp (outTemp : Z)
| UpdatePeaks (min max : Z)
| ResetFilter
| ResetTotal
| SetVar (sCmd : string) (val : Z).

Definition step (ev : event) (s : HVAC) : res HVAC :=
  match ev with
  | Tick sec => service sec s
  | Disable => Ok (disable s)
  | Enable => Ok (enable s)
  | SetMode mode => Ok (setMode mode s)
  | SetHeatMode mode => Ok (setHeatMode mode s)
  | SetFan bon => Ok (setFan bon s)
  | SetTemp mode Temp hl => setTemp mode Temp hl s
  | UpdateIndoorTemp Temp rh => Ok (updateIndoorTemp Temp rh s)
  | UpdateOutdoorTemp outTemp => Ok (updateOutdoorTemp outTemp s)
  | UpdatePeaks min max => Ok (updatePeaks min max s)
  | ResetFilter => Ok (resetFilter s)
  | ResetTotal => Ok (resetTotal s)
  | SetVar sCmd val => setVar sCmd val s
  end.

Fixpoint run (evs : list event) (s : HVAC) : res HVAC :=
  match evs with
  | [] => Ok s
  | ev :: rest => s' <- step ev s ;; run rest s'
  end.

(** The states the controller can be in: a run from the constructed
    object. *)
Definition reachable (s : HVAC) : Prop :=
  exists raw evs, run evs (HVAC_ctor raw) = Ok s.

(** The instants of a tick, from the object [s] it starts on: the object
    at line 174 when the start block runs ([m_bStart && !m_bRunning]),
    and the object at line 210 when the stop block runs
    ([m_bStop && m_bRunning]). *)
Definition start_instant (s : HVAC) : option HVAC :=
  match service_head s with
  | Ok (false, t) => if m_bStart t && negb (m_bRunning t) then Some t else None
  | _ => None
  end.

Definition stop_instant (s : HVAC) : option HVAC :=
  match service_head s with
  | Ok (false, t) =>
      let u := service_start (true_mode t) (true_hm t) t in
      if m_bStop u && m_bRunning u then Some u else None
  | _ => None
  end.

(** A temperature trajectory: what the sensors report before the tick
    [k] and the second of the minute at which it runs. *)
Definition is_sensor (ev : event) : bool :=
  match ev with
  | UpdateIndoorTemp _ _ | UpdateOutdoorTemp _ | UpdatePeaks _ _ => true
  | _ => false
  end.

Definition trajectory : Type := nat -> list event * Z.

Fixpoint state_at (tr : trajectory) (s0 : HVAC) (k : nat) : res HVAC :=
  match k with
  | O => Ok s0
  | S k' =>
      s <- state_at tr s0 k' ;;
      s <- run (fst (tr k')) s ;;
      service (snd (tr k')) s
  end.

(** What the sequencing decisions read and write: the flags, the cycle
    and idle counters, the two equipment outputs, the limits and the
    mode selections. *)
Definition core (s : HVAC) :=
  (m_bRunning s, m_bStart s, m_bStop s, m_cycleTimer s, m_idleTimer s,
   P_COOL (gpio s), P_HEAT (gpio s),
   cycleMin (m_EE s), cycleMax (m_EE s), idleMin (m_EE s),
   m_setMode s, m_setHeat s, Mode (m_EE s), heatMode (m_EE s), m_notif s).

(** The running flag and the two equipment outputs. *)
Definition out3 (s : HVAC) := (m_bRunning s, P_COOL (gpio s), P_HEAT (gpio s)).

(** The interlock: the two outputs are not both asserted, and both are
    low while no cycle runs. *)
Definition outputs_ok (s : HVAC) : Prop :=
  (m_bRunning s = false ->
   P_COOL (gpio s) = false /\ P_HEAT (gpio s) = false) /\
  P_COOL (gpio s) && P_HEAT (gpio s) = false.

(** ** Scenarios

    Runs of the sketch from the constructed object, used below as
    concrete inputs. *)

(** The object after the constructor, its storage zeroed before. *)
Definition power_on : HVAC := HVAC_ctor zeroed.

Definition ticks (n : nat) (sec : Z) : list event := repeat (Tick sec) n.

(** Cool mode, 81.0 degrees indoors, 75.0 outdoors in a 60-90 band: the
    target is 80.5.  After ten ticks the idle time is over and the
    decision pass requests a start. *)
Definition cool_setup : list event :=
  [SetMode 1; UpdateIndoorTemp 810 50; UpdatePeaks 60 90;
   UpdateOutdoorTemp 750; Enable].

Definition cool_request : list event := cool_setup ++ ticks 10 1.

(** The tick after the request starts the cycle. *)
Definition cool_start : list event := cool_request ++ [Tick 1].

(** The user selects Off between the request and the start. *)
Definition off_before_start : list event := cool_request ++ [SetMode 0; Tick 1].

(** The user selects Heat while the cool cycle runs; 19 ticks pass. *)
Definition heat_selected : list event := cool_start ++ [SetMode 2] ++ ticks 19 1.

(** The minimum idle time is raised between the request and the start. *)
Definition idle_min_raised : list event :=
  cool_request ++ [SetVar "idlemin"%string 1800].

(** The cool cycle after 59 ticks, the room at 78.0 degrees, below the
    target minus the threshold. *)
Definition cool_satisfied : list event :=
  cool_start ++ ticks 59 1 ++ [UpdateIndoorTemp 780 50].

(** The decision pass requests the stop; the sketch disables and enables
    the controller before the next tick, the room is at 81.0 degrees
    again, and the decision pass requests a start. *)
Definition stop_left_over : list event :=
  cool_satisfied ++
  [Tick 1; Disable; Enable; UpdateIndoorTemp 810 50; Tick 1].

(** The cool cycle after 60 ticks, the room at 78.8 degrees: the target
    minus the threshold. *)
Definition cool_boundary : list event :=
  cool_start ++ ticks 60 1 ++ [UpdateIndoorTemp 788 50].

(** The idle system one tick before the idle time is over. *)
Definition cool_waiting : list event := cool_setup ++ ticks 9 1.

(** A forecast whose minimum and maximum are both 70 degrees. *)
Definition flat_forecast : list event := [SetMode 1; UpdatePeaks 70 70; Tick 1].

(** Auto mode and auto heat source, 70.0 degrees indoors and 60.0
    outdoors. *)
Definition auto_heat : list event :=
  [SetMode 3; SetHeatMode 2; UpdateIndoorTemp 700 50; UpdateOutdoorTemp 600;
   UpdatePeaks 40 70; Enable; Tick 1].

(** A trajectory without sensor reports, ticking off the minute
    boundary. *)
Definition steady : trajectory := fun _ => ([], 1).

(** What a tick reads and never writes: the limits and setpoints of
    [m_EE], the sensor values, the forecast, the requested modes, the
    manual fan mode and the enabled flag. *)
Definition inputs (s : HVAC) :=
  (cycleMin (m_EE s), cycleMax (m_EE s), idleMin (m_EE s),
   cycleThresh (m_EE s), coolTemp (m_EE s), heatTemp (m_EE s),
   eHeatThresh (m_EE s), fanPostDelay (m_EE s), overrideTime (m_EE s),
   m_remoteTimeout s, m_outTemp s, m_inTemp s, m_rh s,
   m_outMin s, m_outMax s, m_bFanMode s, m_setMode s, m_setHeat s,
   m_bEnabled s).

(** The slow timers of lines 114-141 and what they guard. *)
Definition slow (s : HVAC) :=
  (m_remoteTimer s, m_overrideTimer s, m_ovrTemp s,
   filterMinutes (m_EE s), nSecs s).

(** The test of line 114: air moves through the filter. *)
Definition airflow (s : HVAC) : bool :=
  m_bFanRunning s || m_bRunning s || negb (m_furnaceFan s =? 0).

(** A countdown of [service]: [if(t) t--]. *)
Definition countdown (t : Z) : Z := if t =? 0 then 0 else ctr (t - 1).

(** The ranges [setVar] keeps the tunables in. *)
Definition limits_ok (s : HVAC) : Prop :=
  60 <= cycleMin (m_EE s) <= 60 * 20 /\
  60 * 2 <= cycleMax (m_EE s) <= 60 * 60 /\
  60 <= idleMin (m_EE s) <= 60 * 30 /\
  5 <= cycleThresh (m_EE s) <= 50 /\
  5 <= eHeatThresh (m_EE s) <= 50 /\
  0 <= idx (fanPostDelay (m_EE s)) false <= 60 * 5 /\
  0 <= idx (fanPostDelay (m_EE s)) true <= 60 * 5 /\
  60 <= overrideTime (m_EE s) <= 60 * 60 * 5 /\
  1 <= m_remoteTimeout s <= 60 * 5 /\
  0 <= m_ovrTemp s <= 90.

(** The bounds the setpoints stay in. *)
Definition setpoints_ok (s : HVAC) : Prop :=
  650 <= coolTemp_at s false <= 880 /\
  522 <= coolTemp_at s true <= 1007 /\
  503 <= heatTemp_at s false <= 988 /\
  630 <= heatTemp_at s true <= 860.


(** Everything a tick either only reads or only counts. *)
Definition quiet (s : HVAC) := (inputs s, slow s).

(** The tunables of [limits_ok] and the setpoints of [setpoints_ok]. *)
Definition lim (s : HVAC) :=
  (cycleMin (m_EE s), cycleMax (m_EE s), idleMin (m_EE s),
   cycleThresh (m_EE s), eHeatThresh (m_EE s), fanPostDelay (m_EE s),
   overrideTime (m_EE s), m_remoteTimeout s, m_ovrTemp s).

Definition setp (s : HVAC) := (coolTemp (m_EE s), heatTemp (m_EE s)).

(** A run made of ticks only. *)
Definition is_tick (ev : event) : bool :=
  match ev with Tick _ => true | _ => false end.

(** The fan and what it serves. *)
Definition fanv (s : HVAC) :=
  (m_bFanRunning s, P_FAN (gpio s), P_COOL (gpio s), P_HEAT (gpio s),
   m_bRunning s).

(** The fan output follows [m_bFanRunning], and the compressor output is
    not asserted with the fan off. *)
Definition fan_ok (s : HVAC) : Prop :=
  P_FAN (gpio s) = m_bFanRunning s /\
  (P_COOL (gpio s) = true -> m_bFanRunning s = true).

(** ** Further scenarios *)

(** The constructed object with a first forecast of 60 to 90 degrees. *)
Definition forecast_known : HVAC := updatePeaks 60 90 power_on.

(** The cool low setpoint is edited to 80.0 degrees. *)
Definition cool_edit : list event := cool_setup ++ [SetTemp 1 800 false].

(** ** Calls between two ticks *)

(** A call of a public method: any event but a tick. *)
Definition is_call (ev : event) : bool := negb (is_tick ev).

(** The requests, the two counters and the running flag. *)
Definition pend (s : HVAC) :=
  (m_bStart s, m_bStop s, m_cycleTimer s, m_idleTimer s, m_bRunning s).

(** What a call can do to them: the requests and the cycle counter stay,
    [disable] clears the running flag, and [setMode] may move the idle
    counter up to [idleMin - 10]. *)
Definition call_rel (s s' : HVAC) : Prop :=
  m_bStart s' = m_bStart s /\ m_bStop s' = m_bStop s /\
  m_cycleTimer s' = m_cycleTimer s /\
  (m_bRunning s' = m_bRunning s \/ m_bRunning s' = false) /\
  (m_idleTimer s' = m_idleTimer s \/
   m_idleTimer s < idleMin (m_EE s) - 30 /\
   m_idleTimer s' = ctr (idleMin (m_EE s) - 10)).

(** No start request is pending on a running cycle. *)
Definition start_ok (s : HVAC) : Prop :=
  limits_ok s /\ (m_bRunning s = true -> m_bStart s = false).

(** A running cycle is below the largest [cycleMax], and past the
    smallest [cycleMin] when a stop request is pending. *)
Definition stop_ok (s : HVAC) : Prop :=
  limits_ok s /\
  (m_bRunning s = true ->
   m_cycleTimer s < 60 * 60 /\ (m_bStop s = true -> 60 <= m_cycleTimer s)).

(** ** Scenarios with calls between the ticks *)

(** The decision pass has requested the stop of the cool cycle at 60
    seconds; the outdoor sensor reports before the next tick. *)
Definition stop_requested : list event :=
  cool_satisfied ++ [Tick 1; UpdateOutdoorTemp 760].

(** The decision pass has requested the start; the indoor sensor
    reports before the next tick. *)
Definition start_requested : list event :=
  cool_request ++ [UpdateIndoorTemp 812 50].

(** Auto mode at 81.0 degrees indoors: a cooling cycle is started.  At
    59 seconds the indoor reading falls to 73.5 degrees, below heat
    high, and the tick at 60 seconds is on the minute boundary; then
    the reading is 70.0 degrees. *)
Definition auto_flip : list event :=
  [SetMode 3; UpdateIndoorTemp 810 50; UpdatePeaks 60 90;
   UpdateOutdoorTemp 750; Enable]
  ++ ticks 11 1 ++ ticks 59 1
  ++ [UpdateIndoorTemp 735 50; Tick 0; UpdateIndoorTemp 700 50].
(** * Properties *)

(** ** Tactics *)

(** Case analysis on the members of an object. *)
Ltac dst s :=
  destruct s;
  repeat match goal with
         | e : EEConfig |- _ => destruct e
         | g : Pins |- _ => destruct g
         end.

Ltac split_if :=
  match goal with
  | |- context [if ?b then _ else _] => destruct b eqn:?
  | H : context [if ?b then _ else _] |- _ => destruct b eqn:?
  end.

(** Reading a member after a sequence of assignments: call by value, so
    that nested assignments are reduced once. *)
Ltac hsimp :=
  cbv beta iota zeta delta
  [
    cycleMin cycleMax idleMin cycleThresh coolTemp heatTemp eHeatThresh
    fanPostDelay overrideTime filterMinutes Mode heatMode P_FAN P_COOL P_REV
    P_HEAT m_EE m_remoteTimeout m_outTemp m_inTemp m_rh m_targetTemp
    m_bFanRunning m_outMin m_outMax m_bFanMode m_AutoMode m_setMode
    m_setHeat m_AutoHeat m_bRunning m_bStart m_bStop m_bRecheck m_bEnabled
    m_runTotal m_fanOnTimer m_cycleTimer m_fanPostTimer m_overrideTimer
    m_ovrTemp m_remoteTimer m_furnaceFan m_notif m_idleTimer nSecs gpio
    set_cycleMin set_cycleMax set_idleMin set_cycleThresh set_coolTemp
    set_heatTemp set_eHeatThresh set_fanPostDelay set_overrideTime
    set_filterMinutes set_Mode set_heatMode set_P_FAN set_P_COOL set_P_REV
    set_P_HEAT set_m_EE set_m_remoteTimeout set_m_outTemp set_m_inTemp
    set_m_rh set_m_targetTemp set_m_bFanRunning set_m_outMin set_m_outMax
    set_m_bFanMode set_m_AutoMode set_m_setMode set_m_setHeat set_m_AutoHeat
    set_m_bRunning set_m_bStart set_m_bStop set_m_bRecheck set_m_bEnabled
    set_m_runTotal set_m_fanOnTimer set_m_cycleTimer set_m_fanPostTimer
    set_m_overrideTimer set_m_ovrTemp set_m_remoteTimer set_m_furnaceFan
    set_m_notif set_m_idleTimer set_nSecs set_gpio ee digitalWrite
    set_coolTemp_at set_heatTemp_at coolTemp_at heatTemp_at ] in *.

(** Case analysis on the tests of a method body, innermost test first,
    before any assignment is unfolded. *)
Ltac split_inner_if :=
  match goal with
  | |- context [if ?b then _ else _] =>
      lazymatch b with
      | context [if _ then _ else _] => fail
      | _ => destruct b eqn:?
      end
  end.

Ltac crunch := cbv zeta; repeat (split_inner_if; cbv iota); hsimp.

Ltac zb :=
  repeat match goal with
         | H : (_ =? _) = true |- _ => apply Z.eqb_eq in H
         | H : (_ =? _) = false |- _ => apply Z.eqb_neq in H
         | H : (_ <? _) = true |- _ => apply Z.ltb_lt in H
         | H : (_ <? _) = false |- _ => apply Z.ltb_ge in H
         | H : (_ <=? _) = true |- _ => apply Z.leb_le in H
         | H : (_ <=? _) = false |- _ => apply Z.leb_gt in H
         | H : (_ || _) = true |- _ => apply orb_true_iff in H
         | H : (_ || _) = false |- _ => apply orb_false_iff in H; destruct H
         | H : (_ && _) = true |- _ => apply andb_true_iff in H; destruct H
         | H : (_ && _) = false |- _ => apply andb_false_iff in H
         | H : negb _ = true |- _ => apply negb_true_iff in H
         | H : negb _ = false |- _ => apply negb_false_iff in H
         end.

(** ** The target calculator *)

(** [calcTargetTemp] writes the cached target and the reversing valve,
    nothing else. *)
Lemma calcTargetTemp_inv mode s s' :
  calcTargetTemp mode s = Ok s' ->
  exists t r, s' = set_m_targetTemp t (digitalWrite (set_P_REV r) s).
Proof.
  unfold calcTargetTemp, interpolate, out_band, bind. intros H.
  dst s. hsimp.
  repeat (split_if; try discriminate);
    injection H as <-; eexists _, _; hsimp; reflexivity.
Qed.

Lemma out_band_frame t r s :
  out_band (set_m_targetTemp t (digitalWrite (set_P_REV r) s)) = out_band s.
Proof. dst s. reflexivity. Qed.

Lemma calcTargetTemp_sync_band mode s :
  out_band (if negb (m_bRunning s)
            then if negb (Bool.eqb (P_REV (gpio s)) (mode =? Mode_Heat))
                 then digitalWrite (set_P_REV (mode =? Mode_Heat)) s else s
            else s) = out_band s.
Proof. dst s. hsimp. repeat split_if; reflexivity. Qed.

(** With a band that has a width, [calcTargetTemp] returns. *)
Lemma calcTargetTemp_total mode s :
  band_width s <> 0 -> exists s', calcTargetTemp mode s = Ok s'.
Proof.
  unfold calcTargetTemp, interpolate, band_width. intros H.
  rewrite calcTargetTemp_sync_band.
  destruct (out_band s) as [L Hi]; cbn [fst snd] in H.
  apply Z.eqb_neq in H. rewrite H.
  destruct (mode =? Mode_Cool); [| destruct (mode =? Mode_Heat)];
    cbn [bind]; eauto.
Qed.

(** With a band of no width, the interpolation divides by zero. *)
Lemma calcTargetTemp_zero_band mode s :
  band_width s = 0 -> mode = Mode_Cool \/ mode = Mode_Heat ->
  calcTargetTemp mode s = DivByZero.
Proof.
  unfold calcTargetTemp, interpolate, band_width. intros H Hm.
  rewrite calcTargetTemp_sync_band.
  destruct (out_band s) as [L Hi]; cbn [fst snd] in H.
  apply Z.eqb_eq in H. rewrite H.
  destruct Hm; subst mode; reflexivity.
Qed.

(** [preCalcCycle] writes the cached target, the reversing valve and the
    automatic choices, nothing else. *)
Lemma preCalcCycle_inv mode s b s' :
  preCalcCycle mode s = Ok (b, s') ->
  exists t r am ah,
    s' = set_m_AutoHeat ah
           (set_m_AutoMode am (set_m_targetTemp t (digitalWrite (set_P_REV r) s))).
Proof.
  unfold preCalcCycle. intros H.
  repeat match type of H with
         | (if ?c then _ else _) = _ => destruct c
         end;
    try match type of H with
      | context [calcTargetTemp ?m ?x] =>
          let E := fresh "E" in
          destruct (calcTargetTemp m x) as [c|] eqn:E; [|discriminate];
          apply calcTargetTemp_inv in E; destruct E as (t & r & ->);
          cbn [bind] in H
      end;
    injection H as _ <-;
    dst s; hsimp; repeat split_if; eexists _, _, _, _; hsimp; reflexivity.
Qed.

Lemma preCalcCycle_total mode s :
  band_width s <> 0 -> exists r, preCalcCycle mode s = Ok r.
Proof.
  intros H. unfold preCalcCycle.
  assert (B : band_width (set_m_AutoMode Mode_Heat s) <> 0) by (dst s; exact H).
  repeat match goal with
         | |- exists _, (if ?c then _ else _) = _ => destruct c
         end;
    try match goal with
      | |- context [calcTargetTemp ?m ?x] =>
          let E := fresh in
          destruct (calcTargetTemp_total m x) as [c E];
          [ assumption | rewrite E ]
      end; cbn [bind]; eauto.
Qed.

(** What [preCalcCycle] leaves alone. *)
Lemma preCalcCycle_frame mode s b s' :
  preCalcCycle mode s = Ok (b, s') ->
  m_inTemp s' = m_inTemp s /\ m_outTemp s' = m_outTemp s /\
  m_EE s' = m_EE s /\ m_bStop s' = m_bStop s /\ m_bStart s' = m_bStart s /\
  m_bRunning s' = m_bRunning s /\ m_cycleTimer s' = m_cycleTimer s /\
  m_idleTimer s' = m_idleTimer s /\ m_bRecheck s' = m_bRecheck s /\
  P_COOL (gpio s') = P_COOL (gpio s) /\ P_HEAT (gpio s') = P_HEAT (gpio s) /\
  m_setMode s' = m_setMode s /\ m_setHeat s' = m_setHeat s /\
  m_notif s' = m_notif s /\ m_remoteTimer s' = m_remoteTimer s.
Proof.
  intros H. apply preCalcCycle_inv in H. destruct H as (t & r & am & ah & ->).
  dst s. hsimp. repeat split; reflexivity.
Qed.

Lemma set_m_bStop_frame b s :
  m_bStop (set_m_bStop b s) = b /\
  m_inTemp (set_m_bStop b s) = m_inTemp s /\
  m_EE (set_m_bStop b s) = m_EE s /\
  m_targetTemp (set_m_bStop b s) = m_targetTemp s.
Proof. dst s. hsimp. repeat split; reflexivity. Qed.

(** X22. The stop decision by the resolved mode.  While running, past
    [cycleMin], the decision pass requests a stop by the mode that
    [true_mode] resolves before the refresh ([Mode], or [m_AutoMode] in
    Auto), whichever output the cycle has asserted: for Cool exactly
    when the indoor temperature is less than or equal to the target
    minus [cycleThresh], for Heat exactly when it is strictly greater
    than the target plus [cycleThresh]; the target is the cached one,
    refreshed first at a re-check boundary (where the outdoor band must
    have a width). *)
Theorem tempCheck_stop_boundaries sec s :
  m_inTemp s <> 0 -> m_bEnabled s = true -> Mode (m_EE s) <> Mode_Off ->
  m_bRunning s = true -> cycleMin (m_EE s) <= m_cycleTimer s ->
  m_bStop s = false ->
  ((sec =? 0) || m_bRecheck s = true -> band_width s <> 0) ->
  exists s',
    tempCheck sec s = Ok s' /\
    m_inTemp s' = m_inTemp s /\
    cycleThresh (m_EE s') = cycleThresh (m_EE s) /\
    ((sec =? 0) || m_bRecheck s = false -> m_targetTemp s' = m_targetTemp s) /\
    (true_mode s = Mode_Cool ->
     (m_bStop s' = true <->
      m_inTemp s' <= m_targetTemp s' - cycleThresh (m_EE s'))) /\
    (true_mode s = Mode_Heat ->
     (m_bStop s' = true <->
      m_targetTemp s' + cycleThresh (m_EE s') < m_inTemp s')).
Proof.
  intros Hin Hen Hoff Hrun Hmin Hstop Hband. unfold tempCheck.
  apply Z.eqb_neq in Hin, Hoff. apply Z.ltb_ge in Hmin.
  rewrite Hin, Hen, Hoff, Hrun, Hmin. cbn [orb Bool.eqb].
  assert (R : exists s1,
    (if (sec =? 0) || m_bRecheck s
     then r <- preCalcCycle (to_int8 (Mode (m_EE s))) (set_m_bRecheck false s) ;;
          Ok (snd r)
     else Ok s) = Ok s1 /\
    m_inTemp s1 = m_inTemp s /\ m_EE s1 = m_EE s /\ m_bStop s1 = false /\
    ((sec =? 0) || m_bRecheck s = false -> m_targetTemp s1 = m_targetTemp s)).
  { destruct ((sec =? 0) || m_bRecheck s).
    - specialize (Hband eq_refl).
      destruct (preCalcCycle_total (to_int8 (Mode (m_EE s)))
                  (set_m_bRecheck false s)) as [[b s1] E].
      { clear - Hband. dst s. exact Hband. }
      rewrite E. exists s1. apply preCalcCycle_frame in E.
      destruct E as (E1 & _ & E2 & E3 & _).
      repeat split; try discriminate.
      + rewrite E1. clear. dst s. reflexivity.
      + rewrite E2. clear. dst s. reflexivity.
      + rewrite E3, <- Hstop. clear. dst s. reflexivity.
    - exists s. auto. }
  destruct R as (s1 & -> & R1 & R2 & R3 & R4). cbn [bind].
  destruct (set_m_bStop_frame true s1) as (F1 & F2 & F3 & F4).
  destruct (true_mode s =? Mode_Cool) eqn:Ec;
    [| destruct (true_mode s =? Mode_Heat) eqn:Eh ]; zb.
  - destruct (m_inTemp s1 <=? m_targetTemp s1 - cycleThresh (m_EE s1)) eqn:E; zb.
    + exists (set_m_bStop true s1). rewrite F1, F2, F3, F4, R2.
      rewrite R2 in E. repeat split; auto; intros; try lia.
      unfold Mode_Cool, Mode_Heat in *. congruence.
    + exists s1. rewrite R2. rewrite R2 in E.
      repeat split; auto; intros; try lia; try congruence.
      unfold Mode_Cool, Mode_Heat in *. congruence.
  - destruct (m_targetTemp s1 + cycleThresh (m_EE s1) <? m_inTemp s1) eqn:E; zb.
    + exists (set_m_bStop true s1). rewrite F1, F2, F3, F4, R2.
      rewrite R2 in E. repeat split; auto; intros; try lia; try congruence.
    + exists s1. rewrite R2. rewrite R2 in E.
      repeat split; auto; intros; try lia; try congruence.
  - exists s1. rewrite R2. repeat split; auto; intros; congruence.
Qed.

(** ** The automatic selector *)

(** What lines 321-334 of [preCalcCycle] do, as written: gas exactly when
    the indoor temperature is below the outdoor temperature minus ten
    times [eHeatThresh]. *)
Lemma preCalcCycle_auto_heat_code s b s' :
  m_inTemp s < coolTemp_at s false -> m_inTemp s <= heatTemp_at s true ->
  heatMode (m_EE s) = Heat_Auto ->
  preCalcCycle Mode_Auto s = Ok (b, s') ->
  m_AutoMode s' = Mode_Heat /\
  m_AutoHeat s' =
    (if m_inTemp s <? m_outTemp s - eHeatThresh (m_EE s) * 10
     then Heat_NG else Heat_HP).
Proof.
  intros Hc Hh Ha H. unfold preCalcCycle in H.
  change (Mode_Auto =? Mode_Cool) with false in H.
  change (Mode_Auto =? Mode_Heat) with false in H.
  change (Mode_Auto =? Mode_Auto) with true in H. cbv iota in H.
  apply Z.ltb_lt in Hc. rewrite Z.ltb_antisym in Hc. apply negb_true_iff in Hc.
  apply Z.leb_le in Hh. rewrite Hc, Hh in H.
  destruct (calcTargetTemp Mode_Heat (set_m_AutoMode Mode_Heat s)) as [c|] eqn:E;
    [|discriminate].
  apply calcTargetTemp_inv in E. destruct E as (t & r & ->). cbn [bind] in H.
  injection H as _ <-.
  dst s. hsimp. rewrite Ha.
  change (Heat_Auto =? Heat_Auto) with true. cbv iota.
  split_if; hsimp; split; reflexivity.
Qed.

(** C7 (amended). With the heat mode on Auto, when the automatic mode
    resolves to Heat, the selector picks gas or the heat pump; the gap it
    compares with is ten times [eHeatThresh] ([eHeatThresh] counts whole
    degrees), and the heat pump is picked whenever indoor and outdoor
    temperature are no further apart than that. *)
Theorem preCalcCycle_auto_heat_source s :
  m_inTemp s < coolTemp_at s false -> m_inTemp s <= heatTemp_at s true ->
  heatMode (m_EE s) = Heat_Auto -> band_width s <> 0 ->
  exists b s',
    preCalcCycle Mode_Auto s = Ok (b, s') /\
    m_AutoMode s' = Mode_Heat /\
    (m_AutoHeat s' = Heat_NG \/ m_AutoHeat s' = Heat_HP) /\
    (Z.abs (m_inTemp s - m_outTemp s) <= eHeatThresh (m_EE s) * 10 ->
     m_AutoHeat s' = Heat_HP).
Proof.
  intros Hc Hh Ha Hband.
  destruct (preCalcCycle_total Mode_Auto s Hband) as [[b s'] E].
  exists b, s'. split; [exact E|].
  destruct (preCalcCycle_auto_heat_code s b s' Hc Hh Ha E) as [-> ->].
  split; [reflexivity|].
  destruct (m_inTemp s <? m_outTemp s - eHeatThresh (m_EE s) * 10) eqn:C; zb;
    split; auto; intros; try reflexivity; lia.
Qed.

(** ** The setters *)

(** C9 (amended). [setTemp] ignores a temperature outside 65.0-88.0
    degrees for cool and outside 63.0-86.0 degrees for heat: the object
    is left as it was, no setpoint moves to a bound. *)
Theorem setTemp_out_of_range_ignored mode Temp hl s :
  (setTemp_mode mode s = Mode_Cool /\ (Temp < 650 \/ 880 < Temp)) \/
  (setTemp_mode mode s = Mode_Heat /\ (Temp < 630 \/ 860 < Temp)) ->
  setTemp mode Temp hl s = Ok s.
Proof.
  unfold setTemp. intros [[-> H] | [-> H]].
  - change (Mode_Cool =? Mode_Cool) with true. cbv iota.
    replace ((Temp <? 650) || (880 <? Temp)) with true; [reflexivity|].
    symmetry. apply orb_true_iff. rewrite !Z.ltb_lt. exact H.
  - change (Mode_Heat =? Mode_Cool) with false.
    change (Mode_Heat =? Mode_Heat) with true. cbv iota.
    replace ((Temp <? 630) || (860 <? Temp)) with true; [reflexivity|].
    symmetry. apply orb_true_iff. rewrite !Z.ltb_lt. exact H.
Qed.

(** C10. [updateIndoorTemp] always stores the humidity; it leaves the
    indoor temperature alone while the remote heartbeat timer is not
    zero, and stores the given temperature once the timer is zero.  The
    timer itself is not touched. *)
Theorem updateIndoorTemp_remote Temp rh s :
  m_rh (updateIndoorTemp Temp rh s) = rh /\
  m_remoteTimer (updateIndoorTemp Temp rh s) = m_remoteTimer s /\
  (m_remoteTimer s <> 0 ->
   m_inTemp (updateIndoorTemp Temp rh s) = m_inTemp s) /\
  (m_remoteTimer s = 0 ->
   m_inTemp (updateIndoorTemp Temp rh s) = Temp).
Proof.
  unfold updateIndoorTemp.
  destruct (m_remoteTimer s =? 0) eqn:E; zb;
    repeat split; intros; try congruence; dst s; reflexivity.
Qed.

(** The heartbeat timer counts down to zero, one per tick. *)
Lemma service_remote_timer s :
  m_remoteTimer (service_remote s) =
    (if m_remoteTimer s =? 0 then 0 else ctr (m_remoteTimer s - 1)).
Proof.
  unfold service_remote. destruct (m_remoteTimer s =? 0) eqn:E; cbn [negb].
  - zb. congruence.
  - dst s; reflexivity.
Qed.

(** ** The tick: what each block does to the sequencing state *)

Lemma core_fields s s' :
  core s' = core s ->
  m_bRunning s' = m_bRunning s /\ m_bStart s' = m_bStart s /\
  m_bStop s' = m_bStop s /\ m_cycleTimer s' = m_cycleTimer s /\
  m_idleTimer s' = m_idleTimer s /\
  P_COOL (gpio s') = P_COOL (gpio s) /\ P_HEAT (gpio s') = P_HEAT (gpio s) /\
  cycleMin (m_EE s') = cycleMin (m_EE s) /\
  cycleMax (m_EE s') = cycleMax (m_EE s) /\
  idleMin (m_EE s') = idleMin (m_EE s) /\
  m_setMode s' = m_setMode s /\ m_setHeat s' = m_setHeat s /\
  Mode (m_EE s') = Mode (m_EE s) /\ heatMode (m_EE s') = heatMode (m_EE s) /\
  m_notif s' = m_notif s.
Proof.
  unfold core. intros H. injection H. intros. repeat split; assumption.
Qed.

Ltac core_eq H :=
  apply core_fields in H;
  destruct H as (?Krun & ?Kstart & ?Kstop & ?Kct & ?Kit & ?Kcool & ?Kheat &
                 ?Kmin & ?Kmax & ?Kidle & ?Ksm & ?Ksh & ?Kmode & ?Khm & ?Knotif).

Lemma calcTargetTemp_core mode s s' :
  calcTargetTemp mode s = Ok s' -> core s' = core s.
Proof.
  intros H. apply calcTargetTemp_inv in H. destruct H as (t & r & ->).
  dst s; reflexivity.
Qed.

Lemma fanSwitch_core b s : core (fanSwitch b s) = core s.
Proof. unfold fanSwitch. dst s. hsimp. repeat split_if; reflexivity. Qed.

Lemma service_airflow_core s : core (service_airflow s) = core s.
Proof.
  unfold service_airflow, filterInc. dst s. hsimp.
  repeat split_if; reflexivity.
Qed.

Lemma service_fanPost_core s : core (service_fanPost s) = core s.
Proof.
  unfold service_fanPost, fanSwitch. dst s. hsimp.
  repeat split_if; reflexivity.
Qed.

Lemma service_remote_core s : core (service_remote s) = core s.
Proof. unfold service_remote. dst s. hsimp. repeat split_if; reflexivity. Qed.

Lemma service_override_core s s' :
  service_override s = Ok s' -> core s' = core s.
Proof.
  unfold service_override. intros H.
  destruct (negb (m_overrideTimer s =? 0));
    [ cbv zeta in H;
      match type of H with
      | (if ?c then _ else _) = _ => destruct c
      end |];
    try (injection H as <-); try (dst s; reflexivity).
  apply calcTargetTemp_core in H. rewrite H. dst s; reflexivity.
Qed.

(** Lines 114-141 leave the sequencing state alone. *)
Lemma service_timers_core s s' :
  service_override (service_remote (service_fanPost (service_airflow s))) = Ok s' ->
  core s' = core s.
Proof.
  intros H. apply service_override_core in H.
  rewrite H, service_remote_core, service_fanPost_core, service_airflow_core.
  reflexivity.
Qed.

(** Lines 143-169 on the sequencing state. *)
Lemma service_cycle_request_spec s ret t :
  (let (ret, s) := service_cycle s in
   if ret then Ok (true, s) else s <- service_request s ;; Ok (false, s))
  = Ok (ret, t) ->
  m_bRunning t = m_bRunning s /\ m_bStart t = m_bStart s /\
  P_COOL (gpio t) = P_COOL (gpio s) /\ P_HEAT (gpio t) = P_HEAT (gpio s) /\
  cycleMin (m_EE t) = cycleMin (m_EE s) /\
  cycleMax (m_EE t) = cycleMax (m_EE s) /\
  idleMin (m_EE t) = idleMin (m_EE s) /\
  m_setMode t = m_setMode s /\ m_setHeat t = m_setHeat s /\
  m_cycleTimer t =
    (if m_bRunning s then ctr (m_cycleTimer s + 1) else m_cycleTimer s) /\
  m_idleTimer t =
    (if m_bRunning s then m_idleTimer s else ctr (m_idleTimer s + 1)) /\
  ret = m_bRunning s && (m_cycleTimer t <? 20) /\
  m_bStop t =
    (if ret then m_bStop s
     else m_bStop s
          || m_bRunning s
             && ((cycleMax (m_EE s) <=? m_cycleTimer t) || mode_change s)) /\
  m_notif t =
    (if negb ret && m_bRunning s && (cycleMax (m_EE s) <=? m_cycleTimer t)
     then Note_CycleLimit else m_notif s) /\
  (Mode (m_EE t), heatMode (m_EE t)) =
    (if negb ret && mode_change s && (5 <=? m_idleTimer t)
     then (m_setMode s, m_setHeat s)
     else (Mode (m_EE s), heatMode (m_EE s))).
Proof.
  unfold service_cycle, service_request, mode_change. intros H.
  dst s. hsimp.
  repeat match type of H with
         | context [if ?b then _ else _] => destruct b eqn:?
         end;
    cbn [bind] in H;
    try match type of H with
      | context [calcTargetTemp ?m ?x] =>
          destruct (calcTargetTemp m x) as [c|] eqn:C; [|discriminate];
          apply calcTargetTemp_inv in C; destruct C as (tt & rr & ->);
          cbn [bind] in H
      end;
    injection H as <- <-; hsimp;
    repeat match goal with
           | H : ?b = true |- context [?b] => rewrite H
           | H : ?b = false |- context [?b] => rewrite H
           end;
    cbn [andb orb negb];
    repeat split; try reflexivity; try (destruct m_bStop0; reflexivity).
Qed.

(** Lines 114-169 on the sequencing state. *)
Lemma service_head_spec s ret t :
  service_head s = Ok (ret, t) ->
  m_bRunning t = m_bRunning s /\ m_bStart t = m_bStart s /\
  P_COOL (gpio t) = P_COOL (gpio s) /\ P_HEAT (gpio t) = P_HEAT (gpio s) /\
  cycleMin (m_EE t) = cycleMin (m_EE s) /\
  cycleMax (m_EE t) = cycleMax (m_EE s) /\
  idleMin (m_EE t) = idleMin (m_EE s) /\
  m_setMode t = m_setMode s /\ m_setHeat t = m_setHeat s /\
  m_cycleTimer t =
    (if m_bRunning s then ctr (m_cycleTimer s + 1) else m_cycleTimer s) /\
  m_idleTimer t =
    (if m_bRunning s then m_idleTimer s else ctr (m_idleTimer s + 1)) /\
  ret = m_bRunning s && (m_cycleTimer t <? 20) /\
  m_bStop t =
    (if ret then m_bStop s
     else m_bStop s
          || m_bRunning s
             && ((cycleMax (m_EE s) <=? m_cycleTimer t) || mode_change s)) /\
  m_notif t =
    (if negb ret && m_bRunning s && (cycleMax (m_EE s) <=? m_cycleTimer t)
     then Note_CycleLimit else m_notif s) /\
  (Mode (m_EE t), heatMode (m_EE t)) =
    (if negb ret && mode_change s && (5 <=? m_idleTimer t)
     then (m_setMode s, m_setHeat s)
     else (Mode (m_EE s), heatMode (m_EE s))).
Proof.
  unfold service_head. intros H.
  destruct (service_override _) as [s0|] eqn:E; [|discriminate].
  apply service_timers_core in E. cbn [bind] in H.
  apply service_cycle_request_spec in H.
  unfold mode_change in *. core_eq E.
  rewrite Krun, Kstart, Kstop, Kct, Kit, Kcool, Kheat, Kmin, Kmax, Kidle,
    Ksm, Ksh, Kmode, Khm, Knotif in H.
  exact H.
Qed.

(** The start block (lines 174-208) on the sequencing state. *)
Lemma service_start_spec mode hm t :
  let u := service_start mode hm t in
  let go := m_bStart t && negb (m_bRunning t) in
  m_EE u = m_EE t /\ m_bStop u = m_bStop t /\ m_idleTimer u = m_idleTimer t /\
  m_setMode u = m_setMode t /\ m_setHeat u = m_setHeat t /\
  m_notif u = m_notif t /\
  m_bRunning u = (if go then true else m_bRunning t) /\
  m_bStart u = (if go then false else m_bStart t) /\
  m_cycleTimer u = (if go then 0 else m_cycleTimer t) /\
  P_COOL (gpio u) =
    (if go && ((mode =? Mode_Cool) || (mode =? Mode_Heat) && (hm =? 0))
     then true else P_COOL (gpio t)) /\
  P_HEAT (gpio u) =
    (if go && ((mode =? Mode_Heat) && negb (hm =? 0))
     then true else P_HEAT (gpio t)).
Proof.
  unfold service_start, fanSwitch. crunch; zb;
    try (unfold Mode_Cool, Mode_Heat in *; lia);
    dst t; hsimp; subst; cbn [andb orb negb];
    repeat match goal with
           | H : ?b = true |- context [?b] => rewrite H
           | H : ?b = false |- context [?b] => rewrite H
           end;
    repeat split; try reflexivity.
Qed.

(** The stop block (lines 210-231) on the sequencing state. *)
Lemma service_stop_spec mode hm u :
  let v := service_stop mode hm u in
  let go := m_bStop u && m_bRunning u in
  m_EE v = m_EE u /\ m_bStart v = m_bStart u /\
  m_cycleTimer v = m_cycleTimer u /\
  m_setMode v = m_setMode u /\ m_setHeat v = m_setHeat u /\
  m_notif v = m_notif u /\
  m_bRunning v = (if go then false else m_bRunning u) /\
  m_bStop v = (if go then false else m_bStop u) /\
  m_idleTimer v = (if go then 0 else m_idleTimer u) /\
  P_COOL (gpio v) = (if go then false else P_COOL (gpio u)) /\
  P_HEAT (gpio v) = (if go then false else P_HEAT (gpio u)).
Proof.
  unfold service_stop, fanSwitch. crunch;
    dst u; hsimp; subst; cbn [andb orb negb];
    repeat match goal with
           | H : ?b = true |- context [?b] => rewrite H
           | H : ?b = false |- context [?b] => rewrite H
           end;
    repeat split; try reflexivity.
Qed.

Lemma set_m_bStart_frame b s :
  m_bStart (set_m_bStart b s) = b /\
  m_EE (set_m_bStart b s) = m_EE s /\
  m_bRunning (set_m_bStart b s) = m_bRunning s /\
  m_cycleTimer (set_m_bStart b s) = m_cycleTimer s /\
  m_idleTimer (set_m_bStart b s) = m_idleTimer s /\
  gpio (set_m_bStart b s) = gpio s /\
  m_setMode (set_m_bStart b s) = m_setMode s /\
  m_setHeat (set_m_bStart b s) = m_setHeat s /\
  m_notif (set_m_bStart b s) = m_notif s /\
  m_bStop (set_m_bStart b s) = m_bStop s.
Proof. dst s. hsimp. repeat split; reflexivity. Qed.

Lemma set_m_bStop_frame' b s :
  m_bStart (set_m_bStop b s) = m_bStart s /\
  m_bRunning (set_m_bStop b s) = m_bRunning s /\
  m_cycleTimer (set_m_bStop b s) = m_cycleTimer s /\
  m_idleTimer (set_m_bStop b s) = m_idleTimer s /\
  gpio (set_m_bStop b s) = gpio s /\
  m_setMode (set_m_bStop b s) = m_setMode s /\
  m_setHeat (set_m_bStop b s) = m_setHeat s /\
  m_notif (set_m_bStop b s) = m_notif s.
Proof. dst s. hsimp. repeat split; reflexivity. Qed.

Lemma set_m_bRecheck_frame b s :
  m_bStart (set_m_bRecheck b s) = m_bStart s /\
  m_bStop (set_m_bRecheck b s) = m_bStop s /\
  m_EE (set_m_bRecheck b s) = m_EE s /\
  m_bRunning (set_m_bRecheck b s) = m_bRunning s /\
  m_cycleTimer (set_m_bRecheck b s) = m_cycleTimer s /\
  m_idleTimer (set_m_bRecheck b s) = m_idleTimer s /\
  gpio (set_m_bRecheck b s) = gpio s /\
  m_setMode (set_m_bRecheck b s) = m_setMode s /\
  m_setHeat (set_m_bRecheck b s) = m_setHeat s /\
  m_notif (set_m_bRecheck b s) = m_notif s.
Proof. dst s. hsimp. repeat split; reflexivity. Qed.

(** The decision pass on the sequencing state: it raises the stop
    request only on a running cycle past [cycleMin], and changes the
    start request only on an idle system past [idleMin]. *)
Lemma tempCheck_spec sec v s1 :
  tempCheck sec v = Ok s1 ->
  m_EE s1 = m_EE v /\ m_bRunning s1 = m_bRunning v /\
  m_cycleTimer s1 = m_cycleTimer v /\ m_idleTimer s1 = m_idleTimer v /\
  P_COOL (gpio s1) = P_COOL (gpio v) /\ P_HEAT (gpio s1) = P_HEAT (gpio v) /\
  m_setMode s1 = m_setMode v /\ m_setHeat s1 = m_setHeat v /\
  m_notif s1 = m_notif v /\
  (m_bStop s1 = m_bStop v \/
   m_bStop s1 = true /\ m_bRunning v = true /\
   cycleMin (m_EE v) <= m_cycleTimer v) /\
  (m_bStart s1 = m_bStart v \/
   m_bRunning v = false /\ idleMin (m_EE v) <= m_idleTimer v).
Proof.
  unfold tempCheck. intros H.
  destruct ((m_inTemp v =? 0) || Bool.eqb (m_bEnabled v) false);
    [ injection H as <-; repeat split; auto |].
  destruct (Mode (m_EE v) =? Mode_Off);
    [ injection H as <-; repeat split; auto |].
  destruct (set_m_bRecheck_frame false v) as
    (K1 & K2 & K3 & K4 & K5 & K6 & K7 & K8 & K9 & K10).
  destruct (m_bRunning v) eqn:Rv.
  - destruct (m_cycleTimer v <? cycleMin (m_EE v)) eqn:Em;
      [ injection H as <-; repeat split; auto |].
    zb. cbv zeta in H.
    assert (R : exists s2,
      (if (sec =? 0) || m_bRecheck v
       then r <- preCalcCycle (to_int8 (Mode (m_EE v))) (set_m_bRecheck false v) ;;
            Ok (snd r)
       else Ok v) = Ok s2 /\
      (s1 = s2 \/ s1 = set_m_bStop true s2) /\
      m_EE s2 = m_EE v /\ m_bRunning s2 = m_bRunning v /\
      m_cycleTimer s2 = m_cycleTimer v /\ m_idleTimer s2 = m_idleTimer v /\
      P_COOL (gpio s2) = P_COOL (gpio v) /\ P_HEAT (gpio s2) = P_HEAT (gpio v) /\
      m_setMode s2 = m_setMode v /\ m_setHeat s2 = m_setHeat v /\
      m_notif s2 = m_notif v /\ m_bStop s2 = m_bStop v /\
      m_bStart s2 = m_bStart v).
    { destruct ((sec =? 0) || m_bRecheck v).
      - destruct (preCalcCycle _ _) as [[b c]|] eqn:C; [|discriminate].
        cbn [bind snd] in H. exists c. split; [reflexivity|].
        apply preCalcCycle_frame in C.
        destruct C as (_ & _ & C1 & C2 & C3 & C4 & C5 & C6 & _ & C7 & C8 & C9 &
                       C10 & C11 & _).
        split.
        { repeat match type of H with
                 | (if ?b then _ else _) = _ => destruct b
                 end; injection H as <-; auto. }
        rewrite C1, C2, C3, C4, C5, C6, C7, C8, C9, C10, C11.
        rewrite K1, K2, K3, K4, K5, K6, K7, K8, K9, K10, Rv.
        repeat split; reflexivity.
      - cbn [bind] in H. exists v. split; [reflexivity|].
        split.
        { repeat match type of H with
                 | (if ?b then _ else _) = _ => destruct b
                 end; injection H as <-; auto. }
        rewrite Rv. repeat split; reflexivity. }
    destruct R as (s2 & _ & Hs & R1 & R2 & R3 & R4 & R5 & R6 & R7 & R8 & R9 &
                   R10 & R11).
    destruct (set_m_bStop_frame true s2) as (F1 & _ & F3 & _).
    destruct (set_m_bStop_frame' true s2) as (G1 & G2 & G3 & G4 & G5 & G6 & G7 & G8).
    destruct Hs as [-> | ->].
    + rewrite R1, R2, R3, R4, R5, R6, R7, R8, R9, R10, R11.
      repeat split; auto.
    + rewrite F1, F3, G1, G2, G3, G4, G5, G6, G7, G8.
      rewrite R1, R2, R3, R4, R5, R6, R7, R8, R9, R11.
      repeat split; auto.
  - destruct (m_idleTimer v <? idleMin (m_EE v)) eqn:Em;
      [ injection H as <-; repeat split; auto |].
    zb.
    destruct ((sec =? 0) || m_bRecheck v);
      [| injection H as <-; repeat split; auto ].
    destruct (preCalcCycle _ _) as [[b c]|] eqn:C; [|discriminate].
    cbn [bind fst snd] in H. injection H as <-.
    apply preCalcCycle_frame in C.
    destruct C as (_ & _ & C1 & C2 & C3 & C4 & C5 & C6 & _ & C7 & C8 & C9 &
                   C10 & C11 & _).
    destruct (set_m_bStart_frame b c) as
      (B1 & B2 & B3 & B4 & B5 & B6 & B7 & B8 & B9 & B10).
    rewrite B2, B3, B4, B5, B6, B7, B8, B9, B10.
    rewrite C1, C2, C4, C5, C6, C7, C8, C9, C10, C11.
    rewrite K2, K3, K4, K5, K6, K7, K8, K9, K10.
    repeat split; auto.
Qed.

(** ** Requests and the ticks that carry them out *)

Ltac tick_specs Hsvc :=
  let ret := fresh "ret" in
  let t := fresh "t" in
  let Eh := fresh "Eh" in
  unfold service in Hsvc;
  match type of Hsvc with
  | context [service_head ?s] =>
      destruct (service_head s) as [[ret t]|] eqn:Eh; [|discriminate];
      cbn [bind] in Hsvc;
      pose proof (service_head_spec _ _ _ Eh)
  end.

(** A running cycle with a stop request pending as a tick ends: either
    the decision pass of that tick raised it, on a cycle whose
    [m_cycleTimer] has reached [cycleMin], or the tick returned at line
    147 and the request is the one it began with. *)
Lemma service_stop_pending sec s s1 :
  service sec s = Ok s1 -> m_bStop s1 = true -> m_bRunning s1 = true ->
  cycleMin (m_EE s1) <= m_cycleTimer s1 \/
  (m_bStop s = true /\ m_bRunning s = true /\
   m_cycleTimer s1 = ctr (m_cycleTimer s + 1) /\ m_cycleTimer s1 < 20).
Proof.
  intros H Hs1 Hr1. tick_specs H.
  destruct H0 as (A1 & A2 & _ & _ & A5 & _ & _ & _ & _ & A10 & _ & A12 & A13 & _).
  destruct ret.
  - injection H as <-. right.
    symmetry in A12. apply andb_true_iff in A12. destruct A12 as [R L].
    rewrite R in A10. apply Z.ltb_lt in L.
    repeat split; try assumption. rewrite <- A13. exact Hs1.
  - pose proof (service_start_spec (true_mode t) (true_hm t) t) as S. cbv zeta in S.
    set (u := service_start (true_mode t) (true_hm t) t) in *.
    pose proof (service_stop_spec (true_mode t) (true_hm t) u) as P. cbv zeta in P.
    set (v := service_stop (true_mode t) (true_hm t) u) in *.
    apply tempCheck_spec in H.
    destruct P as (_ & _ & _ & _ & _ & _ & P7 & P8 & _).
    destruct H as (T1 & T2 & T3 & _ & _ & _ & _ & _ & _ & T10 & _).
    left. rewrite T1, T3.
    destruct T10 as [T10 | (_ & T11 & T12)]; [| exact T12 ].
    exfalso. rewrite T10 in Hs1. rewrite T2 in Hr1.
    rewrite Hs1 in P8. rewrite Hr1 in P7.
    destruct (m_bStop u), (m_bRunning u); cbn in P7, P8; discriminate.
Qed.

(** A start request pending as a tick ends, on an object that never
    runs with a start request pending: the decision pass of that tick
    raised it, on an idle system whose [m_idleTimer] has reached
    [idleMin]. *)
Lemma service_start_pending sec s s1 :
  (m_bRunning s = true -> m_bStart s = false) ->
  service sec s = Ok s1 -> m_bStart s1 = true ->
  m_bRunning s1 = false /\ idleMin (m_EE s1) <= m_idleTimer s1.
Proof.
  intros N H Hs1. tick_specs H.
  destruct H0 as (A1 & A2 & _ & _ & _ & _ & _ & _ & _ & _ & _ & A12 & _).
  destruct ret.
  - injection H as <-. exfalso.
    symmetry in A12. apply andb_true_iff in A12. destruct A12 as [R _].
    rewrite A2, (N R) in Hs1. discriminate.
  - pose proof (service_start_spec (true_mode t) (true_hm t) t) as S. cbv zeta in S.
    set (u := service_start (true_mode t) (true_hm t) t) in *.
    pose proof (service_stop_spec (true_mode t) (true_hm t) u) as P. cbv zeta in P.
    set (v := service_stop (true_mode t) (true_hm t) u) in *.
    apply tempCheck_spec in H.
    destruct S as (_ & _ & _ & _ & _ & _ & _ & S8 & _).
    destruct P as (_ & P2 & _).
    destruct H as (T1 & T2 & _ & T4 & _ & _ & _ & _ & _ & _ & T11).
    rewrite T1, T2, T4.
    destruct T11 as [T11 | T11]; [| exact T11 ].
    exfalso. rewrite T11, P2, S8, A2, A1 in Hs1.
    destruct (m_bRunning s) eqn:R.
    + rewrite (N eq_refl) in Hs1. cbn in Hs1. discriminate.
    + destruct (m_bStart s); cbn in Hs1; discriminate.
Qed.

(** A cycle that runs as a tick ends is within the lockout, or has just
    been started, or is below [cycleMax]. *)
Lemma service_running_bound sec s s1 :
  service sec s = Ok s1 -> m_bRunning s1 = true ->
  m_cycleTimer s1 < 20 \/ m_cycleTimer s1 = 0 \/
  m_cycleTimer s1 < cycleMax (m_EE s1).
Proof.
  intros H Hr1. tick_specs H.
  destruct H0 as (A1 & A2 & _ & _ & _ & A6 & _ & _ & _ & A10 & _ & A12 & A13 & _).
  destruct ret.
  - injection H as <-. left.
    symmetry in A12. apply andb_true_iff in A12. destruct A12 as [_ L].
    apply Z.ltb_lt in L. exact L.
  - pose proof (service_start_spec (true_mode t) (true_hm t) t) as S. cbv zeta in S.
    set (u := service_start (true_mode t) (true_hm t) t) in *.
    pose proof (service_stop_spec (true_mode t) (true_hm t) u) as P. cbv zeta in P.
    set (v := service_stop (true_mode t) (true_hm t) u) in *.
    apply tempCheck_spec in H.
    destruct S as (S1 & S2 & _ & _ & _ & _ & S7 & _ & S9 & _).
    destruct P as (P1 & _ & P3 & _ & _ & _ & P7 & _).
    destruct H as (T1 & T2 & T3 & _).
    right. rewrite T1, T3, P1, P3, S1, S9, A6.
    rewrite T2, P7, S2, S7, A13, A1 in Hr1. rewrite A1.
    destruct (m_bStart t && negb (m_bRunning s)) eqn:Go; [left; reflexivity|].
    right. cbv iota in Hr1.
    destruct (m_bRunning s) eqn:R; cbn [andb orb] in Hr1.
    + destruct (cycleMax (m_EE s) <=? m_cycleTimer t) eqn:F.
      * rewrite orb_true_r in Hr1. cbn in Hr1. discriminate.
      * apply Z.leb_gt in F. exact F.
    + rewrite andb_false_r in Hr1. discriminate.
Qed.

(** The stop block on a cycle that was running when the tick began, the
    stop not forced by [cycleMax]: the lockout is over, and without a
    pending mode change the request was pending when the tick began. *)
Lemma stop_instant_spec s2 u :
  m_bRunning s2 = true -> stop_instant s2 = Some u ->
  m_cycleTimer u < cycleMax (m_EE u) ->
  20 <= m_cycleTimer u /\
  m_cycleTimer u = ctr (m_cycleTimer s2 + 1) /\
  cycleMin (m_EE u) = cycleMin (m_EE s2) /\
  (mode_change s2 = false -> m_bStop s2 = true).
Proof.
  intros R Hst Hmax. unfold stop_instant in Hst.
  destruct (service_head s2) as [[[|] t]|] eqn:Eh; try discriminate.
  pose proof (service_head_spec _ _ _ Eh) as
    (A1 & A2 & _ & _ & A5 & A6 & _ & _ & _ & A10 & _ & A12 & A13 & _).
  pose proof (service_start_spec (true_mode t) (true_hm t) t) as S.
  cbv zeta in S, Hst.
  destruct S as (S1 & S2 & _ & _ & _ & _ & S7 & _ & S9 & _).
  match type of Hst with
  | (if ?c then _ else _) = _ => destruct c eqn:G; [|discriminate]
  end.
  injection Hst as <-.
  apply andb_true_iff in G. destruct G as [G1 G2].
  rewrite S2, A13 in G1. rewrite S1, A6 in Hmax. rewrite S9 in Hmax |- *.
  rewrite S1, A5. rewrite A1, R in *. cbn [andb orb negb] in *.
  rewrite andb_false_r in *. rewrite A10 in *.
  symmetry in A12. apply Z.ltb_ge in A12.
  repeat split; try assumption; try reflexivity.
  intros Hp. rewrite Hp in G1.
  replace (cycleMax (m_EE s2) <=? ctr (m_cycleTimer s2 + 1)) with false in G1
    by (symmetry; apply Z.leb_gt; exact Hmax).
  rewrite !orb_false_r in G1. exact G1.
Qed.

(** The start block fires on an idle system with the request pending
    when the tick began; the idle counter has counted that tick. *)
Lemma start_instant_spec s2 t :
  start_instant s2 = Some t ->
  m_bStart s2 = true /\ m_bRunning s2 = false /\
  idleMin (m_EE t) = idleMin (m_EE s2) /\
  m_idleTimer t = ctr (m_idleTimer s2 + 1).
Proof.
  intros Hst. unfold start_instant in Hst.
  destruct (service_head s2) as [[[|] t']|] eqn:Eh; try discriminate.
  pose proof (service_head_spec _ _ _ Eh) as
    (A1 & A2 & _ & _ & _ & _ & A7 & _ & _ & _ & A11 & _).
  match type of Hst with
  | (if ?c then _ else _) = _ => destruct c eqn:G; [|discriminate]
  end.
  injection Hst as <-.
  apply andb_true_iff in G. destruct G as [G1 G2].
  apply negb_true_iff in G2. rewrite A2 in G1. rewrite A1 in G2.
  rewrite G2 in A11. repeat split; assumption.
Qed.

(** ** The lockout and the cycle limit *)

(** What a tick leaves of the sequencing state, whatever it does. *)
Lemma service_limits sec s s1 :
  service sec s = Ok s1 ->
  cycleMin (m_EE s1) = cycleMin (m_EE s) /\
  cycleMax (m_EE s1) = cycleMax (m_EE s) /\
  idleMin (m_EE s1) = idleMin (m_EE s) /\
  m_setMode s1 = m_setMode s /\ m_setHeat s1 = m_setHeat s.
Proof.
  intros H. tick_specs H.
  destruct H0 as (_ & _ & _ & _ & A5 & A6 & A7 & A8 & A9 & _).
  destruct ret.
  - injection H as <-. auto.
  - pose proof (service_start_spec (true_mode t) (true_hm t) t) as S. cbv zeta in S.
    set (u := service_start (true_mode t) (true_hm t) t) in *.
    pose proof (service_stop_spec (true_mode t) (true_hm t) u) as P. cbv zeta in P.
    set (v := service_stop (true_mode t) (true_hm t) u) in *.
    apply tempCheck_spec in H.
    destruct S as (S1 & _ & _ & S4 & S5 & _).
    destruct P as (P1 & _ & _ & P4 & P5 & _).
    destruct H as (T1 & _ & _ & _ & _ & _ & T7 & T8 & _).
    rewrite T1, T7, T8, P1, P4, P5, S1, S4, S5. auto.
Qed.

(** Within the first 20 seconds of a cycle [service] returns at line
    147: the requests, the outputs and the running flag are as they
    were. *)
Lemma service_lockout sec s s1 :
  m_bRunning s = true -> ctr (m_cycleTimer s + 1) < 20 ->
  service sec s = Ok s1 ->
  m_bRunning s1 = true /\ m_bStart s1 = m_bStart s /\ m_bStop s1 = m_bStop s /\
  P_COOL (gpio s1) = P_COOL (gpio s) /\ P_HEAT (gpio s1) = P_HEAT (gpio s) /\
  m_notif s1 = m_notif s /\
  m_cycleTimer s1 = ctr (m_cycleTimer s + 1).
Proof.
  intros Hr Hl H. tick_specs H.
  destruct H0 as (A1 & A2 & A3 & A4 & _ & _ & _ & _ & _ & A10 & _ & A12 & A13 & A14 & _).
  rewrite Hr in *. rewrite A10 in A12.
  apply Z.ltb_lt in Hl. rewrite Hl in A12. cbn in A12. subst ret.
  injection H as <-. cbn [negb andb] in A14. repeat split; auto.
Qed.



(** Sensor reports leave the sequencing state alone. *)
Lemma sensor_core ev s s' :
  is_sensor ev = true -> step ev s = Ok s' -> core s' = core s.
Proof.
  destruct ev; try discriminate; intros _ H; cbn [step] in H;
    injection H as <-.
  - unfold updateIndoorTemp. destruct (m_remoteTimer s =? 0); dst s; reflexivity.
  - dst s; reflexivity.
  - unfold updatePeaks. crunch; dst s; reflexivity.
Qed.

Lemma sensors_core evs s s' :
  forallb is_sensor evs = true -> run evs s = Ok s' -> core s' = core s.
Proof.
  revert s. induction evs as [|ev evs IH]; intros s Hs H; cbn [run] in H.
  - injection H as <-. reflexivity.
  - cbn [forallb] in Hs. apply andb_true_iff in Hs. destruct Hs as [H1 H2].
    destruct (step ev s) as [s2|] eqn:E; [|discriminate]. cbn [bind] in H.
    rewrite (IH _ H2 H). exact (sensor_core _ _ _ H1 E).
Qed.



(** ** The interlock of the two outputs *)

Lemma setTemp_out3 mode Temp hl s s' :
  setTemp mode Temp hl s = Ok s' -> out3 s' = out3 s.
Proof.
  unfold setTemp. intros H. revert H. cbv zeta.
  repeat (split_inner_if; cbv iota); intros H;
    try (injection H as <-; dst s; reflexivity);
    try (apply calcTargetTemp_inv in H; destruct H as (t & r & ->);
         dst s; reflexivity).
Qed.

Lemma setMode_out3 mode s : out3 (setMode mode s) = out3 s.
Proof. unfold setMode. crunch; dst s; reflexivity. Qed.

Lemma setFan_out3 bon s : out3 (setFan bon s) = out3 s.
Proof. unfold setFan, fanSwitch. crunch; dst s; reflexivity. Qed.

Lemma resetFilter_out3 s : out3 (resetFilter s) = out3 s.
Proof. unfold resetFilter. dst s. hsimp. destruct m_notif0; reflexivity. Qed.

Ltac cases_nat n k :=
  lazymatch k with
  | O => idtac
  | S ?k' => destruct n as [|n]; [ | cases_nat n k' ]
  end.

Lemma setVar_out3 sCmd val s s' :
  setVar sCmd val s = Ok s' -> out3 s' = out3 s.
Proof.
  unfold setVar. intros H.
  destruct (CmdIdx sCmd cSCmds) as [|n]; [| cases_nat n 18%nat ];
    try match type of H with
      | context [setTemp ?m ?t ?h ?x] =>
          destruct (setTemp m t h x) as [c|] eqn:E; [|discriminate];
          apply setTemp_out3 in E; cbn [bind] in H; injection H as <-;
          rewrite <- E; dst c; reflexivity
      end;
    try (revert H; cbv zeta; repeat (split_inner_if; cbv iota); intros H);
    injection H as <-;
    rewrite ?setFan_out3, ?setMode_out3, ?resetFilter_out3;
    try reflexivity; dst s; reflexivity.
Qed.

(** Every call but a tick and [disable] leaves the running flag and the
    outputs alone. *)
Lemma step_out3 ev s s' :
  match ev with Tick _ | Disable => False | _ => True end ->
  step ev s = Ok s' -> out3 s' = out3 s.
Proof.
  destruct ev; intros Hev H; try contradiction; cbn [step] in H;
    try (injection H as <-).
  - dst s; reflexivity.
  - apply setMode_out3.
  - dst s; reflexivity.
  - apply setFan_out3.
  - exact (setTemp_out3 _ _ _ _ _ H).
  - unfold updateIndoorTemp. destruct (m_remoteTimer s =? 0); dst s; reflexivity.
  - dst s; reflexivity.
  - unfold updatePeaks. crunch; dst s; reflexivity.
  - apply resetFilter_out3.
  - dst s; reflexivity.
  - exact (setVar_out3 _ _ _ _ H).
Qed.

Lemma disable_outputs s :
  m_bRunning (disable s) = false /\
  P_COOL (gpio (disable s)) = false /\ P_HEAT (gpio (disable s)) = false.
Proof.
  unfold disable, fanSwitch. crunch; dst s; hsimp; repeat split; reflexivity.
Qed.

(** A tick keeps the interlock: the start block asserts one output at
    most, on a system that was idle, and the stop block releases both. *)
Lemma service_outputs_ok sec s s1 :
  outputs_ok s -> service sec s = Ok s1 -> outputs_ok s1.
Proof.
  unfold outputs_ok. intros [I1 I2] H. tick_specs H.
  destruct H0 as (A1 & A2 & A3 & A4 & _).
  destruct ret.
  - injection H as <-. rewrite A1, A3, A4. auto.
  - pose proof (service_start_spec (true_mode t) (true_hm t) t) as S. cbv zeta in S.
    set (u := service_start (true_mode t) (true_hm t) t) in *.
    pose proof (service_stop_spec (true_mode t) (true_hm t) u) as P. cbv zeta in P.
    set (v := service_stop (true_mode t) (true_hm t) u) in *.
    apply tempCheck_spec in H.
    destruct S as (_ & _ & _ & _ & _ & _ & S7 & _ & _ & S10 & S11).
    destruct P as (_ & _ & _ & _ & _ & _ & P7 & _ & _ & P10 & P11).
    destruct H as (_ & T2 & _ & _ & T5 & T6 & _).
    rewrite T2, T5, T6, P7, P10, P11, S7, S10, S11, A1, A3, A4.
    clear - I1 I2.
    destruct (m_bRunning s); [clear I1 | destruct (I1 eq_refl) as [-> ->]];
      destruct (m_bStart t), (m_bStop u), (true_mode t =? Mode_Cool) eqn:Ec,
        (true_mode t =? Mode_Heat) eqn:Eh, (true_hm t =? 0);
      cbn [andb orb negb]; try (split; [intros; try discriminate|]; auto);
      try (split; [intros _; split|]; reflexivity);
      zb; unfold Mode_Cool, Mode_Heat in *; try lia; auto.
Qed.

Lemma step_outputs_ok ev s s' :
  outputs_ok s -> step ev s = Ok s' -> outputs_ok s'.
Proof.
  intros I H. destruct ev eqn:Eev;
    try (apply step_out3 in H; [| exact Logic.I ];
         unfold out3 in H; injection H as H1 H2 H3;
         unfold outputs_ok in *; rewrite H1, H2, H3; exact I).
  - exact (service_outputs_ok _ _ _ I H).
  - cbn [step] in H. injection H as <-.
    destruct (disable_outputs s) as (D1 & D2 & D3).
    unfold outputs_ok. rewrite D2, D3. auto.
Qed.

Lemma HVAC_ctor_outputs_ok raw : outputs_ok (HVAC_ctor raw).
Proof. unfold outputs_ok. cbn. auto. Qed.

Lemma run_outputs_ok evs s s' :
  outputs_ok s -> run evs s = Ok s' -> outputs_ok s'.
Proof.
  revert s. induction evs as [|ev evs IH]; intros s I H; cbn [run] in H.
  - injection H as <-. exact I.
  - destruct (step ev s) as [s2|] eqn:E; [|discriminate]. cbn [bind] in H.
    exact (IH _ (step_outputs_ok _ _ _ I E) H).
Qed.

(** X1. In every reachable state the cool and the heat output are not
    both asserted, and neither is asserted while no cycle runs. *)
Theorem reachable_outputs_ok s : reachable s -> outputs_ok s.
Proof.
  intros (raw & evs & H).
  exact (run_outputs_ok _ _ _ (HVAC_ctor_outputs_ok raw) H).
Qed.

(** * Further properties of the methods *)

(** ** Conversions *)

Lemma to_int16_small x : -32768 <= x <= 32767 -> to_int16 x = x.
Proof. intros H. unfold to_int16. rewrite Z.mod_small by lia. lia. Qed.

Lemma to_int8_range x : -128 <= to_int8 x <= 127.
Proof.
  unfold to_int8. pose proof (Z.mod_pos_bound (x + 128) 256 ltac:(lia)). lia.
Qed.

Lemma to_int8_small x : -128 <= x <= 127 -> to_int8 x = x.
Proof. intros H. unfold to_int8. rewrite Z.mod_small by lia. lia. Qed.

Lemma constrain_range x lo hi : lo <= hi -> lo <= constrain x lo hi <= hi.
Proof. intros H. unfold constrain. repeat split_if; zb; lia. Qed.

Lemma constrain_pos x lo hi : 0 < x -> 0 < hi -> lo <= hi -> 0 < constrain x lo hi.
Proof. intros H1 H2 H3. unfold constrain. repeat split_if; zb; lia. Qed.

(** ** The failsafe *)

(** X3. [disable] is idempotent; after it nothing runs, both equipment
    outputs are low, the fan is off and the controller is not enabled, so
    that the decision pass does nothing; the start and stop requests are
    left as they were. *)
Theorem disable_failsafe sec s :
  disable (disable s) = disable s /\
  m_bRunning (disable s) = false /\ m_bEnabled (disable s) = false /\
  m_bFanRunning (disable s) = false /\
  P_COOL (gpio (disable s)) = false /\ P_HEAT (gpio (disable s)) = false /\
  m_bStart (disable s) = m_bStart s /\ m_bStop (disable s) = m_bStop s /\
  tempCheck sec (disable s) = Ok (disable s).
Proof.
  assert (F : forall x,
    m_bRunning (disable x) = false /\ m_bEnabled (disable x) = false /\
    m_bFanRunning (disable x) = false /\
    P_COOL (gpio (disable x)) = false /\ P_HEAT (gpio (disable x)) = false /\
    m_bStart (disable x) = m_bStart x /\ m_bStop (disable x) = m_bStop x).
  { intros x. unfold disable, fanSwitch. dst x. hsimp.
    destruct m_bFanRunning0; cbn [Bool.eqb]; hsimp; repeat split; reflexivity. }
  destruct (F s) as (F1 & F2 & F3 & F4 & F5 & F6 & F7).
  repeat split; try assumption.
  - unfold disable, fanSwitch. dst s. hsimp.
    destruct m_bFanRunning0; reflexivity.
  - unfold tempCheck. rewrite F2. cbn [Bool.eqb]. rewrite orb_true_r. reflexivity.
Qed.

(** ** Editing the setpoints *)

(** What an accepted cool edit stores. *)
Lemma setTemp_cool_edit mode Temp hl s s' :
  setTemp_mode mode s = Mode_Cool -> 650 <= Temp <= 880 ->
  setTemp mode Temp hl s = Ok s' ->
  let c := upd (coolTemp (m_EE s)) hl Temp in
  let c' := if hl then upd c false (Z.min (idx c true) (idx c false))
            else upd c true (Z.max (idx c false) (idx c true)) in
  let h := heatTemp (m_EE s) in
  let h1 := to_int16 (Z.min (idx c' false - 20) (idx h true)) in
  coolTemp (m_EE s') = c' /\
  heatTemp (m_EE s') =
    (to_int16 (h1 - to_int8 (idx h true - idx h false)), h1) /\
  m_AutoMode s' = m_AutoMode s.
Proof.
  intros Hm R H. unfold setTemp in H. rewrite Hm in H.
  change (Mode_Cool =? Mode_Cool) with true in H.
  replace ((Temp <? 650) || (880 <? Temp)) with false in H
    by (symmetry; apply orb_false_iff; rewrite !Z.ltb_ge; lia).
  cbv iota zeta in H.
  destruct hl; cbv iota in H;
    match type of H with
    | (if ?c then calcTargetTemp ?m ?x else _) = _ =>
        destruct c;
        [ apply calcTargetTemp_inv in H; destruct H as (t & r & ->)
        | injection H as <- ]
    end;
    dst s; destruct coolTemp0, heatTemp0; unfold idx, upd; hsimp;
    cbn [fst snd]; repeat split; reflexivity.
Qed.

(** What an accepted heat edit stores. *)
Lemma setTemp_heat_edit mode Temp hl s s' :
  setTemp_mode mode s = Mode_Heat -> 630 <= Temp <= 860 ->
  setTemp mode Temp hl s = Ok s' ->
  let h := upd (heatTemp (m_EE s)) hl Temp in
  let h' := if hl then upd h false (Z.min (idx h true) (idx h false))
            else upd h true (Z.max (idx h false) (idx h true)) in
  let c := coolTemp (m_EE s) in
  let c0 := to_int16 (Z.max (idx h' true - 20) (idx c false)) in
  heatTemp (m_EE s') = h' /\
  coolTemp (m_EE s') =
    (c0, to_int16 (c0 + to_int8 (idx c true - idx c false))) /\
  m_AutoMode s' = m_AutoMode s.
Proof.
  intros Hm R H. unfold setTemp in H. rewrite Hm in H.
  change (Mode_Heat =? Mode_Cool) with false in H.
  change (Mode_Heat =? Mode_Heat) with true in H.
  replace ((Temp <? 630) || (860 <? Temp)) with false in H
    by (symmetry; apply orb_false_iff; rewrite !Z.ltb_ge; lia).
  cbv iota zeta in H.
  destruct hl; cbv iota in H;
    match type of H with
    | (if ?c then calcTargetTemp ?m ?x else _) = _ =>
        destruct c;
        [ apply calcTargetTemp_inv in H; destruct H as (t & r & ->)
        | injection H as <- ]
    end;
    dst s; destruct coolTemp0, heatTemp0; unfold idx, upd; hsimp;
    cbn [fst snd]; repeat split; reflexivity.
Qed.

(** An edit in range returns when the outdoor band has a width. *)
Lemma setTemp_total mode Temp hl s :
  band_width s <> 0 -> exists s', setTemp mode Temp hl s = Ok s'.
Proof.
  intros Hb. unfold setTemp. cbv zeta.
  repeat (split_inner_if; cbv iota); eauto;
    apply calcTargetTemp_total; dst s; exact Hb.
Qed.

(** X4. Round trip: a temperature in range that [setTemp] accepts is
    what [getSetTemp] reads back for the same mode and the same end of
    the band. *)
Theorem setTemp_getSetTemp mode Temp hl s :
  (setTemp_mode mode s = Mode_Cool /\ 650 <= Temp <= 880) \/
  (setTemp_mode mode s = Mode_Heat /\ 630 <= Temp <= 860) ->
  (mode = Mode_Auto -> m_AutoMode s = setTemp_mode mode s) ->
  band_width s <> 0 ->
  exists s', setTemp mode Temp hl s = Ok s' /\ getSetTemp mode hl s' = Temp.
Proof.
  intros Hr Ha Hb. destruct (setTemp_total mode Temp hl s Hb) as [s' E].
  exists s'. split; [exact E|].
  unfold getSetTemp, coolTemp_at, heatTemp_at. unfold setTemp_mode in *.
  destruct Hr as [[Hm R] | [Hm R]].
  - pose proof (setTemp_cool_edit mode Temp hl s s' Hm R E) as (C & _ & A).
    cbv zeta in C. rewrite A, C.
    assert (F : idx (if hl
                     then upd (upd (coolTemp (m_EE s)) hl Temp) false
                            (Z.min (idx (upd (coolTemp (m_EE s)) hl Temp) true)
                               (idx (upd (coolTemp (m_EE s)) hl Temp) false))
                     else upd (upd (coolTemp (m_EE s)) hl Temp) true
                            (Z.max (idx (upd (coolTemp (m_EE s)) hl Temp) false)
                               (idx (upd (coolTemp (m_EE s)) hl Temp) true)))
                  hl = Temp).
    { destruct (coolTemp (m_EE s)), hl; unfold idx, upd; cbn [fst snd]; lia. }
    rewrite F.
    destruct (mode =? Mode_Auto) eqn:Em.
    + zb. rewrite (Ha Em), Hm. subst mode. cbn. apply to_int16_small. lia.
    + rewrite Hm. cbn. apply to_int16_small. lia.
  - pose proof (setTemp_heat_edit mode Temp hl s s' Hm R E) as (C & _ & A).
    cbv zeta in C. rewrite A, C.
    assert (F : idx (if hl
                     then upd (upd (heatTemp (m_EE s)) hl Temp) false
                            (Z.min (idx (upd (heatTemp (m_EE s)) hl Temp) true)
                               (idx (upd (heatTemp (m_EE s)) hl Temp) false))
                     else upd (upd (heatTemp (m_EE s)) hl Temp) true
                            (Z.max (idx (upd (heatTemp (m_EE s)) hl Temp) false)
                               (idx (upd (heatTemp (m_EE s)) hl Temp) true)))
                  hl = Temp).
    { destruct (heatTemp (m_EE s)), hl; unfold idx, upd; cbn [fst snd]; lia. }
    rewrite F.
    destruct (mode =? Mode_Auto) eqn:Em.
    + zb. rewrite (Ha Em), Hm. subst mode. cbn. apply to_int16_small. lia.
    + rewrite Hm. cbn. apply to_int16_small. lia.
Qed.

(** X5. An accepted cool edit leaves cool low <= cool high and pulls the
    heat high setpoint down to at most cool low - 2.0 degrees; an
    accepted heat edit leaves heat low <= heat high and pulls the cool
    low setpoint up to at least heat high - 2.0 degrees. *)
Theorem setTemp_keeps_order mode Temp hl s s' :
  setpoints_ok s -> setTemp mode Temp hl s = Ok s' ->
  (setTemp_mode mode s = Mode_Cool -> 650 <= Temp <= 880 ->
   coolTemp_at s' false <= coolTemp_at s' true /\
   heatTemp_at s' true <= coolTemp_at s' false - 20) /\
  (setTemp_mode mode s = Mode_Heat -> 630 <= Temp <= 860 ->
   heatTemp_at s' false <= heatTemp_at s' true /\
   heatTemp_at s' true - 20 <= coolTemp_at s' false).
Proof.
  unfold setpoints_ok, coolTemp_at, heatTemp_at. intros (B1 & B2 & B3 & B4) E.
  split; intros Hm R.
  - pose proof (setTemp_cool_edit mode Temp hl s s' Hm R E) as (C & Hh & _).
    cbv zeta in C, Hh. rewrite C, Hh. clear C Hh E.
    destruct (coolTemp (m_EE s)) as [c0 c1], (heatTemp (m_EE s)) as [h0 h1], hl;
      unfold idx, upd in *; cbn [fst snd] in *;
      rewrite to_int16_small by lia; lia.
  - pose proof (setTemp_heat_edit mode Temp hl s s' Hm R E) as (C & Hh & _).
    cbv zeta in C, Hh. rewrite C, Hh. clear C Hh E.
    destruct (coolTemp (m_EE s)) as [c0 c1], (heatTemp (m_EE s)) as [h0 h1], hl;
      unfold idx, upd in *; cbn [fst snd] in *;
      rewrite to_int16_small by lia; lia.
Qed.

(** X6. An accepted cool edit shifts the heat pair by its spread kept in
    an [int8_t]: a spread of 0 to 12.7 degrees is preserved, a spread of
    12.8 to 25.5 degrees comes back negative and leaves heat low above
    heat high.  A heat edit does the same to the cool pair. *)
Theorem setTemp_spread mode Temp hl s s' :
  setpoints_ok s -> setTemp mode Temp hl s = Ok s' ->
  (setTemp_mode mode s = Mode_Cool -> 650 <= Temp <= 880 ->
   let d := heatTemp_at s true - heatTemp_at s false in
   (0 <= d <= 127 -> heatTemp_at s' true - heatTemp_at s' false = d) /\
   (128 <= d <= 255 -> heatTemp_at s' true < heatTemp_at s' false)) /\
  (setTemp_mode mode s = Mode_Heat -> 630 <= Temp <= 860 ->
   let d := coolTemp_at s true - coolTemp_at s false in
   (0 <= d <= 127 -> coolTemp_at s' true - coolTemp_at s' false = d) /\
   (128 <= d <= 255 -> coolTemp_at s' true < coolTemp_at s' false)).
Proof.
  unfold setpoints_ok, coolTemp_at, heatTemp_at. intros (B1 & B2 & B3 & B4) E.
  split; intros Hm R.
  - pose proof (setTemp_cool_edit mode Temp hl s s' Hm R E) as (C & Hh & _).
    cbv zeta in C, Hh |- *. rewrite Hh. clear C Hh E.
    destruct (coolTemp (m_EE s)) as [c0 c1], (heatTemp (m_EE s)) as [h0 h1];
      unfold idx, upd in *; cbn [fst snd] in *.
    pose proof (to_int8_range (h1 - h0)) as T.
    split; intros D.
    + rewrite (to_int8_small (h1 - h0)) by lia.
      destruct hl; cbn [fst snd];
        rewrite !to_int16_small; try rewrite !to_int16_small; lia.
    + assert (T' : to_int8 (h1 - h0) = h1 - h0 - 256).
      { unfold to_int8. replace (h1 - h0 + 128) with ((h1 - h0 - 128) + 1 * 256) by lia.
        rewrite Z.mod_add by lia. rewrite Z.mod_small by lia. lia. }
      rewrite T'.
      destruct hl; cbn [fst snd];
        rewrite !to_int16_small; try rewrite !to_int16_small; lia.
  - pose proof (setTemp_heat_edit mode Temp hl s s' Hm R E) as (C & Hh & _).
    cbv zeta in C, Hh |- *. rewrite Hh. clear C Hh E.
    destruct (coolTemp (m_EE s)) as [c0 c1], (heatTemp (m_EE s)) as [h0 h1];
      unfold idx, upd in *; cbn [fst snd] in *.
    pose proof (to_int8_range (c1 - c0)) as T.
    split; intros D.
    + rewrite (to_int8_small (c1 - c0)) by lia.
      destruct hl; cbn [fst snd];
        rewrite !to_int16_small; try rewrite !to_int16_small; lia.
    + assert (T' : to_int8 (c1 - c0) = c1 - c0 - 256).
      { unfold to_int8. replace (c1 - c0 + 128) with ((c1 - c0 - 128) + 1 * 256) by lia.
        rewrite Z.mod_add by lia. rewrite Z.mod_small by lia. lia. }
      rewrite T'.
      destruct hl; cbn [fst snd];
        rewrite !to_int16_small; try rewrite !to_int16_small; lia.
Qed.

(** ** The target and the forecast *)

(** The setpoint pair [calcTargetTemp] interpolates for a mode. *)
Lemma calcTargetTemp_target mode s s' :
  calcTargetTemp mode s = Ok s' ->
  (mode = Mode_Cool ->
   exists t, m_targetTemp s' =
     to_int16 (to_int16 (constrain (to_int16 t) (coolTemp_at s false)
                           (coolTemp_at s true)) + m_ovrTemp s)) /\
  (mode = Mode_Heat ->
   exists t, m_targetTemp s' =
     to_int16 (to_int16 (constrain (to_int16 t) (heatTemp_at s false)
                           (heatTemp_at s true)) + m_ovrTemp s)).
Proof.
  unfold calcTargetTemp, interpolate, out_band, bind. intros H.
  split; intros ->.
  - change (Mode_Cool =? Mode_Cool) with true in H.
    change (Mode_Cool =? Mode_Heat) with false in H.
    revert H. cbv zeta. repeat (split_inner_if; cbv iota); intros H;
      try discriminate; injection H as <-; dst s; eexists; hsimp; reflexivity.
  - change (Mode_Heat =? Mode_Cool) with false in H.
    change (Mode_Heat =? Mode_Heat) with true in H.
    revert H. cbv zeta. repeat (split_inner_if; cbv iota); intros H;
      try discriminate; injection H as <-; dst s; eexists; hsimp; reflexivity.
Qed.

(** X7. The cached target that [calcTargetTemp] leaves for Cool or Heat
    lies between the low and the high setpoint of that mode, shifted by
    the override: an interpolation that overshoots is clamped. *)
Theorem calcTargetTemp_bounds mode s s' :
  calcTargetTemp mode s = Ok s' ->
  let lo := if mode =? Mode_Cool then coolTemp_at s false else heatTemp_at s false in
  let hi := if mode =? Mode_Cool then coolTemp_at s true else heatTemp_at s true in
  mode = Mode_Cool \/ mode = Mode_Heat ->
  -32768 <= lo -> lo <= hi -> hi <= 32767 ->
  -32768 <= lo + m_ovrTemp s -> hi + m_ovrTemp s <= 32767 ->
  lo + m_ovrTemp s <= m_targetTemp s' <= hi + m_ovrTemp s.
Proof.
  intros H lo hi Hm L1 L2 L3 O1 O2.
  destruct (calcTargetTemp_target mode s s' H) as [Hc Hh].
  destruct Hm as [-> | ->]; subst lo hi;
    [ destruct (Hc eq_refl) as [t ->] | destruct (Hh eq_refl) as [t ->] ];
    cbn [Z.eqb Mode_Cool Mode_Heat Pos.eqb] in *;
    match goal with
    | |- context [constrain ?x ?a ?b] =>
        pose proof (constrain_range x a b L2) as C
    end;
    rewrite (to_int16_small (constrain _ _ _)) by lia;
    rewrite to_int16_small by lia; lia.
Qed.

(** X8. [calcTargetTemp] for Cool or Heat is idempotent: a second call
    finds the reversing valve in place and computes the same target. *)
Theorem calcTargetTemp_idempotent mode s s' :
  mode = Mode_Cool \/ mode = Mode_Heat ->
  calcTargetTemp mode s = Ok s' -> calcTargetTemp mode s' = Ok s'.
Proof.
  intros Hm H. unfold calcTargetTemp, interpolate, out_band, bind in *.
  destruct Hm as [-> | ->].
  - change (Mode_Cool =? Mode_Cool) with true in *.
    change (Mode_Cool =? Mode_Heat) with false in *.
    dst s. revert H. cbv zeta. hsimp.
    destruct m_bRunning0, P_REV0; cbn [negb Bool.eqb]; cbv iota; hsimp;
      repeat (split_inner_if; cbv iota); intros H; try discriminate;
      injection H as <-; hsimp; cbn [negb Bool.eqb]; cbv iota; hsimp;
      repeat (split_inner_if; cbv iota); hsimp;
      first [ reflexivity | congruence
            | cbn [negb Bool.eqb] in *; discriminate ].
  - change (Mode_Heat =? Mode_Cool) with false in *.
    change (Mode_Heat =? Mode_Heat) with true in *.
    dst s. revert H. cbv zeta. hsimp.
    destruct m_bRunning0, P_REV0; cbn [negb Bool.eqb]; cbv iota; hsimp;
      repeat (split_inner_if; cbv iota); intros H; try discriminate;
      injection H as <-; hsimp; cbn [negb Bool.eqb]; cbv iota; hsimp;
      repeat (split_inner_if; cbv iota); hsimp;
      first [ reflexivity | congruence
            | cbn [negb Bool.eqb] in *; discriminate ].
Qed.

(** X9. The outdoor band after a forecast update.  The first update
    fills both windows, so the band is the forecast itself; a later
    update keeps the previous forecast in the long window, so the band
    spans the previous and the new forecast. *)
Theorem updatePeaks_band min max s :
  -128 <= min <= 127 -> -128 <= max <= 127 -> max <> -50 ->
  -128 <= idx (m_outMin s) true <= 127 ->
  -128 <= idx (m_outMax s) true <= 127 ->
  (idx (m_outMax s) false = -50 ->
   out_band (updatePeaks min max s) = (min * 10, max * 10)) /\
  (idx (m_outMax s) false <> -50 -> idx (m_outMax s) true <> -50 ->
   out_band (updatePeaks min max s) =
     (Z.min (idx (m_outMin s) true) min * 10,
      Z.max (idx (m_outMax s) true) max * 10)).
Proof.
  intros R1 R2 Hm R3 R4. unfold updatePeaks, out_band.
  dst s. destruct m_outMin0 as [l0 l1], m_outMax0 as [h0 h1].
  unfold idx, upd in *. hsimp. cbn [fst snd] in *.
  split.
  - intros ->. change (-50 =? -50) with true. cbn [negb]. cbv iota. hsimp.
    cbn [fst snd]. apply Z.eqb_neq in Hm. rewrite Hm. cbn [negb]. cbv iota.
    rewrite !to_int16_small by lia. f_equal; lia.
  - intros H0 H1. apply Z.eqb_neq in H0. rewrite H0. cbn [negb]. cbv iota.
    hsimp. cbn [fst snd]. apply Z.eqb_neq in H1. rewrite H1. cbn [negb].
    cbv iota. rewrite !to_int16_small by lia. reflexivity.
Qed.

(** ** Change detection *)

(** X10. [stateChange] reports a change once: it returns true exactly
    when the mode, the state or the fan status differs from what its
    statics hold, and then records what it saw; a call that returns
    false leaves the statics alone; and after any call a second call on
    the same object returns false and leaves them alone. *)
Theorem stateChange_once st s :
  let r := stateChange st s in
  (fst r = true <->
   getMode s <> lastMode st \/ getState s <> nState st \/
   bFan st <> getFanRunning s) /\
  (fst r = true ->
   snd r = {| bFan := getFanRunning s; lastMode := getMode s;
              nState := getState s |}) /\
  (fst r = false -> snd r = st) /\
  stateChange (snd r) s = (false, snd r).
Proof.
  cbv zeta. unfold stateChange.
  set (c := negb (getMode s =? lastMode st) || negb (getState s =? nState st)
            || negb (Bool.eqb (bFan st) (getFanRunning s))).
  assert (Hc : c = true <->
               getMode s <> lastMode st \/ getState s <> nState st \/
               bFan st <> getFanRunning s).
  { unfold c. rewrite !orb_true_iff, !negb_true_iff, !Z.eqb_neq.
    rewrite Bool.eqb_false_iff. tauto. }
  destruct c eqn:E; cbn [fst snd].
  - split; [split; [intros _; apply Hc; reflexivity | reflexivity]|].
    split; [reflexivity|]. split; [discriminate|].
    cbn [bFan lastMode nState].
    rewrite !Z.eqb_refl, Bool.eqb_reflx. reflexivity.
  - split; [split; [discriminate | intros K; apply Hc in K; discriminate]|].
    split; [discriminate|]. split; [reflexivity|].
    unfold c in E. rewrite E. reflexivity.
Qed.

Lemma equalsIgnoreCase_lower a b :
  equalsIgnoreCase a b = String.eqb (lower_string a) (lower_string b).
Proof.
  revert b. induction a as [|x a IH]; intros [|y b]; cbn; try reflexivity.
  rewrite IH. destruct (Ascii.eqb (lower x) (lower y)); reflexivity.
Qed.

Lemma CmdIdx_lower a b l :
  lower_string a = lower_string b -> CmdIdx a l = CmdIdx b l.
Proof.
  intros H. induction l as [|c l IH]; cbn; [reflexivity|].
  rewrite !equalsIgnoreCase_lower, H, IH. reflexivity.
Qed.

(** X11. [setVar] matches the command name ignoring case: two names
    that agree in lower case do the same. *)
Theorem setVar_ignores_case a b val s :
  lower_string a = lower_string b -> setVar a val s = setVar b val s.
Proof. intros H. unfold setVar. rewrite (CmdIdx_lower a b _ H). reflexivity. Qed.

Lemma CmdIdx_none a l :
  (forall c, In c l -> equalsIgnoreCase a c = false) ->
  CmdIdx a l = List.length l.
Proof.
  induction l as [|c l IH]; intros H; cbn; [reflexivity|].
  rewrite (H c (or_introl eq_refl)). f_equal. apply IH.
  intros c' Hc. apply H. right. exact Hc.
Qed.

(** X12. [setVar] with a name that matches no entry of the command
    table leaves the object as it was. *)
Theorem setVar_unknown_name a val s :
  (forall c, In c cSCmds -> equalsIgnoreCase a c = false) ->
  setVar a val s = Ok s.
Proof.
  intros H. unfold setVar. rewrite (CmdIdx_none a cSCmds H). reflexivity.
Qed.

(** ** What a tick leaves alone *)

Ltac top_ifs H :=
  repeat match type of H with
         | (if ?b then _ else _) = _ => destruct b
         end.

Lemma service_cycle_request_quiet s ret t :
  (let (ret, s) := service_cycle s in
   if ret then Ok (true, s) else s <- service_request s ;; Ok (false, s))
  = Ok (ret, t) ->
  quiet t = quiet s.
Proof.
  unfold service_cycle, service_request. intros H. revert H. cbv zeta.
  repeat (split_inner_if; cbv iota); cbn [bind]; intros H;
    try match type of H with
      | context [calcTargetTemp ?m ?x] =>
          destruct (calcTargetTemp m x) as [c|] eqn:C; [|discriminate];
          apply calcTargetTemp_inv in C; destruct C as (tt & rr & ->);
          cbn [bind] in H
      end;
    injection H as <- <-; dst s; reflexivity.
Qed.

Lemma service_start_quiet mode hm s : quiet (service_start mode hm s) = quiet s.
Proof. unfold service_start, fanSwitch. crunch; dst s; reflexivity. Qed.

Lemma service_stop_quiet mode hm s : quiet (service_stop mode hm s) = quiet s.
Proof. unfold service_stop, fanSwitch. crunch; dst s; reflexivity. Qed.

Lemma tempCheck_quiet sec v s1 : tempCheck sec v = Ok s1 -> quiet s1 = quiet v.
Proof.
  unfold tempCheck. intros H.
  destruct ((m_inTemp v =? 0) || Bool.eqb (m_bEnabled v) false);
    [ injection H as <-; reflexivity |].
  destruct (Mode (m_EE v) =? Mode_Off); [ injection H as <-; reflexivity |].
  destruct (m_bRunning v).
  - destruct (m_cycleTimer v <? cycleMin (m_EE v));
      [ injection H as <-; reflexivity |].
    cbv zeta in H.
    destruct ((sec =? 0) || m_bRecheck v).
    + destruct (preCalcCycle _ _) as [[b c]|] eqn:C; [|discriminate].
      apply preCalcCycle_inv in C. destruct C as (t & r & am & ah & ->).
      cbn [bind snd] in H. top_ifs H; injection H as <-; dst v; reflexivity.
    + cbn [bind] in H. top_ifs H; injection H as <-; dst v; reflexivity.
  - destruct (m_idleTimer v <? idleMin (m_EE v));
      [ injection H as <-; reflexivity |].
    destruct ((sec =? 0) || m_bRecheck v); [| injection H as <-; reflexivity ].
    destruct (preCalcCycle _ _) as [[b c]|] eqn:C; [|discriminate].
    apply preCalcCycle_inv in C. destruct C as (t & r & am & ah & ->).
    cbn [bind fst snd] in H. injection H as <-. dst v; reflexivity.
Qed.

(** Lines 114-141 on the inputs and the slow timers. *)
Lemma service_timers_quiet s s0 :
  service_override (service_remote (service_fanPost (service_airflow s))) = Ok s0 ->
  inputs s0 = inputs s /\
  m_remoteTimer s0 = countdown (m_remoteTimer s) /\
  m_overrideTimer s0 = countdown (m_overrideTimer s) /\
  m_ovrTemp s0 =
    (if negb (m_overrideTimer s =? 0) && (countdown (m_overrideTimer s) =? 0)
     then 0 else m_ovrTemp s) /\
  filterMinutes (m_EE s0) =
    filterMinutes (m_EE (if airflow s then filterInc s else s)) /\
  nSecs s0 = nSecs (if airflow s then filterInc s else s).
Proof.
  intros H.
  assert (A : forall x,
    inputs (service_airflow x) = inputs x /\
    m_remoteTimer (service_airflow x) = m_remoteTimer x /\
    m_overrideTimer (service_airflow x) = m_overrideTimer x /\
    m_ovrTemp (service_airflow x) = m_ovrTemp x /\
    filterMinutes (m_EE (service_airflow x)) =
      filterMinutes (m_EE (if airflow x then filterInc x else x)) /\
    nSecs (service_airflow x) = nSecs (if airflow x then filterInc x else x)).
  { intros x. unfold service_airflow, airflow, filterInc.
    crunch; dst x; hsimp; repeat split; reflexivity. }
  assert (B : forall x, inputs (service_fanPost x) = inputs x /\
                        slow (service_fanPost x) = slow x).
  { intros x. unfold service_fanPost, fanSwitch.
    crunch; dst x; split; reflexivity. }
  assert (C : forall x,
    inputs (service_remote x) = inputs x /\
    m_remoteTimer (service_remote x) = countdown (m_remoteTimer x) /\
    m_overrideTimer (service_remote x) = m_overrideTimer x /\
    m_ovrTemp (service_remote x) = m_ovrTemp x /\
    filterMinutes (m_EE (service_remote x)) = filterMinutes (m_EE x) /\
    nSecs (service_remote x) = nSecs x).
  { intros x. unfold service_remote, countdown.
    destruct (m_remoteTimer x =? 0) eqn:E; cbn [negb]; cbv iota;
      [ zb; rewrite E | ]; dst x; repeat split; reflexivity. }
  assert (D : forall x y, service_override x = Ok y ->
    inputs y = inputs x /\
    m_remoteTimer y = m_remoteTimer x /\
    m_overrideTimer y = countdown (m_overrideTimer x) /\
    m_ovrTemp y =
      (if negb (m_overrideTimer x =? 0) && (countdown (m_overrideTimer x) =? 0)
       then 0 else m_ovrTemp x) /\
    filterMinutes (m_EE y) = filterMinutes (m_EE x) /\
    nSecs y = nSecs x).
  { intros x y Hy. unfold service_override, countdown in *.
    destruct (m_overrideTimer x =? 0) eqn:E; cbn [negb andb] in *; cbv iota in *.
    - injection Hy as <-. zb. rewrite E. repeat split; reflexivity.
    - cbv zeta in Hy.
      assert (F : m_overrideTimer (set_m_overrideTimer (ctr (m_overrideTimer x - 1)) x)
                  = ctr (m_overrideTimer x - 1)) by (dst x; reflexivity).
      rewrite F in Hy.
      destruct (ctr (m_overrideTimer x - 1) =? 0) eqn:E2.
      + apply calcTargetTemp_inv in Hy. destruct Hy as (t & r & ->).
        zb. dst x; hsimp; repeat split; reflexivity.
      + injection Hy as <-. dst x; repeat split; reflexivity. }
  destruct (D _ _ H) as (D1 & D2 & D3 & D4 & D5 & D6).
  destruct (C (service_fanPost (service_airflow s))) as (C1 & C2 & C3 & C4 & C5 & C6).
  destruct (B (service_airflow s)) as (B1 & B2). unfold slow in B2.
  injection B2 as B2 B3 B4 B5 B6.
  destruct (A s) as (A1 & A2 & A3 & A4 & A5 & A6).
  rewrite D1, D2, D3, D4, D5, D6, C1, C2, C3, C4, C5, C6.
  rewrite B1, B2, B3, B4, B5, B6, A1, A2, A3, A4.
  repeat split; try reflexivity; assumption.
Qed.

Lemma quiet_fields s t :
  quiet t = quiet s ->
  inputs t = inputs s /\ m_remoteTimer t = m_remoteTimer s /\
  m_overrideTimer t = m_overrideTimer s /\ m_ovrTemp t = m_ovrTemp s /\
  filterMinutes (m_EE t) = filterMinutes (m_EE s) /\ nSecs t = nSecs s.
Proof.
  intros H. pose proof (f_equal fst H) as H0. pose proof (f_equal snd H) as H1.
  cbn [fst snd quiet] in H0, H1. unfold slow in H1.
  injection H1 as Q1 Q2 Q3 Q4 Q5. repeat split; assumption.
Qed.

Lemma service_head_quiet s ret t :
  service_head s = Ok (ret, t) ->
  inputs t = inputs s /\
  m_remoteTimer t = countdown (m_remoteTimer s) /\
  m_overrideTimer t = countdown (m_overrideTimer s) /\
  m_ovrTemp t =
    (if negb (m_overrideTimer s =? 0) && (countdown (m_overrideTimer s) =? 0)
     then 0 else m_ovrTemp s) /\
  filterMinutes (m_EE t) =
    filterMinutes (m_EE (if airflow s then filterInc s else s)) /\
  nSecs t = nSecs (if airflow s then filterInc s else s).
Proof.
  unfold service_head. intros H.
  destruct (service_override _) as [s0|] eqn:E; [|discriminate].
  apply service_timers_quiet in E. cbn [bind] in H.
  apply service_cycle_request_quiet in H.
  apply quiet_fields in H. destruct H as (Q0 & Q1 & Q2 & Q3 & Q4 & Q5).
  destruct E as (E0 & E1 & E2 & E3 & E4 & E5).
  rewrite Q0, Q1, Q2, Q3, Q4, Q5. repeat split; assumption.
Qed.

(** One tick on the inputs, the slow timers and the filter time. *)
Lemma service_quiet sec s s1 :
  service sec s = Ok s1 ->
  inputs s1 = inputs s /\
  m_remoteTimer s1 = countdown (m_remoteTimer s) /\
  m_overrideTimer s1 = countdown (m_overrideTimer s) /\
  m_ovrTemp s1 =
    (if negb (m_overrideTimer s =? 0) && (countdown (m_overrideTimer s) =? 0)
     then 0 else m_ovrTemp s) /\
  filterMinutes (m_EE s1) =
    filterMinutes (m_EE (if airflow s then filterInc s else s)) /\
  nSecs s1 = nSecs (if airflow s then filterInc s else s).
Proof.
  unfold service. intros H.
  destruct (service_head s) as [[ret t]|] eqn:Eh; [|discriminate].
  cbn [bind] in H. apply service_head_quiet in Eh.
  assert (Q : quiet s1 = quiet t).
  { destruct ret.
    - injection H as <-. reflexivity.
    - apply tempCheck_quiet in H. rewrite H.
      rewrite service_stop_quiet, service_start_quiet. reflexivity. }
  clear H. apply quiet_fields in Q. destruct Q as (Q0 & Q1 & Q2 & Q3 & Q4 & Q5).
  destruct Eh as (E0 & E1 & E2 & E3 & E4 & E5).
  rewrite Q0, Q1, Q2, Q3, Q4, Q5. repeat split; assumption.
Qed.

(** X13. A tick only reads the tunables, the setpoints, the sensor
    values, the forecast, the requested modes, the manual fan mode and
    the enabled flag: none of them is written by [service]. *)
Theorem service_keeps_inputs sec s s1 :
  service sec s = Ok s1 -> inputs s1 = inputs s.
Proof. intros H. apply service_quiet in H. apply H. Qed.

Lemma filterInc_time x :
  0 <= nSecs x < 60 -> 0 <= filterMinutes (m_EE x) ->
  filterMinutes (m_EE x) + 1 < cmod ->
  60 * filterMinutes (m_EE (filterInc x)) + nSecs (filterInc x)
    = 60 * filterMinutes (m_EE x) + nSecs x + 1 /\
  0 <= nSecs (filterInc x) < 60.
Proof.
  intros Hn Hf Hc. unfold filterInc. cbv zeta.
  assert (E : nSecs (set_nSecs (to_uint16 (nSecs x + 1)) x) = nSecs x + 1).
  { dst x. hsimp. unfold to_uint16. apply Z.mod_small. hsimp. lia. }
  rewrite E.
  destruct (60 <=? nSecs x + 1) eqn:T; zb.
  - assert (N : nSecs x = 59) by lia.
    dst x. hsimp. hsimp. subst nSecs0. unfold ctr, to_uint16.
    rewrite (Z.mod_small (filterMinutes0 + 1)) by lia.
    change (((59 + 1) mod 65536 - 60) mod 65536) with 0. lia.
  - dst x. hsimp. hsimp. unfold to_uint16.
    rewrite Z.mod_small by lia. lia.
Qed.

(** X14. The filter time: every tick with air moving (fan on, a cycle
    running or the furnace fan timer counting) adds exactly one second
    to 60 * filterMinutes + nSecs, every other tick adds nothing, and
    the second count stays below 60. *)
Theorem service_filter_time sec s s1 :
  0 <= nSecs s < 60 -> 0 <= filterMinutes (m_EE s) ->
  filterMinutes (m_EE s) + 1 < cmod ->
  service sec s = Ok s1 ->
  60 * filterMinutes (m_EE s1) + nSecs s1
    = 60 * filterMinutes (m_EE s) + nSecs s + (if airflow s then 1 else 0) /\
  0 <= nSecs s1 < 60.
Proof.
  intros Hn Hf Hc H. apply service_quiet in H.
  destruct H as (_ & _ & _ & _ & F1 & F2). rewrite F1, F2.
  destruct (airflow s).
  - apply filterInc_time; assumption.
  - lia.
Qed.

Lemma countdown_max t : 0 <= t < cmod -> countdown t = Z.max 0 (t - 1).
Proof.
  intros H. unfold countdown, ctr. destruct (t =? 0) eqn:E; zb.
  - lia.
  - rewrite Z.mod_small by lia. lia.
Qed.

(** A run of ticks on the inputs and the two countdowns. *)
Lemma ticks_slow evs : forall s s',
  forallb is_tick evs = true -> run evs s = Ok s' ->
  0 <= m_remoteTimer s < cmod -> 0 <= m_overrideTimer s < cmod ->
  inputs s' = inputs s /\
  m_remoteTimer s' = Z.max 0 (m_remoteTimer s - Z.of_nat (List.length evs)) /\
  m_overrideTimer s' = Z.max 0 (m_overrideTimer s - Z.of_nat (List.length evs)) /\
  m_ovrTemp s' =
    (if (0 <? m_overrideTimer s)
        && (m_overrideTimer s <=? Z.of_nat (List.length evs))
     then 0 else m_ovrTemp s).
Proof.
  induction evs as [|ev evs IH]; intros s s' Ht H Hr Ho.
  - cbn [run] in H. injection H as <-. cbn [List.length Z.of_nat].
    replace ((0 <? m_overrideTimer s) && (m_overrideTimer s <=? 0)) with false
      by (symmetry; apply andb_false_iff;
          destruct (0 <? m_overrideTimer s) eqn:E; [right | left; reflexivity];
          zb; apply Z.leb_gt; lia).
    repeat split; try reflexivity; lia.
  - cbn [forallb] in Ht. apply andb_true_iff in Ht. destruct Ht as [Hev Ht].
    destruct ev; try discriminate. cbn [run step] in H.
    destruct (service sec s) as [s2|] eqn:E; [|discriminate]. cbn [bind] in H.
    apply service_quiet in E. destruct E as (E0 & E1 & E2 & E3 & _).
    rewrite countdown_max in E1, E2, E3 by assumption.
    assert (Hr2 : 0 <= m_remoteTimer s2 < cmod) by lia.
    assert (Ho2 : 0 <= m_overrideTimer s2 < cmod) by lia.
    destruct (IH s2 s' Ht H Hr2 Ho2) as (I0 & I1 & I2 & I3).
    rewrite I0, I1, I2, I3, E0, E1, E2, E3.
    replace (Z.of_nat (List.length (Tick sec :: evs)))
      with (Z.of_nat (List.length evs) + 1) by (cbn [List.length]; lia).
    repeat split; try lia.
    destruct (0 <? Z.max 0 (m_overrideTimer s - 1)) eqn:B1,
      (Z.max 0 (m_overrideTimer s - 1) <=? Z.of_nat (List.length evs)) eqn:B2,
      (m_overrideTimer s =? 0) eqn:B3,
      (Z.max 0 (m_overrideTimer s - 1) =? 0) eqn:B4,
      (0 <? m_overrideTimer s) eqn:B5,
      (m_overrideTimer s <=? Z.of_nat (List.length evs) + 1) eqn:B6;
      cbn [andb negb]; try reflexivity; zb; lia.
Qed.

(** X15. The remote heartbeat: after [setVar("remotetemp", v)] with
    v > 0 the indoor temperature is v limited to 65.0..88.0 degrees,
    and a reading of the local sensor is dropped for the next
    [m_remoteTimeout] ticks and taken from then on. *)
Theorem remote_heartbeat v evs Temp rh s0 s s' :
  0 < v -> 0 <= m_remoteTimeout s0 < cmod ->
  0 <= m_overrideTimer s0 < cmod ->
  setVar "remotetemp"%string v s0 = Ok s ->
  forallb is_tick evs = true -> run evs s = Ok s' ->
  m_inTemp (updateIndoorTemp Temp rh s') =
    (if Z.of_nat (List.length evs) <? m_remoteTimeout s0
     then constrain v 650 880 else Temp).
Proof.
  intros Hv Hr Ho Hs Ht H.
  change (setVar "remotetemp"%string v s0)
    with (if 0 <? v
          then Ok (set_m_remoteTimer
                     (m_remoteTimeout (set_m_inTemp (constrain v 650 880) s0))
                     (set_m_inTemp (constrain v 650 880) s0))
          else Ok (set_m_remoteTimer 0 s0)) in Hs.
  replace (0 <? v) with true in Hs by (symmetry; apply Z.ltb_lt; exact Hv).
  injection Hs as <-.
  apply ticks_slow in H; [ | exact Ht | dst s0; exact Hr | dst s0; exact Ho ].
  destruct H as (I0 & I1 & _).
  assert (Hin : m_inTemp s' = constrain v 650 880).
  { unfold inputs in I0.
    assert (J : m_inTemp s' = m_inTemp (set_m_remoteTimer
                  (m_remoteTimeout (set_m_inTemp (constrain v 650 880) s0))
                  (set_m_inTemp (constrain v 650 880) s0))).
    { injection I0. intros. assumption. }
    rewrite J. dst s0. reflexivity. }
  assert (Hrt : m_remoteTimer s'
                = Z.max 0 (m_remoteTimeout s0 - Z.of_nat (List.length evs))).
  { rewrite I1. dst s0. reflexivity. }
  unfold updateIndoorTemp.
  destruct (Z.of_nat (List.length evs) <? m_remoteTimeout s0) eqn:B; zb.
  - replace (m_remoteTimer s' =? 0) with false
      by (symmetry; apply Z.eqb_neq; lia).
    rewrite <- Hin. dst s'. reflexivity.
  - replace (m_remoteTimer s' =? 0) with true
      by (symmetry; apply Z.eqb_eq; lia).
    dst s'. reflexivity.
Qed.

(** X16. The life of a manual override: [setVar("override", v)] with
    v > 0 stores v limited to 9.0 degrees, the offset holds for
    [overrideTime] ticks and the tick that ends them clears it. *)
Theorem override_lifetime v evs s0 s s' :
  0 < v -> 0 < overrideTime (m_EE s0) < cmod ->
  0 <= m_remoteTimer s0 < cmod ->
  setVar "override"%string v s0 = Ok s ->
  forallb is_tick evs = true -> run evs s = Ok s' ->
  m_ovrTemp s' =
    (if Z.of_nat (List.length evs) <? overrideTime (m_EE s0)
     then Z.min v 90 else 0) /\
  m_overrideTimer s' =
    Z.max 0 (overrideTime (m_EE s0) - Z.of_nat (List.length evs)).
Proof.
  intros Hv Ho Hr Hs Ht H.
  change (setVar "override"%string v s0)
    with (if v <=? 0
          then Ok (set_m_bRecheck true
                     (set_m_overrideTimer 0 (set_m_ovrTemp 0 s0)))
          else Ok (set_m_bRecheck true
                     (set_m_overrideTimer
                        (overrideTime (m_EE (set_m_ovrTemp (constrain v (-90) 90) s0)))
                        (set_m_ovrTemp (constrain v (-90) 90) s0)))) in Hs.
  replace (v <=? 0) with false in Hs by (symmetry; apply Z.leb_gt; exact Hv).
  injection Hs as <-.
  apply ticks_slow in H;
    [ | exact Ht | dst s0; exact Hr | dst s0; hsimp; hsimp; lia ].
  destruct H as (_ & _ & I2 & I3).
  assert (C : constrain v (-90) 90 = Z.min v 90).
  { unfold constrain. repeat split_if; zb; lia. }
  rewrite I2, I3. clear I2 I3. dst s0. hsimp. hsimp. rewrite C. split; [|reflexivity].
  destruct (0 <? overrideTime0) eqn:B1,
    (overrideTime0 <=? Z.of_nat (List.length evs)) eqn:B2,
    (Z.of_nat (List.length evs) <? overrideTime0) eqn:B3;
    cbn [andb]; try reflexivity; zb; lia.
Qed.

(** ** The ranges of the tunables and of the setpoints *)

Ltac rewrite_eqs :=
  repeat match goal with
         | H : _ = _ |- _ => rewrite H; clear H
         end.

Lemma lim_limits_ok s s' : lim s' = lim s -> limits_ok s -> limits_ok s'.
Proof.
  unfold lim, limits_ok. intros E H. injection E. intros. rewrite_eqs. exact H.
Qed.

Lemma setp_setpoints_ok s s' :
  setp s' = setp s -> setpoints_ok s -> setpoints_ok s'.
Proof.
  unfold setp, setpoints_ok, coolTemp_at, heatTemp_at. intros E H.
  injection E. intros. rewrite_eqs. exact H.
Qed.

Lemma setTemp_lim mode Temp hl s s' :
  setTemp mode Temp hl s = Ok s' -> lim s' = lim s.
Proof.
  unfold setTemp. intros H. revert H. cbv zeta.
  repeat (split_inner_if; cbv iota); intros H;
    try (injection H as <-; dst s; reflexivity);
    try (apply calcTargetTemp_inv in H; destruct H as (t & r & ->);
         dst s; reflexivity).
Qed.

Lemma setTemp_other mode Temp hl s s' :
  setTemp_mode mode s <> Mode_Cool -> setTemp_mode mode s <> Mode_Heat ->
  setTemp mode Temp hl s = Ok s' -> s' = s.
Proof.
  intros Hc Hh H. unfold setTemp in H. cbv zeta in H.
  apply Z.eqb_neq in Hc, Hh. rewrite Hc, Hh in H. injection H as <-. reflexivity.
Qed.

Lemma setTemp_cool_reject mode Temp hl s s' :
  setTemp_mode mode s = Mode_Cool -> (Temp <? 650) || (880 <? Temp) = true ->
  setTemp mode Temp hl s = Ok s' -> s' = s.
Proof.
  intros Hc R H. unfold setTemp in H. cbv zeta in H.
  rewrite Hc in H. change (Mode_Cool =? Mode_Cool) with true in H.
  rewrite R in H. injection H as <-. reflexivity.
Qed.

Lemma setTemp_heat_reject mode Temp hl s s' :
  setTemp_mode mode s = Mode_Heat -> (Temp <? 630) || (860 <? Temp) = true ->
  setTemp mode Temp hl s = Ok s' -> s' = s.
Proof.
  intros Hc R H. unfold setTemp in H. cbv zeta in H.
  rewrite Hc in H. change (Mode_Heat =? Mode_Cool) with false in H.
  change (Mode_Heat =? Mode_Heat) with true in H.
  rewrite R in H. injection H as <-. reflexivity.
Qed.

(** An edit keeps the four setpoints in their bounds: the edited pair
    in the accepted range, the other pair within an [int8_t] of it. *)
Lemma setTemp_setpoints_ok mode Temp hl s s' :
  setpoints_ok s -> setTemp mode Temp hl s = Ok s' -> setpoints_ok s'.
Proof.
  intros I H.
  destruct (setTemp_mode mode s =? Mode_Cool) eqn:Ec;
    [| destruct (setTemp_mode mode s =? Mode_Heat) eqn:Eh ].
  - apply Z.eqb_eq in Ec.
    destruct ((Temp <? 650) || (880 <? Temp)) eqn:R.
    + rewrite (setTemp_cool_reject _ _ _ _ _ Ec R H). exact I.
    + zb.
      pose proof (setTemp_cool_edit mode Temp hl s s' Ec ltac:(lia) H)
        as (C & Hh & _).
      cbv zeta in C, Hh. revert I. unfold setpoints_ok, coolTemp_at, heatTemp_at.
      rewrite C, Hh. clear C Hh H. intros (B1 & B2 & B3 & B4).
      destruct (coolTemp (m_EE s)) as [c0 c1], (heatTemp (m_EE s)) as [h0 h1].
      pose proof (to_int8_range (h1 - h0)) as T.
      destruct hl; unfold idx, upd in *; cbn [fst snd] in *;
        rewrite !to_int16_small; try rewrite !to_int16_small; lia.
  - apply Z.eqb_eq in Eh.
    destruct ((Temp <? 630) || (860 <? Temp)) eqn:R.
    + rewrite (setTemp_heat_reject _ _ _ _ _ Eh R H). exact I.
    + zb.
      pose proof (setTemp_heat_edit mode Temp hl s s' Eh ltac:(lia) H)
        as (C & Hh & _).
      cbv zeta in C, Hh. revert I. unfold setpoints_ok, coolTemp_at, heatTemp_at.
      rewrite C, Hh. clear C Hh H. intros (B1 & B2 & B3 & B4).
      destruct (coolTemp (m_EE s)) as [c0 c1], (heatTemp (m_EE s)) as [h0 h1].
      pose proof (to_int8_range (c1 - c0)) as T.
      destruct hl; unfold idx, upd in *; cbn [fst snd] in *;
        rewrite !to_int16_small; try rewrite !to_int16_small; lia.
  - apply Z.eqb_neq in Ec, Eh.
    rewrite (setTemp_other _ _ _ _ _ Ec Eh H). exact I.
Qed.

Lemma service_cfg sec s s1 :
  service sec s = Ok s1 ->
  setp s1 = setp s /\ (limits_ok s -> limits_ok s1).
Proof.
  intros H. apply service_quiet in H. destruct H as (I0 & _ & _ & I3 & _).
  unfold inputs in I0. injection I0. intros.
  split.
  - unfold setp. congruence.
  - unfold limits_ok. intros L. rewrite I3. rewrite_eqs.
    destruct (negb _ && _); intuition lia.
Qed.

Lemma setVar_setpoints_ok sCmd val s s' :
  setpoints_ok s -> setVar sCmd val s = Ok s' -> setpoints_ok s'.
Proof.
  unfold setVar. intros I H.
  destruct (CmdIdx sCmd cSCmds) as [|n]; [| cases_nat n 18%nat ];
    try match type of H with
      | context [setTemp ?m ?t ?h ?x] =>
          destruct (setTemp m t h x) as [c|] eqn:E; [|discriminate];
          apply (setTemp_setpoints_ok _ _ _ _ _ I) in E; cbn [bind] in H;
          injection H as <-;
          refine (setp_setpoints_ok c _ _ E); dst c; reflexivity
      end;
    try (revert H; cbv zeta; repeat (split_inner_if; cbv iota); intros H);
    injection H as <-;
    refine (setp_setpoints_ok s _ _ I);
    unfold setFan, setMode, setHeatMode, resetTotal, resetFilter, fanSwitch;
    first [ crunch; dst s; reflexivity
          | dst s; hsimp; destruct m_notif0; reflexivity ].
Qed.

Lemma setVar_limits_ok sCmd val s s' :
  limits_ok s -> setVar sCmd val s = Ok s' -> limits_ok s'.
Proof.
  unfold setVar. intros I H.
  destruct (CmdIdx sCmd cSCmds) as [|n]; [| cases_nat n 18%nat ];
    try match type of H with
      | context [setTemp ?m ?t ?h ?x] =>
          destruct (setTemp m t h x) as [c|] eqn:E; [|discriminate];
          apply setTemp_lim in E; cbn [bind] in H;
          injection H as <-;
          refine (lim_limits_ok s _ _ I); rewrite <- E; dst c; reflexivity
      end;
    try (revert H; cbv zeta; repeat (split_inner_if; cbv iota); intros H);
    injection H as <-; zb;
    try (refine (lim_limits_ok s _ _ I);
         unfold setFan, setMode, setHeatMode, resetTotal, resetFilter, fanSwitch;
         first [ crunch; dst s; reflexivity
               | dst s; hsimp; destruct m_notif0; reflexivity ]);
    repeat match goal with
           | |- context [constrain ?v ?a ?b] =>
               let K := fresh "K" in
               pose proof (constrain_range v a b ltac:(lia)) as K;
               try pose proof (constrain_pos v a b ltac:(lia) ltac:(lia) ltac:(lia));
               generalize dependent (constrain v a b); intros
           end;
    zb; revert I; dst s; unfold limits_ok, idx, upd; hsimp;
    try destruct P_REV0; cbn [fst snd]; intros I; intuition lia.
Qed.

Lemma step_setpoints_ok ev s s' :
  setpoints_ok s -> step ev s = Ok s' -> setpoints_ok s'.
Proof.
  intros I H. destruct ev; cbn [step] in H.
  - apply service_cfg in H. exact (setp_setpoints_ok _ _ (proj1 H) I).
  - injection H as <-. refine (setp_setpoints_ok s _ _ I).
    unfold disable, fanSwitch. crunch; dst s; reflexivity.
  - injection H as <-. refine (setp_setpoints_ok s _ _ I). dst s; reflexivity.
  - injection H as <-. refine (setp_setpoints_ok s _ _ I).
    unfold setMode. crunch; dst s; reflexivity.
  - injection H as <-. refine (setp_setpoints_ok s _ _ I). dst s; reflexivity.
  - injection H as <-. refine (setp_setpoints_ok s _ _ I).
    unfold setFan, fanSwitch. crunch; dst s; reflexivity.
  - exact (setTemp_setpoints_ok _ _ _ _ _ I H).
  - injection H as <-. refine (setp_setpoints_ok s _ _ I).
    unfold updateIndoorTemp. destruct (m_remoteTimer s =? 0); dst s; reflexivity.
  - injection H as <-. refine (setp_setpoints_ok s _ _ I). dst s; reflexivity.
  - injection H as <-. refine (setp_setpoints_ok s _ _ I).
    unfold updatePeaks. crunch; dst s; reflexivity.
  - injection H as <-. refine (setp_setpoints_ok s _ _ I).
    unfold resetFilter. dst s. hsimp. destruct m_notif0; reflexivity.
  - injection H as <-. refine (setp_setpoints_ok s _ _ I). dst s; reflexivity.
  - exact (setVar_setpoints_ok _ _ _ _ I H).
Qed.

Lemma step_limits_ok ev s s' :
  limits_ok s -> step ev s = Ok s' -> limits_ok s'.
Proof.
  intros I H. destruct ev; cbn [step] in H.
  - apply service_cfg in H. exact (proj2 H I).
  - injection H as <-. refine (lim_limits_ok s _ _ I).
    unfold disable, fanSwitch. crunch; dst s; reflexivity.
  - injection H as <-. refine (lim_limits_ok s _ _ I). dst s; reflexivity.
  - injection H as <-. refine (lim_limits_ok s _ _ I).
    unfold setMode. crunch; dst s; reflexivity.
  - injection H as <-. refine (lim_limits_ok s _ _ I). dst s; reflexivity.
  - injection H as <-. refine (lim_limits_ok s _ _ I).
    unfold setFan, fanSwitch. crunch; dst s; reflexivity.
  - exact (lim_limits_ok _ _ (setTemp_lim _ _ _ _ _ H) I).
  - injection H as <-. refine (lim_limits_ok s _ _ I).
    unfold updateIndoorTemp. destruct (m_remoteTimer s =? 0); dst s; reflexivity.
  - injection H as <-. refine (lim_limits_ok s _ _ I). dst s; reflexivity.
  - injection H as <-. refine (lim_limits_ok s _ _ I).
    unfold updatePeaks. crunch; dst s; reflexivity.
  - injection H as <-. refine (lim_limits_ok s _ _ I).
    unfold resetFilter. dst s. hsimp. destruct m_notif0; reflexivity.
  - injection H as <-. refine (lim_limits_ok s _ _ I). dst s; reflexivity.
  - exact (setVar_limits_ok _ _ _ _ I H).
Qed.

Lemma run_invariant (P : HVAC -> Prop) :
  (forall ev s s', P s -> step ev s = Ok s' -> P s') ->
  forall evs s s', P s -> run evs s = Ok s' -> P s'.
Proof.
  intros Hstep. induction evs as [|ev evs IH]; intros s s' I H; cbn [run] in H.
  - injection H as <-. exact I.
  - destruct (step ev s) as [s2|] eqn:E; [|discriminate]. cbn [bind] in H.
    exact (IH _ _ (Hstep _ _ _ I E) H).
Qed.

(** X17. In every reachable state the tunables are within the limits
    [setVar] gives them: cycleMin 60..1200 s, cycleMax 120..3600 s,
    idleMin 60..1800 s, cycleThresh and eHeatThresh 0.5..5.0 degrees,
    both fan delays 0..300 s, overrideTime 60..18000 s, the remote
    timeout 1..300 s and the override offset 0..9.0 degrees. *)
Theorem reachable_limits_ok s : reachable s -> limits_ok s.
Proof.
  intros (raw & evs & H).
  refine (run_invariant limits_ok step_limits_ok evs _ _ _ H).
  unfold limits_ok, idx. cbn. lia.
Qed.

(** X18. In every reachable state the edited ends of the setpoints are
    in the accepted ranges (cool low 65.0..88.0, heat high 63.0..86.0
    degrees) and the other two within an [int8_t] spread of them (cool
    high 52.2..100.7, heat low 50.3..98.8 degrees). *)
Theorem reachable_setpoints_ok s : reachable s -> setpoints_ok s.
Proof.
  intros (raw & evs & H).
  refine (run_invariant setpoints_ok step_setpoints_ok evs _ _ _ H).
  unfold setpoints_ok, coolTemp_at, heatTemp_at, idx. cbn. lia.
Qed.

(** ** The fan *)

Lemma fanv_ok s s' :
  fanv s' = fanv s -> outputs_ok s /\ fan_ok s -> outputs_ok s' /\ fan_ok s'.
Proof.
  unfold fanv, outputs_ok, fan_ok. intros E H. injection E. intros.
  rewrite_eqs. exact H.
Qed.

Lemma service_cycle_request_fanv s ret t :
  (let (ret, s) := service_cycle s in
   if ret then Ok (true, s) else s <- service_request s ;; Ok (false, s))
  = Ok (ret, t) ->
  fanv t = fanv s.
Proof.
  unfold service_cycle, service_request. intros H. revert H. cbv zeta.
  repeat (split_inner_if; cbv iota); cbn [bind]; intros H;
    try match type of H with
      | context [calcTargetTemp ?m ?x] =>
          destruct (calcTargetTemp m x) as [c|] eqn:C; [|discriminate];
          apply calcTargetTemp_inv in C; destruct C as (tt & rr & ->);
          cbn [bind] in H
      end;
    injection H as <- <-; dst s; reflexivity.
Qed.

Lemma tempCheck_fanv sec v s1 : tempCheck sec v = Ok s1 -> fanv s1 = fanv v.
Proof.
  unfold tempCheck. intros H.
  destruct ((m_inTemp v =? 0) || Bool.eqb (m_bEnabled v) false);
    [ injection H as <-; reflexivity |].
  destruct (Mode (m_EE v) =? Mode_Off); [ injection H as <-; reflexivity |].
  destruct (m_bRunning v).
  - destruct (m_cycleTimer v <? cycleMin (m_EE v));
      [ injection H as <-; reflexivity |].
    cbv zeta in H.
    destruct ((sec =? 0) || m_bRecheck v).
    + destruct (preCalcCycle _ _) as [[b c]|] eqn:C; [|discriminate].
      apply preCalcCycle_inv in C. destruct C as (t & r & am & ah & ->).
      cbn [bind snd] in H. top_ifs H; injection H as <-; dst v; reflexivity.
    + cbn [bind] in H. top_ifs H; injection H as <-; dst v; reflexivity.
  - destruct (m_idleTimer v <? idleMin (m_EE v));
      [ injection H as <-; reflexivity |].
    destruct ((sec =? 0) || m_bRecheck v); [| injection H as <-; reflexivity ].
    destruct (preCalcCycle _ _) as [[b c]|] eqn:C; [|discriminate].
    apply preCalcCycle_inv in C. destruct C as (t & r & am & ah & ->).
    cbn [bind fst snd] in H. injection H as <-. dst v; reflexivity.
Qed.

Ltac fan_bools :=
  cbn [andb orb negb Bool.eqb] in *;
  try discriminate;
  try match goal with
      | H : ?b = _ |- _ =>
          is_var b; lazymatch type of b with bool => destruct b end; fan_bools
      | H : context [?b] |- _ =>
          is_var b; lazymatch type of b with bool => destruct b end; fan_bools
      | |- context [?b] =>
          is_var b; lazymatch type of b with bool => destruct b end; fan_bools
      end.

Ltac fan_finish :=
  unfold outputs_ok, fan_ok in *; hsimp;
  repeat match goal with
         | H : _ /\ _ |- _ => destruct H
         end;
  repeat match goal with
         | H : (_ =? _) = _ |- _ => clear H
         | H : (_ <? _) = _ |- _ => clear H
         end;
  fan_bools;
  repeat split; intros; try reflexivity; try discriminate;
  try assumption; auto; try (exfalso; intuition discriminate).

Lemma service_fanPost_fan x :
  outputs_ok x /\ fan_ok x ->
  outputs_ok (service_fanPost x) /\ fan_ok (service_fanPost x).
Proof.
  unfold service_fanPost, fanSwitch. intros H. revert H.
  crunch; intros H; dst x; fan_finish.
Qed.

Lemma service_start_fan mode hm x :
  outputs_ok x /\ fan_ok x ->
  outputs_ok (service_start mode hm x) /\ fan_ok (service_start mode hm x).
Proof.
  unfold service_start, fanSwitch. intros H. revert H.
  crunch; intros H; dst x; fan_finish.
Qed.

Lemma service_stop_fan mode hm x :
  outputs_ok x /\ fan_ok x ->
  outputs_ok (service_stop mode hm x) /\ fan_ok (service_stop mode hm x).
Proof.
  unfold service_stop, fanSwitch. intros H. revert H.
  crunch; intros H; dst x; fan_finish.
Qed.

Lemma disable_fan x :
  outputs_ok x /\ fan_ok x ->
  outputs_ok (disable x) /\ fan_ok (disable x).
Proof.
  unfold disable, fanSwitch. intros H. revert H.
  crunch; intros H; dst x; fan_finish.
Qed.

Lemma setFan_fan bon x :
  outputs_ok x /\ fan_ok x ->
  outputs_ok (setFan bon x) /\ fan_ok (setFan bon x).
Proof.
  unfold setFan, fanSwitch. intros H. revert H.
  crunch; intros H; dst x; fan_finish.
Qed.

Lemma service_timers_fan s s0 :
  service_override (service_remote (service_fanPost (service_airflow s))) = Ok s0 ->
  outputs_ok s /\ fan_ok s -> outputs_ok s0 /\ fan_ok s0.
Proof.
  intros H I.
  assert (A : fanv (service_airflow s) = fanv s).
  { unfold service_airflow, filterInc. crunch; dst s; reflexivity. }
  apply (fanv_ok _ _ A) in I. apply service_fanPost_fan in I.
  assert (C : forall x, fanv (service_remote x) = fanv x).
  { intros x. unfold service_remote. crunch; dst x; reflexivity. }
  apply (fanv_ok _ _ (C _)) in I.
  refine (fanv_ok _ _ _ I).
  revert H. generalize (service_remote (service_fanPost (service_airflow s))).
  intros x H. unfold service_override in H. revert H. cbv zeta.
  repeat (split_inner_if; cbv iota); intros H;
    try (injection H as <-; dst x; reflexivity);
    apply calcTargetTemp_inv in H; destruct H as (t & r & ->);
    dst x; reflexivity.
Qed.

Lemma service_fan sec s s1 :
  outputs_ok s /\ fan_ok s -> service sec s = Ok s1 ->
  outputs_ok s1 /\ fan_ok s1.
Proof.
  intros I H. unfold service in H.
  destruct (service_head s) as [[ret t]|] eqn:Eh; [|discriminate].
  cbn [bind] in H. unfold service_head in Eh.
  destruct (service_override _) as [s0|] eqn:E; [|discriminate].
  apply (service_timers_fan _ _ E) in I. cbn [bind] in Eh.
  apply service_cycle_request_fanv in Eh. apply (fanv_ok _ _ Eh) in I.
  destruct ret.
  - injection H as <-. exact I.
  - apply tempCheck_fanv in H. refine (fanv_ok _ _ H _).
    apply service_stop_fan, service_start_fan, I.
Qed.

Lemma setTemp_fanv mode Temp hl s s' :
  setTemp mode Temp hl s = Ok s' -> fanv s' = fanv s.
Proof.
  unfold setTemp. intros H. revert H. cbv zeta.
  repeat (split_inner_if; cbv iota); intros H;
    try (injection H as <-; dst s; reflexivity);
    try (apply calcTargetTemp_inv in H; destruct H as (t & r & ->);
         dst s; reflexivity).
Qed.

Lemma setVar_fan sCmd val s s' :
  outputs_ok s /\ fan_ok s -> setVar sCmd val s = Ok s' ->
  outputs_ok s' /\ fan_ok s'.
Proof.
  unfold setVar. intros I H.
  destruct (CmdIdx sCmd cSCmds) as [|n]; [| cases_nat n 18%nat ];
    try match type of H with
      | context [setTemp ?m ?t ?h ?x] =>
          destruct (setTemp m t h x) as [c|] eqn:E; [|discriminate];
          apply setTemp_fanv in E; cbn [bind] in H;
          injection H as <-;
          refine (fanv_ok s _ _ I); rewrite <- E; dst c; reflexivity
      end;
    try (revert H; cbv zeta; repeat (split_inner_if; cbv iota); intros H);
    injection H as <-;
    first [ apply setFan_fan; exact I
          | refine (fanv_ok s _ _ I);
            unfold setMode, setHeatMode, resetTotal, resetFilter;
            first [ crunch; dst s; reflexivity
                  | dst s; hsimp; destruct m_notif0; reflexivity ] ].
Qed.

Lemma step_fan ev s s' :
  outputs_ok s /\ fan_ok s -> step ev s = Ok s' ->
  outputs_ok s' /\ fan_ok s'.
Proof.
  intros I H. destruct ev; cbn [step] in H.
  - exact (service_fan _ _ _ I H).
  - injection H as <-. apply disable_fan, I.
  - injection H as <-. refine (fanv_ok s _ _ I). dst s; reflexivity.
  - injection H as <-. refine (fanv_ok s _ _ I).
    unfold setMode. crunch; dst s; reflexivity.
  - injection H as <-. refine (fanv_ok s _ _ I). dst s; reflexivity.
  - injection H as <-. apply setFan_fan, I.
  - exact (fanv_ok _ _ (setTemp_fanv _ _ _ _ _ H) I).
  - injection H as <-. refine (fanv_ok s _ _ I).
    unfold updateIndoorTemp. destruct (m_remoteTimer s =? 0); dst s; reflexivity.
  - injection H as <-. refine (fanv_ok s _ _ I). dst s; reflexivity.
  - injection H as <-. refine (fanv_ok s _ _ I).
    unfold updatePeaks. crunch; dst s; reflexivity.
  - injection H as <-. refine (fanv_ok s _ _ I).
    unfold resetFilter. dst s. hsimp. destruct m_notif0; reflexivity.
  - injection H as <-. refine (fanv_ok s _ _ I). dst s; reflexivity.
  - exact (setVar_fan _ _ _ _ I H).
Qed.

(** X19. In every reachable state the fan output is what
    [m_bFanRunning] says, and the compressor output is never asserted
    with the fan off. *)
Theorem reachable_fan_ok s : reachable s -> fan_ok s.
Proof.
  intros (raw & evs & H).
  refine (proj2 (run_invariant (fun x => outputs_ok x /\ fan_ok x)
                   step_fan evs _ _ _ H)).
  unfold outputs_ok, fan_ok. cbn. auto.
Qed.

(** ** The start decision *)

(** What [preCalcCycle] returns, against the target it has just cached. *)
Lemma preCalcCycle_decision mode x b s' :
  preCalcCycle mode x = Ok (b, s') ->
  (mode = Mode_Cool -> b = (m_targetTemp s' <=? m_inTemp s')) /\
  (mode = Mode_Heat -> b = (m_inTemp s' <=? m_targetTemp s')) /\
  (mode = Mode_Auto -> coolTemp_at x false <= m_inTemp x ->
   m_AutoMode s' = Mode_Cool /\ b = (m_targetTemp s' <=? m_inTemp s')) /\
  (mode = Mode_Auto -> m_inTemp x < coolTemp_at x false ->
   m_inTemp x <= heatTemp_at x true ->
   m_AutoMode s' = Mode_Heat /\ b = (m_inTemp s' <=? m_targetTemp s')) /\
  (mode = Mode_Auto -> heatTemp_at x true < m_inTemp x < coolTemp_at x false ->
   b = false /\ s' = x).
Proof.
  unfold preCalcCycle. intros H.
  destruct (mode =? Mode_Cool) eqn:Ec;
    [| destruct (mode =? Mode_Heat) eqn:Eh;
       [| destruct (mode =? Mode_Auto) eqn:Ea;
          [ destruct (coolTemp_at x false <=? m_inTemp x) eqn:E1;
            [| destruct (m_inTemp x <=? heatTemp_at x true) eqn:E2 ] |] ] ];
    zb; unfold Mode_Cool, Mode_Heat, Mode_Auto in *;
    try match type of H with
      | context [calcTargetTemp ?m ?y] =>
          destruct (calcTargetTemp m y) as [c|] eqn:C; [|discriminate];
          cbn [bind] in H
      end;
    try (injection H as <- <-).
  - repeat split; intros; try lia; reflexivity.
  - repeat split; intros; try lia; reflexivity.
  - repeat split; intros; try lia; dst c; reflexivity.
  - apply calcTargetTemp_inv in C. destruct C as (t & r & ->).
    destruct (heatMode _ =? Heat_Auto);
      [ destruct (m_inTemp _ <? _) |];
      repeat split; intros; try lia; dst x; reflexivity.
  - repeat split; intros; try lia; reflexivity.
  - repeat split; intros; try lia; reflexivity.
Qed.

(** X20. On an idle system past [idleMin], at a re-check boundary, the
    decision pass sets the start request to the comparison of the
    indoor temperature with the freshly computed target, so that a
    request left pending is withdrawn when the comparison fails: in
    cool mode start iff target <= indoor, in heat mode iff indoor <=
    target; in auto mode the cool side is chosen at or above cool low,
    the heat side at or below heat high, and between the two no start
    is requested. *)
Theorem tempCheck_start_boundaries sec s :
  m_inTemp s <> 0 -> m_bEnabled s = true -> Mode (m_EE s) <> Mode_Off ->
  m_bRunning s = false -> idleMin (m_EE s) <= m_idleTimer s ->
  (sec =? 0) || m_bRecheck s = true -> band_width s <> 0 ->
  exists s',
    tempCheck sec s = Ok s' /\
    m_inTemp s' = m_inTemp s /\ m_bRecheck s' = false /\
    (to_int8 (Mode (m_EE s)) = Mode_Cool ->
     (m_bStart s' = true <-> m_targetTemp s' <= m_inTemp s')) /\
    (to_int8 (Mode (m_EE s)) = Mode_Heat ->
     (m_bStart s' = true <-> m_inTemp s' <= m_targetTemp s')) /\
    (to_int8 (Mode (m_EE s)) = Mode_Auto ->
     coolTemp_at s false <= m_inTemp s ->
     m_AutoMode s' = Mode_Cool /\
     (m_bStart s' = true <-> m_targetTemp s' <= m_inTemp s')) /\
    (to_int8 (Mode (m_EE s)) = Mode_Auto ->
     m_inTemp s < coolTemp_at s false -> m_inTemp s <= heatTemp_at s true ->
     m_AutoMode s' = Mode_Heat /\
     (m_bStart s' = true <-> m_inTemp s' <= m_targetTemp s')) /\
    (to_int8 (Mode (m_EE s)) = Mode_Auto ->
     heatTemp_at s true < m_inTemp s < coolTemp_at s false ->
     m_bStart s' = false).
Proof.
  intros Hin Hen Hoff Hrun Hidle Hsec Hband. unfold tempCheck.
  apply Z.eqb_neq in Hin, Hoff. apply Z.ltb_ge in Hidle.
  rewrite Hin, Hen, Hoff, Hrun, Hidle, Hsec. cbn [orb Bool.eqb].
  destruct (preCalcCycle_total (to_int8 (Mode (m_EE s)))
              (set_m_bRecheck false s)) as [[b c] E].
  { clear - Hband. dst s. exact Hband. }
  rewrite E. cbn [bind fst snd]. exists (set_m_bStart b c).
  split; [reflexivity|].
  pose proof (preCalcCycle_frame _ _ _ _ E) as (F1 & _ & _ & _ & _ & _ & _ & _ & F9 & _).
  pose proof (preCalcCycle_decision _ _ _ _ E) as (D1 & D2 & D3 & D4 & D5).
  assert (K : m_inTemp (set_m_bStart b c) = m_inTemp c /\
              m_bRecheck (set_m_bStart b c) = m_bRecheck c /\
              m_bStart (set_m_bStart b c) = b /\
              m_targetTemp (set_m_bStart b c) = m_targetTemp c /\
              m_AutoMode (set_m_bStart b c) = m_AutoMode c)
    by (dst c; repeat split; reflexivity).
  destruct K as (K1 & K2 & K3 & K4 & K5).
  assert (L : m_inTemp (set_m_bRecheck false s) = m_inTemp s /\
              m_bRecheck (set_m_bRecheck false s) = false /\
              coolTemp_at (set_m_bRecheck false s) false = coolTemp_at s false /\
              heatTemp_at (set_m_bRecheck false s) true = heatTemp_at s true)
    by (dst s; repeat split; reflexivity).
  destruct L as (L1 & L2 & L3 & L4).
  rewrite L1, L3, L4 in *. rewrite K1, K2, K3, K4, K5, F1, F9, L2.
  rewrite F1 in D1, D2, D3, D4.
  split; [reflexivity|]. split; [reflexivity|].
  split; [| split; [| split; [| split ] ] ].
  - intros M. rewrite (D1 M). apply Z.leb_le.
  - intros M. rewrite (D2 M). apply Z.leb_le.
  - intros M G. destruct (D3 M G) as [A ->]. split; [exact A | apply Z.leb_le].
  - intros M G1 G2. destruct (D4 M G1 G2) as [A ->].
    split; [exact A | apply Z.leb_le].
  - intros M G. apply (D5 M G).
Qed.

(** ** A tick returns *)

Lemma inputs_band s t : inputs t = inputs s -> band_width t = band_width s.
Proof.
  unfold inputs, band_width, out_band. intros E. injection E. intros.
  rewrite_eqs. reflexivity.
Qed.

Lemma service_override_total x :
  band_width x <> 0 -> exists y, service_override x = Ok y.
Proof.
  intros Hb. unfold service_override. cbv zeta.
  repeat (split_inner_if; cbv iota); eauto.
  apply calcTargetTemp_total. dst x. exact Hb.
Qed.

Lemma service_cycle_request_total s :
  band_width s <> 0 ->
  exists ret t,
    (let (ret, s) := service_cycle s in
     if ret then Ok (true, s) else s <- service_request s ;; Ok (false, s))
    = Ok (ret, t).
Proof.
  intros Hb. unfold service_cycle, service_request. cbv zeta.
  repeat (split_inner_if; cbv iota); cbn [bind]; eauto;
    match goal with
    | |- context [calcTargetTemp ?m ?x] =>
        destruct (calcTargetTemp_total m x) as [c ->];
        [ dst s; exact Hb | cbn [bind]; eauto ]
    end.
Qed.

Lemma tempCheck_total sec v :
  band_width v <> 0 -> exists s1, tempCheck sec v = Ok s1.
Proof.
  intros Hb. unfold tempCheck.
  assert (P : exists r,
    preCalcCycle (to_int8 (Mode (m_EE v))) (set_m_bRecheck false v) = Ok r).
  { apply preCalcCycle_total. dst v. exact Hb. }
  destruct P as [[b c] P]. rewrite P. cbv zeta. cbn [bind fst snd].
  repeat match goal with
         | |- exists _, (if ?c then _ else _) = _ => destruct c
         | |- exists _, bind (if ?c then _ else _) _ = _ => destruct c
         end; cbn [bind]; eauto;
  repeat match goal with
         | |- exists _, (if ?c then _ else _) = _ => destruct c
         end; eauto.
Qed.

(** X21. A tick returns whenever the outdoor band used by the target
    calculation has a width: the division of [calcTargetTemp] is the
    only fault of [service]. *)
Theorem service_returns sec s :
  band_width s <> 0 -> exists s1, service sec s = Ok s1.
Proof.
  intros Hb. unfold service, service_head.
  destruct (service_override_total
              (service_remote (service_fanPost (service_airflow s)))) as [s0 E].
  { replace (band_width (service_remote (service_fanPost (service_airflow s))))
      with (band_width s); [exact Hb|].
    assert (A : forall x, band_width (service_airflow x) = band_width x)
      by (intros x; unfold service_airflow, filterInc; crunch; dst x; reflexivity).
    assert (B : forall x, band_width (service_fanPost x) = band_width x)
      by (intros x; unfold service_fanPost, fanSwitch; crunch; dst x; reflexivity).
    assert (C : forall x, band_width (service_remote x) = band_width x)
      by (intros x; unfold service_remote; crunch; dst x; reflexivity).
    rewrite C, B, A. reflexivity. }
  rewrite E. cbn [bind].
  apply service_timers_quiet in E. destruct E as (E & _).
  apply inputs_band in E. rewrite <- E in Hb.
  destruct (service_cycle_request_total s0 Hb) as (ret & t & R).
  rewrite R. cbn [bind].
  apply service_cycle_request_quiet in R. apply quiet_fields in R.
  destruct R as (R & _). apply inputs_band in R. rewrite <- R in Hb.
  destruct ret; [eauto|].
  apply tempCheck_total.
  pose proof (service_start_quiet (true_mode t) (true_hm t) t) as Q1.
  pose proof (service_stop_quiet (true_mode t) (true_hm t)
                (service_start (true_mode t) (true_hm t) t)) as Q2.
  apply quiet_fields in Q1, Q2. destruct Q1 as (Q1 & _), Q2 as (Q2 & _).
  apply inputs_band in Q1, Q2. rewrite Q2, Q1. exact Hb.
Qed.

(** ** Every start and every stop of a run *)

Lemma pend_call_rel s s' : pend s' = pend s -> call_rel s s'.
Proof.
  unfold pend, call_rel. intros E. injection E. intros.
  repeat split; auto.
Qed.

Lemma setMode_call_rel mode s : call_rel s (setMode mode s).
Proof.
  unfold setMode, call_rel. crunch; zb; dst s; hsimp; hsimp;
    repeat split; auto.
Qed.

Lemma disable_call_rel s : call_rel s (disable s).
Proof.
  unfold disable, fanSwitch, call_rel. crunch; dst s; hsimp;
    repeat split; auto.
Qed.

Lemma setTemp_pend mode Temp hl s s' :
  setTemp mode Temp hl s = Ok s' -> pend s' = pend s.
Proof.
  unfold setTemp. intros H. revert H. cbv zeta.
  repeat (split_inner_if; cbv iota); intros H;
    try (injection H as <-; dst s; reflexivity);
    try (apply calcTargetTemp_inv in H; destruct H as (t & r & ->);
         dst s; reflexivity).
Qed.

Lemma setVar_call_rel sCmd val s s' :
  setVar sCmd val s = Ok s' -> call_rel s s'.
Proof.
  unfold setVar. intros H.
  destruct (CmdIdx sCmd cSCmds) as [|n]; [| cases_nat n 18%nat ];
    try match type of H with
      | context [setTemp ?m ?t ?h ?x] =>
          destruct (setTemp m t h x) as [c|] eqn:E; [|discriminate];
          apply setTemp_pend in E; cbn [bind] in H; injection H as <-;
          apply pend_call_rel; rewrite <- E; dst c; reflexivity
      end;
    try (revert H; cbv zeta; repeat (split_inner_if; cbv iota); intros H);
    injection H as <-;
    first [ apply setMode_call_rel
          | apply pend_call_rel;
            unfold setFan, setHeatMode, resetTotal, resetFilter, fanSwitch;
            first [ crunch; dst s; reflexivity
                  | dst s; hsimp; destruct m_notif0; reflexivity ] ].
Qed.

Lemma step_call_rel ev s s' :
  is_call ev = true -> step ev s = Ok s' -> call_rel s s'.
Proof.
  intros C H. destruct ev; try discriminate C; cbn [step] in H.
  - injection H as <-. apply disable_call_rel.
  - injection H as <-. apply pend_call_rel. dst s; reflexivity.
  - injection H as <-. apply setMode_call_rel.
  - injection H as <-. apply pend_call_rel. dst s; reflexivity.
  - injection H as <-. apply pend_call_rel.
    unfold setFan, fanSwitch. crunch; dst s; reflexivity.
  - apply pend_call_rel. exact (setTemp_pend _ _ _ _ _ H).
  - injection H as <-. apply pend_call_rel.
    unfold updateIndoorTemp. destruct (m_remoteTimer s =? 0); dst s; reflexivity.
  - injection H as <-. apply pend_call_rel. dst s; reflexivity.
  - injection H as <-. apply pend_call_rel.
    unfold updatePeaks. crunch; dst s; reflexivity.
  - injection H as <-. apply pend_call_rel.
    unfold resetFilter. dst s. hsimp. destruct m_notif0; reflexivity.
  - injection H as <-. apply pend_call_rel. dst s; reflexivity.
  - exact (setVar_call_rel _ _ _ _ H).
Qed.

(** Calls between two ticks: the requests and the cycle counter are as
    the first tick left them, no cycle is started, and the idle counter
    is not lowered. *)
Lemma calls_rel calls : forall s s',
  60 * 30 <= cmod -> limits_ok s ->
  forallb is_call calls = true -> run calls s = Ok s' ->
  limits_ok s' /\
  m_bStart s' = m_bStart s /\ m_bStop s' = m_bStop s /\
  m_cycleTimer s' = m_cycleTimer s /\
  (m_bRunning s' = true -> m_bRunning s = true) /\
  m_idleTimer s <= m_idleTimer s'.
Proof.
  induction calls as [|ev calls IH]; intros s s' Hc L C H; cbn [run] in H.
  - injection H as <-. split; [exact L|]. repeat split; auto. lia.
  - cbn [forallb] in C. apply andb_true_iff in C. destruct C as [C1 C2].
    destruct (step ev s) as [m|] eqn:E; [|discriminate]. cbn [bind] in H.
    pose proof (step_limits_ok _ _ _ L E) as Lm.
    destruct (step_call_rel _ _ _ C1 E) as (R1 & R2 & R3 & R4 & R5).
    destruct (IH m s' Hc Lm C2 H) as (I0 & I1 & I2 & I3 & I4 & I5).
    rewrite I1, I2, I3, R1, R2, R3.
    split; [exact I0|]. repeat split; auto.
    + intros Hr. specialize (I4 Hr). destruct R4 as [R4 | R4]; congruence.
    + destruct R5 as [R5 | [R5 R6]]; [lia|].
      destruct L as (_ & _ & Li & _). unfold ctr in R6.
      rewrite Z.mod_small in R6 by lia. lia.
Qed.

Lemma HVAC_ctor_limits_ok raw : limits_ok (HVAC_ctor raw).
Proof. unfold limits_ok, idx. cbn. lia. Qed.

Lemma step_start_ok ev s s' : start_ok s -> step ev s = Ok s' -> start_ok s'.
Proof.
  intros [L N] H. split; [exact (step_limits_ok _ _ _ L H)|].
  intros R. destruct (is_call ev) eqn:C.
  - destruct (step_call_rel _ _ _ C H) as (R1 & _ & _ & R4 & _).
    rewrite R1. apply N. destruct R4 as [R4 | R4]; congruence.
  - destruct ev; try discriminate C. cbn [step] in H.
    destruct (m_bStart s') eqn:B; [|reflexivity].
    destruct (service_start_pending _ _ _ N H B) as [R' _]. congruence.
Qed.

Lemma step_stop_ok ev s s' :
  60 * 60 < cmod -> stop_ok s -> step ev s = Ok s' -> stop_ok s'.
Proof.
  intros Hc [L M] H. pose proof (step_limits_ok _ _ _ L H) as L'.
  split; [exact L'|].
  intros R. destruct (is_call ev) eqn:C.
  - destruct (step_call_rel _ _ _ C H) as (_ & R2 & R3 & R4 & _).
    rewrite R2, R3. apply M. destruct R4 as [R4 | R4]; congruence.
  - destruct ev; try discriminate C. cbn [step] in H.
    destruct L' as (Lmin & Lmax & _).
    split.
    + destruct (service_running_bound _ _ _ H R) as [B | [B | B]]; lia.
    + intros S.
      destruct (service_stop_pending _ _ _ H S R) as [B | (B1 & B2 & B3 & B4)];
        [lia|].
      destruct (M B2) as [M1 M2]. specialize (M2 B1).
      unfold ctr in B3. rewrite Z.mod_small in B3 by lia. lia.
Qed.

Lemma HVAC_ctor_start_ok raw : start_ok (HVAC_ctor raw).
Proof.
  split; [apply HVAC_ctor_limits_ok|]. cbn. discriminate.
Qed.

Lemma HVAC_ctor_stop_ok raw : stop_ok (HVAC_ctor raw).
Proof.
  split; [apply HVAC_ctor_limits_ok|]. cbn. discriminate.
Qed.

Lemma run_app a : forall b s s',
  run (a ++ b) s = Ok s' -> exists m, run a s = Ok m /\ run b m = Ok s'.
Proof.
  induction a as [|ev a IH]; intros b s s' H; cbn [app run] in *.
  - exists s. split; [reflexivity | exact H].
  - destruct (step ev s) as [m|] eqn:E; [|discriminate]. cbn [bind] in *.
    exact (IH b m s' H).
Qed.

(** A run is made of calls only, or has a last tick. *)
Lemma last_tick evs :
  forallb is_call evs = true \/
  exists evs0 sec calls,
    evs = evs0 ++ Tick sec :: calls /\ forallb is_call calls = true.
Proof.
  induction evs as [|ev evs IH].
  - left. reflexivity.
  - destruct IH as [IH | (evs0 & sec & calls & -> & C)].
    + destruct (is_call ev) eqn:E.
      * left. cbn [forallb]. rewrite E, IH. reflexivity.
      * right. destruct ev; try discriminate E.
        exists [], sec, evs. split; [reflexivity | exact IH].
    + right. exists (ev :: evs0), sec, calls. split; [reflexivity | exact C].
Qed.

(** A run as the constructed object up to its last tick, that tick and
    the calls after it. *)
Lemma run_last_tick raw evs s2 :
  run evs (HVAC_ctor raw) = Ok s2 ->
  (forallb is_call evs = true) \/
  exists evs0 sec calls s s1,
    evs = evs0 ++ Tick sec :: calls /\ forallb is_call calls = true /\
    run evs0 (HVAC_ctor raw) = Ok s /\ service sec s = Ok s1 /\
    run calls s1 = Ok s2.
Proof.
  intros H. destruct (last_tick evs) as [C | (evs0 & sec & calls & -> & C)];
    [left; exact C|].
  right. apply run_app in H. destruct H as (s & H0 & H1).
  cbn [run step] in H1.
  destruct (service sec s) as [s1|] eqn:E; [|discriminate]. cbn [bind] in H1.
  exists evs0, sec, calls, s, s1. repeat split; assumption.
Qed.

(** C2 (amended). In a run from the constructed object, a stop of a
    cycle that was running when the tick began, and that [cycleMax]
    does not force, finds [m_cycleTimer >= 20].  When no mode or
    heat-mode change is pending as that tick begins, the request was
    pending since the end of the preceding tick, whose decision pass
    found [m_cycleTimer >= cycleMin], whatever calls came in between;
    the stop finds [m_cycleTimer >= cycleMin] when [cycleMin] is not
    higher then than at the end of that preceding tick.  The second
    counters hold 3600. *)
Theorem stop_after_request raw evs s2 u :
  60 * 60 < cmod ->
  run evs (HVAC_ctor raw) = Ok s2 ->
  m_bRunning s2 = true ->
  stop_instant s2 = Some u ->
  m_cycleTimer u < cycleMax (m_EE u) ->
  20 <= m_cycleTimer u /\
  (mode_change s2 = false ->
   exists evs0 sec calls s s1,
     evs = evs0 ++ Tick sec :: calls /\ forallb is_call calls = true /\
     run evs0 (HVAC_ctor raw) = Ok s /\ service sec s = Ok s1 /\
     run calls s1 = Ok s2 /\
     m_bRunning s1 = true /\ m_bStop s1 = true /\
     cycleMin (m_EE s1) <= m_cycleTimer s1 /\
     m_cycleTimer u = m_cycleTimer s1 + 1 /\
     (cycleMin (m_EE s2) <= cycleMin (m_EE s1) ->
      cycleMin (m_EE u) <= m_cycleTimer u)).
Proof.
  intros Hc H R Hst Hmax.
  destruct (stop_instant_spec s2 u R Hst Hmax) as (U1 & U2 & U3 & U4).
  split; [exact U1|]. intros Hp. specialize (U4 Hp).
  destruct (run_last_tick raw evs s2 H)
    as [C | (evs0 & sec & calls & s & s1 & -> & C & H0 & H1 & H2)].
  - exfalso.
    destruct (calls_rel evs _ _ ltac:(lia) (HVAC_ctor_limits_ok raw) C H)
      as (_ & _ & _ & _ & K & _).
    specialize (K R). cbn in K. discriminate.
  - pose proof (run_invariant stop_ok (fun ev a b => step_stop_ok ev a b Hc)
                  evs0 _ _ (HVAC_ctor_stop_ok raw) H0) as I.
    assert (I1 : stop_ok s1).
    { apply (step_stop_ok (Tick sec) s s1 Hc I). exact H1. }
    destruct (calls_rel calls _ _ ltac:(lia) (proj1 I1) C H2)
      as (_ & _ & K2 & K3 & K4 & _).
    specialize (K4 R). rewrite K2 in U4. rewrite K3 in U2.
    destruct I1 as [(Lmin & _) M1]. destruct (M1 K4) as [B1 _].
    assert (G : cycleMin (m_EE s1) <= m_cycleTimer s1).
    { destruct (service_stop_pending _ _ _ H1 U4 K4) as [G | (G1 & G2 & G3 & G4)];
        [exact G|].
      exfalso. destruct I as [_ M]. destruct (M G2) as [M2 M3].
      specialize (M3 G1). unfold ctr in G3.
      rewrite Z.mod_small in G3 by lia. lia. }
    assert (T : m_cycleTimer u = m_cycleTimer s1 + 1).
    { rewrite U2. unfold ctr. apply Z.mod_small. lia. }
    exists evs0, sec, calls, s, s1.
    repeat split; try assumption. intros Hle. lia.
Qed.

(** C3 (amended). In a run from the constructed object, every start is
    carried out by a tick for which the request had been raised by the
    decision pass of the preceding tick, on an idle system with
    [m_idleTimer >= idleMin], whatever calls came in between; the start
    finds [m_idleTimer >= idleMin] still when [idleMin] is not higher
    then than at the end of that preceding tick and the idle counter
    does not wrap.  The second counters hold 1800. *)
Theorem start_after_request raw evs s2 t :
  60 * 30 <= cmod ->
  run evs (HVAC_ctor raw) = Ok s2 ->
  start_instant s2 = Some t ->
  exists evs0 sec calls s s1,
    evs = evs0 ++ Tick sec :: calls /\ forallb is_call calls = true /\
    run evs0 (HVAC_ctor raw) = Ok s /\ service sec s = Ok s1 /\
    run calls s1 = Ok s2 /\
    m_bStart s1 = true /\ m_bRunning s1 = false /\
    idleMin (m_EE s1) <= m_idleTimer s1 /\
    (idleMin (m_EE s2) <= idleMin (m_EE s1) ->
     m_idleTimer s2 + 1 < cmod ->
     idleMin (m_EE t) <= m_idleTimer t).
Proof.
  intros Hc H Hst.
  destruct (start_instant_spec s2 t Hst) as (U1 & U2 & U3 & U4).
  destruct (run_last_tick raw evs s2 H)
    as [C | (evs0 & sec & calls & s & s1 & -> & C & H0 & H1 & H2)].
  - exfalso.
    destruct (calls_rel evs _ _ Hc (HVAC_ctor_limits_ok raw) C H)
      as (_ & K & _).
    rewrite U1 in K. cbn in K. discriminate.
  - pose proof (run_invariant start_ok step_start_ok
                  evs0 _ _ (HVAC_ctor_start_ok raw) H0) as I.
    pose proof (step_start_ok (Tick sec) s s1 I H1) as I1.
    destruct (calls_rel calls _ _ Hc (proj1 I1) C H2)
      as (_ & K1 & _ & _ & _ & K5).
    rewrite U1 in K1. symmetry in K1.
    destruct (service_start_pending _ _ _ (proj2 I) H1 K1) as [G1 G2].
    exists evs0, sec, calls, s, s1.
    repeat split; try assumption.
    intros Hle Hw. rewrite U3, U4.
    destruct I1 as [(_ & _ & Li & _) _].
    unfold ctr. rewrite Z.mod_small by lia. lia.
Qed.

(** X2. The lockout over a trajectory: for the first 19 ticks of a
    running cycle, whatever the sensors report, the cycle runs on and the
    requests and outputs are as they were at the start. *)
Theorem lockout_trajectory tr s0 k s :
  (forall i, forallb is_sensor (fst (tr i)) = true) ->
  20 <= cmod ->
  m_bRunning s0 = true -> m_cycleTimer s0 = 0 ->
  (k < 20)%nat -> state_at tr s0 k = Ok s ->
  m_bRunning s = true /\ m_cycleTimer s = Z.of_nat k /\
  m_bStart s = m_bStart s0 /\ m_bStop s = m_bStop s0 /\
  P_COOL (gpio s) = P_COOL (gpio s0) /\ P_HEAT (gpio s) = P_HEAT (gpio s0).
Proof.
  intros Hsens Hc Hr H0. revert s.
  induction k as [|k IH]; intros s Hk H; cbn [state_at] in H.
  - injection H as <-. rewrite H0. repeat split; auto.
  - destruct (state_at tr s0 k) as [s1|] eqn:E1; [|discriminate].
    cbn [bind] in H.
    destruct (run (fst (tr k)) s1) as [s2|] eqn:E2; [|discriminate].
    cbn [bind] in H.
    destruct (IH s1 ltac:(lia) eq_refl) as (I1 & I2 & I3 & I4 & I5 & I6).
    pose proof (sensors_core _ _ _ (Hsens k) E2) as C. core_eq C.
    assert (Hct : ctr (m_cycleTimer s2 + 1) = Z.of_nat (S k)).
    { rewrite Kct, I2. unfold ctr. rewrite Z.mod_small by lia. lia. }
    assert (Hr2 : m_bRunning s2 = true) by congruence.
    assert (Hl : ctr (m_cycleTimer s2 + 1) < 20) by lia.
    destruct (service_lockout _ _ _ Hr2 Hl H) as (B1 & B2 & B3 & B4 & B5 & _ & B7).
    rewrite B1, B2, B3, B4, B5, B7, Hct. repeat split; congruence.
Qed.


End Sequencer.

(** * Concrete runs

    Runs of the scenarios, with counters 16 bits wide. *)

Ltac run_it := vm_compute; reflexivity.
Ltac decide_it :=
  vm_compute; first [ reflexivity | discriminate | intro; discriminate ].

(** C1. The user selects Off after the decision pass has requested a
    start: the next tick commits the mode and then runs the start block,
    whose switch has no case for Off.  The controller is running with
    neither output asserted. *)
Theorem off_before_start_runs_without_output :
  exists s,
    run 65536 off_before_start power_on = Ok s /\
    Mode (m_EE s) = Mode_Off /\ m_bRunning s = true /\
    P_COOL (gpio s) = false /\ P_HEAT (gpio s) = false.
Proof. eexists. split; [run_it|]. repeat split; reflexivity. Qed.

(** C2, as stated, fails: with Heat selected during a cool cycle, the
    tick on which [m_cycleTimer] reaches 20 stops the cycle, below
    [cycleMin = 60] and far from [cycleMax = 900]. *)
Lemma mode_change_stops_before_cycleMin :
  exists s u,
    run 65536 heat_selected power_on = Ok s /\
    stop_instant 65536 s = Some u /\
    m_cycleTimer u = 20 /\ cycleMin (m_EE u) = 60 /\ cycleMax (m_EE u) = 900.
Proof.
  eexists _, _. split; [run_it|]. split; [run_it|]. repeat split; reflexivity.
Qed.

(** The stop of the cool cycle requested at 60 seconds and carried out
    at 61, the outdoor sensor reporting in between. *)
Lemma stop_after_request_witness :
  exists s2 u,
    run 65536 stop_requested power_on = Ok s2 /\
    stop_instant 65536 s2 = Some u /\
    20 <= m_cycleTimer u /\
    (mode_change s2 = false ->
     exists evs0 sec calls s s1,
       stop_requested = evs0 ++ Tick sec :: calls /\
       forallb is_call calls = true /\
       run 65536 evs0 power_on = Ok s /\ service 65536 sec s = Ok s1 /\
       run 65536 calls s1 = Ok s2 /\
       m_bRunning s1 = true /\ m_bStop s1 = true /\
       cycleMin (m_EE s1) <= m_cycleTimer s1 /\
       m_cycleTimer u = m_cycleTimer s1 + 1 /\
       (cycleMin (m_EE s2) <= cycleMin (m_EE s1) ->
        cycleMin (m_EE u) <= m_cycleTimer u)).
Proof.
  eexists _, _. split; [run_it|].
  match goal with |- stop_instant _ ?x = _ /\ _ => set (s2 := x) end.
  split; [run_it|].
  match goal with |- _ <= m_cycleTimer ?x /\ _ => set (u := x) end.
  apply (stop_after_request 65536 zeroed stop_requested s2 u).
  - lia.
  - run_it.
  - reflexivity.
  - run_it.
  - decide_it.
Defined.

(** [cycleMin] is tested as the request is raised: with [cyclemin]
    set to 600 after the decision pass has requested the stop at 60
    seconds, the next tick stops the cycle at 61. *)
Lemma stop_below_raised_cycleMin :
  exists s u,
    run 65536 (cool_satisfied ++ [Tick 1; SetVar "cyclemin" 600]) power_on
      = Ok s /\
    mode_change s = false /\
    stop_instant 65536 s = Some u /\
    m_cycleTimer u = 61 /\ cycleMin (m_EE u) = 600 /\ cycleMax (m_EE u) = 900.
Proof.
  eexists _, _. split; [run_it|]. split; [run_it|]. split; [run_it|].
  repeat split; reflexivity.
Qed.

(** C3, as stated, fails: [idlemin] is raised to 1800 after the decision
    pass has requested the start; the next tick starts the cycle with
    [m_idleTimer = 301]. *)
Lemma start_below_raised_idleMin :
  exists s t,
    run 65536 idle_min_raised power_on = Ok s /\
    start_instant 65536 s = Some t /\
    m_idleTimer t = 301 /\ idleMin (m_EE t) = 1800.
Proof.
  eexists _, _. split; [run_it|]. split; [run_it|]. split; reflexivity.
Qed.

(** The start requested at 300 seconds of idle time and carried out at
    301, the indoor sensor reporting in between. *)
Lemma start_after_request_witness :
  exists s2 t,
    run 65536 start_requested power_on = Ok s2 /\
    start_instant 65536 s2 = Some t /\
    exists evs0 sec calls s s1,
      start_requested = evs0 ++ Tick sec :: calls /\
      forallb is_call calls = true /\
      run 65536 evs0 power_on = Ok s /\ service 65536 sec s = Ok s1 /\
      run 65536 calls s1 = Ok s2 /\
      m_bStart s1 = true /\ m_bRunning s1 = false /\
      idleMin (m_EE s1) <= m_idleTimer s1 /\
      (idleMin (m_EE s2) <= idleMin (m_EE s1) ->
       m_idleTimer s2 + 1 < 65536 ->
       idleMin (m_EE t) <= m_idleTimer t).
Proof.
  eexists _, _. split; [run_it|].
  match goal with |- start_instant _ ?x = _ /\ _ => set (s2 := x) end.
  split; [run_it|].
  match goal with |- exists _ _ _ _ _, _ /\ _ /\ _ /\ _ /\ _ /\ _ /\ _ /\ _ /\
                       (_ -> _ -> _ <= m_idleTimer ?x) => set (t := x) end.
  apply (start_after_request 65536 zeroed start_requested s2 t).
  - lia.
  - run_it.
  - run_it.
Defined.

(** C4. A stop request that [disable] left pending (it clears
    [m_bRunning], not [m_bStop]) meets the next start: the tick runs the
    start block, which asserts the cool output with [m_cycleTimer = 0],
    and then the stop block, which releases it.  The cycle has ended on
    the tick it started. *)
Theorem left_over_stop_ends_cycle_at_start :
  exists s t u s',
    run 65536 stop_left_over power_on = Ok s /\
    m_bStop s = true /\ m_bStart s = true /\
    start_instant 65536 s = Some t /\
    stop_instant 65536 s = Some u /\
    m_cycleTimer u = 0 /\ P_COOL (gpio u) = true /\
    service 65536 1 s = Ok s' /\
    m_bRunning s' = false /\ P_COOL (gpio s') = false.
Proof.
  eexists _, _, _, _. split; [run_it|].
  split; [reflexivity|]. split; [reflexivity|].
  split; [run_it|]. split; [run_it|].
  split; [reflexivity|]. split; [reflexivity|].
  split; [run_it|]. split; reflexivity.
Qed.


(** C6. Auto mode, a cooling cycle past [cycleMin]: the refresh of the
    minute boundary found the room below heat high and has set
    [m_AutoMode] to Heat; the compressor still runs with the valve on
    cool.  At 70.0 degrees, with a target of 72.0 and a threshold of 1.7,
    the decision pass judges the cycle by the heating rule and requests
    no stop; the cycle runs to [cycleMax]. *)
Theorem auto_flip_judges_cooling_by_heat_rule :
  exists s s' s'',
    run 65536 auto_flip power_on = Ok s /\
    m_bRunning s = true /\ P_COOL (gpio s) = true /\ P_REV (gpio s) = false /\
    Mode (m_EE s) = Mode_Auto /\ m_AutoMode s = Mode_Heat /\
    cycleMin (m_EE s) <= m_cycleTimer s /\ m_bStop s = false /\
    service 65536 0 s = Ok s' /\
    m_inTemp s' = 700 /\ m_targetTemp s' = 720 /\ cycleThresh (m_EE s') = 17 /\
    m_inTemp s' <= m_targetTemp s' - cycleThresh (m_EE s') /\
    m_bStop s' = false /\ m_bRunning s' = true /\
    P_COOL (gpio s') = true /\ P_REV (gpio s') = false /\
    run 65536 (ticks 839 0) s' = Ok s'' /\
    m_cycleTimer s'' = 900 /\ m_notif s'' = Note_CycleLimit /\
    m_bRunning s'' = false.
Proof.
  eexists _, _, _. split; [run_it|].
  do 7 (split; [decide_it|]).
  split; [run_it|].
  do 8 (split; [decide_it|]).
  split; [run_it|].
  repeat split; reflexivity.
Qed.

(** The cool cycle at 60 seconds, on the minute boundary, the room at
    78.8 degrees with a target of 80.5 and a threshold of 1.7: the stop is
    requested, the boundary is inclusive. *)
Lemma tempCheck_stop_boundaries_witness :
  exists s,
    run 65536 cool_boundary power_on = Ok s /\
    m_inTemp s = 788 /\
    exists s', tempCheck 0 s = Ok s' /\ m_targetTemp s' = 805 /\ m_bStop s' = true.
Proof.
  eexists. split; [run_it|]. split; [reflexivity|].
  match goal with |- exists _, tempCheck _ ?x = _ /\ _ => set (s := x) end.
  destruct (tempCheck_stop_boundaries 0 s) as (s' & T & Hin & Hth & _ & C & _).
  - decide_it.
  - reflexivity.
  - decide_it.
  - reflexivity.
  - decide_it.
  - reflexivity.
  - intros _. decide_it.
  - exists s'. split; [exact T|].
    assert (Et : m_targetTemp s' = 805).
    { vm_compute in T. injection T as <-. reflexivity. }
    split; [exact Et|].
    apply C; [reflexivity|]. rewrite Hin, Hth, Et. decide_it.
Defined.

(** C7, as stated, fails: at 70.0 degrees indoors and 60.0 outdoors,
    with [eHeatThresh = 30], the outdoor temperature is below the indoor
    temperature minus [eHeatThresh] tenths, and the selector picks the
    heat pump: the threshold counts whole degrees. *)
Lemma heat_pump_below_tenths_gap :
  exists s b s',
    run 65536 auto_heat power_on = Ok s /\
    preCalcCycle Mode_Auto s = Ok (b, s') /\
    heatMode (m_EE s) = Heat_Auto /\ m_AutoMode s' = Mode_Heat /\
    m_outTemp s < m_inTemp s - eHeatThresh (m_EE s) /\
    m_AutoHeat s' = Heat_HP.
Proof.
  eexists _, _, _. split; [run_it|]. split; [run_it|].
  repeat split; reflexivity.
Qed.

(** 70.0 degrees indoors and 60.0 outdoors are within 30 degrees: the
    heat pump. *)
Lemma preCalcCycle_auto_heat_source_witness :
  exists s,
    run 65536 auto_heat power_on = Ok s /\
    exists b s',
      preCalcCycle Mode_Auto s = Ok (b, s') /\
      m_AutoMode s' = Mode_Heat /\
      (m_AutoHeat s' = Heat_NG \/ m_AutoHeat s' = Heat_HP) /\
      (Z.abs (m_inTemp s - m_outTemp s) <= eHeatThresh (m_EE s) * 10 ->
       m_AutoHeat s' = Heat_HP).
Proof.
  eexists. split; [run_it|].
  match goal with |- exists _ _, preCalcCycle _ ?x = _ /\ _ => set (s := x) end.
  apply (preCalcCycle_auto_heat_source s).
  - decide_it.
  - decide_it.
  - reflexivity.
  - decide_it.
Defined.

(** C8. With a forecast whose minimum and maximum are equal, the tick
    that commits Cool mode calls [calcTargetTemp], whose interpolation
    divides by the width of the band: zero. *)
Theorem flat_forecast_divides_by_zero :
  run 65536 flat_forecast power_on = DivByZero /\
  exists s,
    run 65536 [SetMode 1; UpdatePeaks 70 70] power_on = Ok s /\
    band_width s = 0 /\
    calcTargetTemp Mode_Cool s = DivByZero /\
    calcTargetTemp Mode_Heat s = DivByZero.
Proof.
  split; [run_it|]. eexists. split; [run_it|]. repeat split; reflexivity.
Qed.

(** C9, as stated, fails: 90.0 degrees for the cool high setpoint is not
    clamped to 88.0, the setpoint stays at 82.0. *)
Lemma setTemp_does_not_clamp :
  exists s',
    setTemp Mode_Cool 900 true power_on = Ok s' /\
    coolTemp_at power_on true = 820 /\ coolTemp_at s' true = 820.
Proof. eexists. split; [run_it|]. split; reflexivity. Qed.

(** 90.0 degrees for the cool high setpoint leaves the object as it
    was. *)
Lemma setTemp_out_of_range_ignored_witness :
  setTemp Mode_Cool 900 true power_on = Ok power_on.
Proof.
  apply setTemp_out_of_range_ignored.
  left. split; [reflexivity | right; reflexivity].
Defined.

(** The interlock on the started cool cycle. *)
Lemma reachable_outputs_ok_witness :
  exists s, run 65536 cool_start power_on = Ok s /\ outputs_ok s.
Proof.
  eexists. split; [run_it|].
  apply (reachable_outputs_ok 65536).
  exists zeroed, cool_start. run_it.
Defined.

(** The started cool cycle, 19 ticks on. *)
Lemma lockout_trajectory_witness :
  exists s0 s,
    run 65536 cool_start power_on = Ok s0 /\
    state_at 65536 steady s0 19 = Ok s /\
    m_bRunning s = true /\ m_cycleTimer s = 19 /\
    m_bStart s = m_bStart s0 /\ m_bStop s = m_bStop s0 /\
    P_COOL (gpio s) = P_COOL (gpio s0) /\ P_HEAT (gpio s) = P_HEAT (gpio s0).
Proof.
  eexists _, _. split; [run_it|].
  match goal with |- state_at _ _ ?x _ = _ /\ _ => set (s0 := x) end.
  split; [run_it|].
  match goal with |- m_bRunning ?x = _ /\ _ => set (s := x) end.
  apply (lockout_trajectory 65536 steady s0 19 s).
  - intros i. reflexivity.
  - decide_it.
  - reflexivity.
  - reflexivity.
  - apply Nat.ltb_lt. reflexivity.
  - run_it.
Defined.

(** ** Further properties on concrete inputs *)

(** The cool low setpoint set to 80.0 degrees and read back. *)
Lemma setTemp_getSetTemp_witness :
  exists s',
    setTemp Mode_Cool 800 false forecast_known = Ok s' /\
    getSetTemp Mode_Cool false s' = 800.
Proof.
  apply (setTemp_getSetTemp Mode_Cool 800 false forecast_known).
  - left. split; [reflexivity | lia].
  - intros H. discriminate H.
  - decide_it.
Defined.

(** The cool low setpoint set to 80.0 degrees: the cool pair stays in
    order and the heat high setpoint stays 2.0 degrees below. *)
Lemma setTemp_keeps_order_witness :
  exists s',
    setTemp Mode_Cool 800 false forecast_known = Ok s' /\
    coolTemp_at s' false <= coolTemp_at s' true /\
    heatTemp_at s' true <= coolTemp_at s' false - 20.
Proof.
  eexists. split; [run_it|].
  match goal with |- coolTemp_at ?x _ <= _ /\ _ => set (s' := x) end.
  refine (proj1 (setTemp_keeps_order Mode_Cool 800 false forecast_known s' _ _) _ _).
  - unfold setpoints_ok. repeat split; decide_it.
  - run_it.
  - reflexivity.
  - lia.
Defined.

(** The cool low setpoint set to 74.0 degrees pulls the heat pair down
    and keeps its spread of 4.0 degrees. *)
Lemma setTemp_spread_witness :
  exists s',
    setTemp Mode_Cool 740 false forecast_known = Ok s' /\
    heatTemp_at s' true - heatTemp_at s' false
      = heatTemp_at forecast_known true - heatTemp_at forecast_known false.
Proof.
  eexists. split; [run_it|].
  match goal with |- heatTemp_at ?x _ - _ = _ => set (s' := x) end.
  refine (proj1 (proj1 (setTemp_spread Mode_Cool 740 false forecast_known s' _ _) _ _) _).
  - unfold setpoints_ok. repeat split; decide_it.
  - run_it.
  - reflexivity.
  - lia.
  - split; decide_it.
Defined.

(** The cool target of the constructed object with a forecast lies
    between its cool setpoints, 79.0 and 82.0 degrees. *)
Lemma calcTargetTemp_bounds_witness :
  exists s',
    calcTargetTemp Mode_Cool forecast_known = Ok s' /\
    790 <= m_targetTemp s' <= 820.
Proof.
  eexists. split; [run_it|].
  match goal with |- _ <= m_targetTemp ?x <= _ => set (s' := x) end.
  apply (calcTargetTemp_bounds Mode_Cool forecast_known s').
  - run_it.
  - left. reflexivity.
  - decide_it.
  - decide_it.
  - decide_it.
  - decide_it.
  - decide_it.
Defined.

(** The cool target computed twice. *)
Lemma calcTargetTemp_idempotent_witness :
  exists s',
    calcTargetTemp Mode_Cool forecast_known = Ok s' /\
    calcTargetTemp Mode_Cool s' = Ok s'.
Proof.
  eexists. split; [run_it|].
  match goal with |- calcTargetTemp _ ?x = _ => set (s' := x) end.
  apply (calcTargetTemp_idempotent Mode_Cool forecast_known s').
  - left. reflexivity.
  - run_it.
Defined.

(** The first forecast after power on. *)
Lemma updatePeaks_band_witness :
  out_band (updatePeaks 60 90 power_on) = (600, 900).
Proof.
  apply (updatePeaks_band 60 90 power_on).
  - lia.
  - lia.
  - discriminate.
  - split; decide_it.
  - split; decide_it.
  - reflexivity.
Defined.

(** A command name in mixed case. *)
Lemma setVar_ignores_case_witness :
  setVar 65536 "IdleMin" 120 power_on = setVar 65536 "idlemin" 120 power_on.
Proof. apply (setVar_ignores_case 65536). reflexivity. Defined.

(** A name that is not in the table. *)
Lemma setVar_unknown_name_witness :
  setVar 65536 "humidity" 40 power_on = Ok power_on.
Proof.
  apply (setVar_unknown_name 65536).
  intros c Hc. cbn in Hc.
  repeat (destruct Hc as [<- | Hc]; [reflexivity|]). destruct Hc.
Defined.

(** The tick that starts the cool cycle. *)
Lemma service_keeps_inputs_witness :
  exists s s1,
    run 65536 cool_request power_on = Ok s /\
    service 65536 1 s = Ok s1 /\ inputs s1 = inputs s.
Proof.
  eexists _, _. split; [run_it|].
  match goal with |- service _ _ ?x = _ /\ _ => set (s := x) end.
  split; [run_it|].
  match goal with |- inputs ?x = _ => set (s1 := x) end.
  apply (service_keeps_inputs 65536 1 s s1). run_it.
Defined.

(** One tick of the running cool cycle adds a second of filter time. *)
Lemma service_filter_time_witness :
  exists s s1,
    run 65536 cool_start power_on = Ok s /\
    service 65536 1 s = Ok s1 /\
    60 * filterMinutes (m_EE s1) + nSecs s1
      = 60 * filterMinutes (m_EE s) + nSecs s + 1.
Proof.
  eexists _, _. split; [run_it|].
  match goal with |- service _ _ ?x = _ /\ _ => set (s := x) end.
  split; [run_it|].
  match goal with |- _ * filterMinutes (m_EE ?x) + _ = _ => set (s1 := x) end.
  apply (service_filter_time 65536 1 s s1).
  - split; decide_it.
  - decide_it.
  - decide_it.
  - run_it.
Defined.

(** A remote reading of 72.0 degrees holds against the local sensor
    three ticks later. *)
Lemma remote_heartbeat_witness :
  exists s s',
    setVar 65536 "remotetemp" 720 power_on = Ok s /\
    run 65536 (ticks 3 1) s = Ok s' /\
    m_inTemp (updateIndoorTemp 800 50 s') = 720.
Proof.
  eexists _, _. split; [run_it|].
  match goal with |- run _ _ ?x = _ /\ _ => set (s := x) end.
  split; [run_it|].
  match goal with |- m_inTemp (updateIndoorTemp _ _ ?x) = _ => set (s' := x) end.
  apply (remote_heartbeat 65536 720 (ticks 3 1) 800 50 power_on s s').
  - lia.
  - split; decide_it.
  - split; decide_it.
  - run_it.
  - reflexivity.
  - run_it.
Defined.

(** An override of 2.0 degrees is gone after the 600 ticks of the
    default [overrideTime]. *)
Lemma override_lifetime_witness :
  exists s s',
    setVar 65536 "override" 20 power_on = Ok s /\
    run 65536 (ticks 600 1) s = Ok s' /\
    m_ovrTemp s' = 0 /\ m_overrideTimer s' = 0.
Proof.
  eexists _, _. split; [run_it|].
  match goal with |- run _ _ ?x = _ /\ _ => set (s := x) end.
  split; [run_it|].
  match goal with |- m_ovrTemp ?x = _ /\ _ => set (s' := x) end.
  apply (override_lifetime 65536 20 (ticks 600 1) power_on s s').
  - lia.
  - split; decide_it.
  - split; decide_it.
  - run_it.
  - run_it.
  - run_it.
Defined.

(** The tunables after [idlemin] was set to 1800. *)
Lemma reachable_limits_ok_witness :
  exists s, run 65536 idle_min_raised power_on = Ok s /\ limits_ok s.
Proof.
  eexists. split; [run_it|].
  apply (reachable_limits_ok 65536).
  exists zeroed, idle_min_raised. run_it.
Defined.

(** The setpoints after the cool low setpoint was edited. *)
Lemma reachable_setpoints_ok_witness :
  exists s, run 65536 cool_edit power_on = Ok s /\ setpoints_ok s.
Proof.
  eexists. split; [run_it|].
  apply (reachable_setpoints_ok 65536).
  exists zeroed, cool_edit. run_it.
Defined.

(** The fan on the started cool cycle. *)
Lemma reachable_fan_ok_witness :
  exists s, run 65536 cool_start power_on = Ok s /\ fan_ok s.
Proof.
  eexists. split; [run_it|].
  apply (reachable_fan_ok 65536).
  exists zeroed, cool_start. run_it.
Defined.

(** The idle system in cool mode at 81.0 degrees, the idle time over,
    on the minute boundary: the start is requested. *)
Lemma tempCheck_start_boundaries_witness :
  exists s s',
    run 65536 cool_request power_on = Ok s /\
    tempCheck 0 s = Ok s' /\
    (m_bStart s' = true <-> m_targetTemp s' <= m_inTemp s').
Proof.
  eexists. 
  match goal with
  | |- exists s', run _ _ _ = Ok ?x /\ _ =>
      assert (E : run 65536 cool_request power_on = Ok x) by run_it
  end.
  match type of E with _ = Ok ?x => set (s := x) in * end.
  destruct (tempCheck_start_boundaries 0 s) as (s' & T & _ & _ & C & _).
  - decide_it.
  - reflexivity.
  - decide_it.
  - reflexivity.
  - decide_it.
  - reflexivity.
  - decide_it.
  - exists s'. split; [exact E|]. split; [exact T|]. apply C. reflexivity.
Defined.

(** A tick of the constructed object with a forecast of 60 to 90
    degrees returns. *)
Lemma service_returns_witness :
  exists s1, service 65536 1 forecast_known = Ok s1.
Proof. apply (service_returns 65536 1 forecast_known). decide_it. Defined.
